(** * ReviewHub: the feedback wizard engine

    A shallow embedding of [src/components/ReviewHub.tsx] (and of the second
    copy of the component, which differs only in the shape of the request
    body and in the address it is sent to): the React state cells, the event
    handlers, the two effects that talk to [localStorage], the
    presentational components, and the part of the browser platform they
    call ([JSON], [Date], [FileReader.readAsDataURL], the e-mail regular
    expression). *)

From Stdlib Require Import ZArith Lia List String Ascii Bool.
From stdpp Require Import gmap list.
Import ListNotations.
Open Scope Z_scope.

(** ** JavaScript strings

    A JavaScript string is a sequence of UTF-16 code units; a code unit is
    an integer in [0, 65535]. *)

Abbreviation jsstring := (list Z).

Definition js (s : string) : jsstring :=
  map (fun a : ascii => Z.of_nat (nat_of_ascii a)) (list_ascii_of_string s).

(** A literal in which the apostrophe stands for the double quote. *)
Definition jsq (s : string) : jsstring :=
  map (fun c => if c =? 39 then 34 else c) (js s).

(** ** JSON values

    Objects keep their members in order.  A number literal without fraction
    and exponent is kept as an integer; every other number literal is kept
    as its text: the model does not interpret IEEE doubles. *)

#[local] Unset Elimination Schemes.
Inductive json :=
| JNull
| JBool (b : bool)
| JNum (z : Z)
| JNumText (lex : jsstring)
| JStr (s : jsstring)
| JArr (l : list json)
| JObj (l : list (jsstring * json)).
#[local] Set Elimination Schemes.

(** Property lookup and assignment on the member list of an object:
    assigning an existing key replaces the value in place, assigning a new
    key appends. *)

Fixpoint obj_get {A} (k : jsstring) (l : list (jsstring * A)) : option A :=
  match l with
  | [] => None
  | (k', v) :: l' => if decide (k = k') then Some v else obj_get k l'
  end.

Fixpoint obj_set {A} (k : jsstring) (v : A) (l : list (jsstring * A)) : list (jsstring * A) :=
  match l with
  | [] => [(k, v)]
  | (k', v') :: l' => if decide (k = k') then (k, v) :: l' else (k', v') :: obj_set k v l'
  end.

(** *** JSON.stringify *)

Definition hex_digit (d : Z) : Z := if d <? 10 then 48 + d else 87 + d.

Definition hex4 (c : Z) : jsstring :=
  [hex_digit (c / 4096 mod 16); hex_digit (c / 256 mod 16);
   hex_digit (c / 16 mod 16); hex_digit (c mod 16)].

Definition unicode_escape (c : Z) : jsstring := js "\u" ++ hex4 c.

Definition is_high_surrogate (c : Z) : bool := (55296 <=? c) && (c <=? 56319).
Definition is_low_surrogate (c : Z) : bool := (56320 <=? c) && (c <=? 57343).

(** One code unit that is not part of a surrogate pair, as it appears
    between the quotes. *)
Definition quote_unit (c : Z) : jsstring :=
  if c =? 8 then js "\b"
  else if c =? 9 then js "\t"
  else if c =? 10 then js "\n"
  else if c =? 12 then js "\f"
  else if c =? 13 then js "\r"
  else if c =? 34 then [92; 34]
  else if c =? 92 then [92; 92]
  else if c <? 32 then unicode_escape c
  else if is_high_surrogate c || is_low_surrogate c then unicode_escape c
  else [c].

Fixpoint quote_units (s : jsstring) : jsstring :=
  match s with
  | [] => []
  | c :: s' =>
      if is_high_surrogate c then
        match s' with
        | d :: s'' =>
            if is_low_surrogate d then c :: d :: quote_units s''
            else unicode_escape c ++ quote_units s'
        | [] => unicode_escape c
        end
      else quote_unit c ++ quote_units s'
  end.

Definition quote (s : jsstring) : jsstring := 34 :: quote_units s ++ [34].

Fixpoint digits_pos (fuel : nat) (n : Z) : jsstring :=
  match fuel with
  | O => []
  | S f => if n <? 10 then [48 + n] else digits_pos f (n / 10) ++ [48 + n mod 10]
  end.

(** Decimal text of an integer, as [Number.prototype.toString] prints the
    integers below 10^21. *)
Definition digits (z : Z) : jsstring :=
  if z <? 0 then 45 :: digits_pos 22 (- z) else digits_pos 22 z.

Fixpoint join_with (sep : jsstring) (parts : list jsstring) : jsstring :=
  match parts with
  | [] => []
  | [p] => p
  | p :: ps => p ++ sep ++ join_with sep ps
  end.

Fixpoint JSON_stringify (v : json) : jsstring :=
  match v with
  | JNull => js "null"
  | JBool true => js "true"
  | JBool false => js "false"
  | JNum z => digits z
  | JNumText lex => lex
  | JStr s => quote s
  | JArr l => 91 :: join_with [44] (map JSON_stringify l) ++ [93]
  | JObj l =>
      123 :: join_with [44]
               (map (fun kv => quote (fst kv) ++ 58 :: JSON_stringify (snd kv)) l)
          ++ [125]
  end.

(** *** JSON.parse

    A recursive-descent reader of the JSON grammar of ECMA-404.  [None] is
    the [SyntaxError] that [JSON.parse] throws. *)

Definition is_ws (c : Z) : bool := (c =? 32) || (c =? 9) || (c =? 10) || (c =? 13).

Fixpoint skip_ws (s : jsstring) : jsstring :=
  match s with
  | c :: s' => if is_ws c then skip_ws s' else s
  | [] => []
  end.

Definition hex_value (c : Z) : option Z :=
  if (48 <=? c) && (c <=? 57) then Some (c - 48)
  else if (97 <=? c) && (c <=? 102) then Some (c - 87)
  else if (65 <=? c) && (c <=? 70) then Some (c - 55)
  else None.

Definition hex4_value (h1 h2 h3 h4 : Z) : option Z :=
  match hex_value h1, hex_value h2, hex_value h3, hex_value h4 with
  | Some a, Some b, Some c, Some d => Some (a * 4096 + b * 256 + c * 16 + d)
  | _, _, _, _ => None
  end.

(** The character after a backslash, other than [u]. *)
Definition escape_value (e : Z) : option Z :=
  if e =? 34 then Some 34
  else if e =? 92 then Some 92
  else if e =? 47 then Some 47
  else if e =? 98 then Some 8
  else if e =? 102 then Some 12
  else if e =? 110 then Some 10
  else if e =? 114 then Some 13
  else if e =? 116 then Some 9
  else None.

(** The body of a string literal, after the opening quote, up to and
    including the closing quote. *)
Fixpoint parse_units (s : jsstring) : option (jsstring * jsstring) :=
  match s with
  | [] => None
  | c :: s' =>
      if c =? 34 then Some ([], s')
      else if c =? 92 then
        match s' with
        | [] => None
        | e :: s'' =>
            if e =? 117 then
              match s'' with
              | h1 :: h2 :: h3 :: h4 :: s3 =>
                  match hex4_value h1 h2 h3 h4 with
                  | Some u =>
                      match parse_units s3 with
                      | Some (str, r) => Some (u :: str, r)
                      | None => None
                      end
                  | None => None
                  end
              | _ => None
              end
            else
              match escape_value e with
              | Some u =>
                  match parse_units s'' with
                  | Some (str, r) => Some (u :: str, r)
                  | None => None
                  end
              | None => None
              end
        end
      else if c <? 32 then None
      else
        match parse_units s' with
        | Some (str, r) => Some (c :: str, r)
        | None => None
        end
  end.

Definition is_digit (c : Z) : bool := (48 <=? c) && (c <=? 57).

Fixpoint take_digits (s : jsstring) : jsstring * jsstring :=
  match s with
  | c :: s' =>
      if is_digit c then let '(ds, r) := take_digits s' in (c :: ds, r) else ([], s)
  | [] => ([], [])
  end.

Definition digits_value (ds : jsstring) : Z :=
  fold_left (fun acc c => acc * 10 + (c - 48)) ds 0.

(** number = [-] int [frac] [exp], int = 0 | digit1-9 digits. *)
Definition parse_number (s : jsstring) : option (json * jsstring) :=
  let '(neg, s1) := match s with 45 :: r => (true, r) | _ => (false, s) end in
  let '(int, s2) := take_digits s1 in
  match int with
  | [] => None
  | d :: more =>
      if (d =? 48) && negb (if more is [] then true else false) then None
      else
        let frac :=
          match s2 with
          | 46 :: r =>
              let '(fd, s3) := take_digits r in
              if fd is [] then None else Some (46 :: fd, s3)
          | _ => Some ([], s2)
          end in
        match frac with
        | None => None
        | Some (ftxt, s3) =>
            let exp :=
              match s3 with
              | e :: r =>
                  if (e =? 101) || (e =? 69) then
                    let '(sign, r1) :=
                      match r with
                      | sg :: r' => if (sg =? 43) || (sg =? 45) then ([sg], r') else ([], r)
                      | [] => ([], r)
                      end in
                    let '(ed, s4) := take_digits r1 in
                    if ed is [] then None else Some (e :: sign ++ ed, s4)
                  else Some ([], s3)
              | [] => Some ([], s3)
              end in
            match exp with
            | None => None
            | Some (etxt, s4) =>
                let plain := (if ftxt is [] then true else false)
                             && (if etxt is [] then true else false) in
                if plain && negb (neg && (digits_value int =? 0))
                then Some (JNum (if neg then - digits_value int else digits_value int), s4)
                else Some (JNumText ((if neg then [45] else []) ++ int ++ ftxt ++ etxt), s4)
            end
        end
  end.

Definition strip_prefix (p s : jsstring) : option jsstring :=
  if decide (take (length p) s = p) then Some (drop (length p) s) else None.

Fixpoint parse_value (fuel : nat) (s : jsstring) : option (json * jsstring) :=
  match fuel with
  | O => None
  | S f =>
      match skip_ws s with
      | [] => None
      | c :: r =>
          if c =? 34 then
            match parse_units r with
            | Some (str, r') => Some (JStr str, r')
            | None => None
            end
          else if c =? 123 then
            match skip_ws r with
            | 125 :: r' => Some (JObj [], r')
            | _ => parse_members f r []
            end
          else if c =? 91 then
            match skip_ws r with
            | 93 :: r' => Some (JArr [], r')
            | _ => parse_elements f r []
            end
          else if c =? 110 then
            match strip_prefix (js "ull") r with
            | Some r' => Some (JNull, r')
            | None => None
            end
          else if c =? 116 then
            match strip_prefix (js "rue") r with
            | Some r' => Some (JBool true, r')
            | None => None
            end
          else if c =? 102 then
            match strip_prefix (js "alse") r with
            | Some r' => Some (JBool false, r')
            | None => None
            end
          else parse_number (c :: r)
      end
  end
with parse_members (fuel : nat) (s : jsstring) (acc : list (jsstring * json))
  : option (json * jsstring) :=
  match fuel with
  | O => None
  | S f =>
      match skip_ws s with
      | 34 :: r =>
          match parse_units r with
          | Some (k, r1) =>
              match skip_ws r1 with
              | 58 :: r2 =>
                  match parse_value f r2 with
                  | Some (v, r3) =>
                      match skip_ws r3 with
                      | 44 :: r4 => parse_members f r4 (obj_set k v acc)
                      | 125 :: r4 => Some (JObj (obj_set k v acc), r4)
                      | _ => None
                      end
                  | None => None
                  end
              | _ => None
              end
          | None => None
          end
      | _ => None
      end
  end
with parse_elements (fuel : nat) (s : jsstring) (acc : list json)
  : option (json * jsstring) :=
  match fuel with
  | O => None
  | S f =>
      match parse_value f s with
      | Some (v, r) =>
          match skip_ws r with
          | 44 :: r' => parse_elements f r' (acc ++ [v])
          | 93 :: r' => Some (JArr (acc ++ [v]), r')
          | _ => None
          end
      | None => None
      end
  end.

Definition JSON_parse (s : jsstring) : option json :=
  match parse_value (S (length s)) s with
  | Some (v, r) => if skip_ws r is [] then Some v else None
  | None => None
  end.

(** ** Date

    Time values are integers: milliseconds since 1970-01-01T00:00:00Z. *)

Definition msPerDay : Z := 86400000.

(** Year, month (1..12) and day of month of a day number in the proleptic
    Gregorian calendar: the triple (YearFromTime, MonthFromTime + 1,
    DateFromTime) of ECMA-262, computed era by era (an era is 400 years,
    146097 days, starting on a 1st of March). *)
Definition year_of_era (doe : Z) : Z :=
  (doe - doe / 1460 + doe / 36524 - doe / 146096) / 365.

Definition days_before_year (yoe : Z) : Z := 365 * yoe + yoe / 4 - yoe / 100.

Definition civil_from_days (day : Z) : Z * Z * Z :=
  let z := day + 719468 in
  let era := z / 146097 in
  let doe := z - era * 146097 in
  let yoe := year_of_era doe in
  let doy := doe - days_before_year yoe in
  let mp := (5 * doy + 2) / 153 in
  let d := doy - (153 * mp + 2) / 5 + 1 in
  let m := if mp <? 10 then mp + 3 else mp - 9 in
  (yoe + era * 400 + (if m <=? 2 then 1 else 0), m, d).

(** MakeDay: the day number of a civil date. *)
Definition days_from_civil (y m d : Z) : Z :=
  let y' := if m <=? 2 then y - 1 else y in
  let era := y' / 400 in
  let yoe := y' - era * 400 in
  let mp := if 2 <? m then m - 3 else m + 9 in
  let doy := (153 * mp + 2) / 5 + d - 1 in
  era * 146097 + (days_before_year yoe + doy) - 719468.

Definition is_leap (y : Z) : bool :=
  (y mod 4 =? 0) && (negb (y mod 100 =? 0) || (y mod 400 =? 0)).

Definition days_in_month (y m : Z) : Z :=
  if m =? 2 then (if is_leap y then 29 else 28)
  else if (m =? 4) || (m =? 6) || (m =? 9) || (m =? 11) then 30
  else 31.

(** [k] decimal digits of [n], zero padded. *)
Fixpoint pad (k : nat) (n : Z) : jsstring :=
  match k with
  | O => []
  | S k' => pad k' (n / 10) ++ [48 + n mod 10]
  end.

(** Date.prototype.toISOString: YYYY-MM-DDTHH:mm:ss.sssZ, with the
    expanded year (sign and six digits) outside 0..9999. *)
Definition toISOString (t : Z) : jsstring :=
  let '(y, m, d) := civil_from_days (t / msPerDay) in
  let ms := t mod msPerDay in
  (if (0 <=? y) && (y <=? 9999) then pad 4 y
   else (if y <? 0 then 45 else 43) :: pad 6 (Z.abs y))
  ++ [45] ++ pad 2 m ++ [45] ++ pad 2 d ++ [84]
  ++ pad 2 (ms / 3600000) ++ [58] ++ pad 2 (ms / 60000 mod 60) ++ [58]
  ++ pad 2 (ms / 1000 mod 60) ++ [46] ++ pad 3 (ms mod 1000) ++ [90].

Definition number_of (ds : jsstring) : option Z :=
  if forallb is_digit ds then Some (digits_value ds) else None.

(** The time value of a string in exactly the format above with a
    four-digit year and every field in range; [None] for every other
    string. *)
Definition parse_iso (s : jsstring) : option Z :=
  match s with
  | [y1; y2; y3; y4; 45; m1; m2; 45; d1; d2; 84; h1; h2; 58; n1; n2; 58; s1; s2; 46;
     f1; f2; f3; 90] =>
      match number_of [y1; y2; y3; y4], number_of [m1; m2], number_of [d1; d2],
            number_of [h1; h2], number_of [n1; n2], number_of [s1; s2],
            number_of [f1; f2; f3] with
      | Some y, Some m, Some d, Some h, Some n, Some sec, Some f =>
          if (1 <=? m) && (m <=? 12) && (1 <=? d) && (d <=? days_in_month y m)
             && (h <=? 23) && (n <=? 59) && (sec <=? 59)
          then Some (days_from_civil y m d * msPerDay
                     + h * 3600000 + n * 60000 + sec * 1000 + f)
          else None
      | _, _, _, _, _, _, _ => None
      end
  | _ => None
  end.

(** What a call completes with: a value, or an exception that the caller
    does not catch. *)
Inductive exn := SyntaxError | TypeError.

Inductive Completion (A : Type) :=
| Returns (a : A)
| Throws (e : exn).

Arguments Returns {A} a.
Arguments Throws {A} e.

(** ToPrimitive and ToString on a value read from JSON.  No property of
    such a value is callable.  So an own property [toString] of an object
    hides [Object.prototype.toString], and the conversion of the object ends
    in a [TypeError]; without it the object converts to [[object Object]].
    An array converts by [join], which converts its elements in turn. *)
Fixpoint ToPrimitive_throws (v : json) : bool :=
  match v with
  | JObj l => if obj_get (js "toString") l is Some _ then true else false
  | JArr l => existsb ToPrimitive_throws l
  | _ => false
  end.

(** The string of a value whose conversion does not throw; [None] for the
    numbers whose text the model does not print (those with a fraction or an
    exponent, and the integers above 2^53). *)
Fixpoint ToString (v : json) : option jsstring :=
  match v with
  | JNull => Some (js "null")
  | JBool b => Some (if b then js "true" else js "false")
  | JNum z => if Z.abs z <=? 9007199254740992 then Some (digits z) else None
  | JNumText _ => None
  | JStr s => Some s
  | JArr l =>
      (fix join (l : list json) : option jsstring :=
         match l with
         | [] => Some []
         | x :: l' =>
             let element := if x is JNull then Some [] else ToString x in
             match l' with
             | [] => element
             | _ :: _ =>
                 match element, join l' with
                 | Some a, Some b => Some (a ++ 44 :: b)
                 | _, _ => None
                 end
             end
         end) l
  | JObj _ => Some (js "[object Object]")
  end.

(** The time value of a date string: the format of [toISOString] is read
    by the model, every other string by the host. *)
Definition Date_parse (host_date : json -> option Z) (s : jsstring) : option Z :=
  match parse_iso s with
  | Some t => Some t
  | None => host_date (JStr s)
  end.

(** [new Date(v).getTime()] for a value [v] read from JSON; the time value
    [None] is NaN, and [v = None] is [undefined].  A string is parsed; the
    integers, the booleans and [null] are converted as ToNumber and TimeClip
    say; an object or an array is first converted to a primitive, which
    throws or gives a string to parse.  What the host makes of a number
    with a fraction, and of the strings in another format, is the parameter
    [host_date]. *)
Definition Date_getTime (host_date : json -> option Z) (v : option json)
  : Completion (option Z) :=
  match v with
  | None => Returns None
  | Some JNull => Returns (Some 0)
  | Some (JBool b) => Returns (Some (if b then 1 else 0))
  | Some (JNum z) => Returns (if Z.abs z <=? 8640000000000000 then Some z else None)
  | Some (JNumText lex) => Returns (host_date (JNumText lex))
  | Some (JStr s) => Returns (Date_parse host_date s)
  | Some other =>
      if ToPrimitive_throws other then Throws TypeError
      else match ToString other with
           | Some s => Returns (Date_parse host_date s)
           | None => Returns (host_date other)
           end
  end.

(** ** FileReader.readAsDataURL *)

Definition b64_char (i : Z) : Z :=
  if i <? 26 then 65 + i
  else if i <? 52 then 71 + i
  else if i <? 62 then i - 4
  else if i =? 62 then 43
  else 47.

Definition b64_index (c : Z) : option Z :=
  if (65 <=? c) && (c <=? 90) then Some (c - 65)
  else if (97 <=? c) && (c <=? 122) then Some (c - 71)
  else if (48 <=? c) && (c <=? 57) then Some (c + 4)
  else if c =? 43 then Some 62
  else if c =? 47 then Some 63
  else None.

Fixpoint base64_encode (bytes : list Z) : jsstring :=
  match bytes with
  | [] => []
  | [a] => [b64_char (a / 4); b64_char (a mod 4 * 16); 61; 61]
  | [a; b] =>
      [b64_char (a / 4); b64_char (a mod 4 * 16 + b / 16); b64_char (b mod 16 * 4); 61]
  | a :: b :: c :: rest =>
      b64_char (a / 4) :: b64_char (a mod 4 * 16 + b / 16)
      :: b64_char (b mod 16 * 4 + c / 64) :: b64_char (c mod 64)
      :: base64_encode rest
  end.

Fixpoint base64_decode (s : jsstring) : option (list Z) :=
  match s with
  | [] => Some []
  | c1 :: c2 :: c3 :: c4 :: rest =>
      match b64_index c1, b64_index c2 with
      | Some i1, Some i2 =>
          let a := i1 * 4 + i2 / 16 in
          if c4 =? 61 then
            if rest is [] then
              if c3 =? 61 then Some [a]
              else
                match b64_index c3 with
                | Some i3 => Some [a; i2 mod 16 * 16 + i3 / 4]
                | None => None
                end
            else None
          else
            match b64_index c3, b64_index c4, base64_decode rest with
            | Some i3, Some i4, Some more =>
                Some (a :: (i2 mod 16 * 16 + i3 / 4) :: (i3 mod 4 * 64 + i4) :: more)
            | _, _, _ => None
            end
      | _, _ => None
      end
  | _ => None
  end.

(** The result of reading a blob of the given (non-empty) media type. *)
Definition readAsDataURL (type : jsstring) (bytes : list Z) : jsstring :=
  js "data:" ++ type ++ js ";base64," ++ base64_encode bytes.

Fixpoint split_at (sep : Z) (s : jsstring) : option (jsstring * jsstring) :=
  match s with
  | [] => None
  | c :: s' =>
      if c =? sep then Some ([], s')
      else match split_at sep s' with
           | Some (a, b) => Some (c :: a, b)
           | None => None
           end
  end.

(** Reading a base64 data URL back: its media type and its bytes. *)
Definition dataURL_decode (url : jsstring) : option (jsstring * list Z) :=
  match strip_prefix (js "data:") url with
  | Some r =>
      match split_at 59 r with
      | Some (type, r1) =>
          match strip_prefix (js "base64,") r1 with
          | Some payload =>
              match base64_decode payload with
              | Some bytes => Some (type, bytes)
              | None => None
              end
          | None => None
          end
      | None => None
      end
  | None => None
  end.

(** ** Regular expressions

    Matching by derivatives over code units (the expressions of the
    component have no [u] flag). *)

Inductive regex :=
| Void
| Eps
| Class (p : Z -> bool)
| Seq (r1 r2 : regex)
| Alt (r1 r2 : regex)
| Star (r : regex).

Definition Plus (r : regex) : regex := Seq r (Star r).
Definition Chr (c : Z) : regex := Class (fun x => x =? c).

Fixpoint nullable (r : regex) : bool :=
  match r with
  | Void => false
  | Eps => true
  | Class _ => false
  | Seq r1 r2 => nullable r1 && nullable r2
  | Alt r1 r2 => nullable r1 || nullable r2
  | Star _ => true
  end.

Fixpoint deriv (c : Z) (r : regex) : regex :=
  match r with
  | Void => Void
  | Eps => Void
  | Class p => if p c then Eps else Void
  | Seq r1 r2 =>
      if nullable r1 then Alt (Seq (deriv c r1) r2) (deriv c r2)
      else Seq (deriv c r1) r2
  | Alt r1 r2 => Alt (deriv c r1) (deriv c r2)
  | Star r1 => Seq (deriv c r1) (Star r1)
  end.

(** [/^r$/.test(s)] *)
Fixpoint regex_test (r : regex) (s : jsstring) : bool :=
  match s with
  | [] => nullable r
  | c :: s' => regex_test (deriv c r) s'
  end.

(** The class [\s]: WhiteSpace and LineTerminator code units. *)
Definition is_space (c : Z) : bool :=
  ((9 <=? c) && (c <=? 13)) || (c =? 32) || (c =? 160) || (c =? 5760)
  || ((8192 <=? c) && (c <=? 8202)) || (c =? 8232) || (c =? 8233)
  || (c =? 8239) || (c =? 8287) || (c =? 12288) || (c =? 65279).

(** [[^\s@]] *)
Definition not_space_at (c : Z) : bool := negb (is_space c || (c =? 64)).

(** [/^[^\s@]+@[^\s@]+\.[^\s@]+$/] *)
Definition email_regex : regex :=
  Seq (Plus (Class not_space_at))
    (Seq (Chr 64)
       (Seq (Plus (Class not_space_at))
          (Seq (Chr 46) (Plus (Class not_space_at))))).

(** * The component *)

Inductive PageType := landing | short_review | testimonial_deepdive | success.

#[global] Instance PageType_eq_dec : EqDecision PageType.
Proof. solve_decision. Defined.

(** [interface FormData { [key: string]: string; formType?: string }] *)
Abbreviation FormData := (gmap jsstring jsstring).

(** [interface UploadedFile]; [data] is [reader.result as string], which is
    [null] when the read failed. *)
Record UploadedFile := mkUploadedFile {
  uf_name : jsstring;
  uf_type : jsstring;
  uf_size : Z;
  uf_data : option jsstring
}.

(** The eight [useState] cells of [ReviewHub]. *)
Record State := mkState {
  currentPage : PageType;
  formData : gmap jsstring jsstring;
  errors : gmap jsstring (option jsstring);
  isSubmitting : bool;
  submitError : option jsstring;
  draftSaved : bool;
  uploadedFile : option UploadedFile;
  rating : Z
}.

Definition initialState : State :=
  mkState landing ∅ ∅ false None false None 0.

Definition setCurrentPage (p : PageType) (st : State) : State :=
  mkState p (formData st) (errors st) (isSubmitting st) (submitError st)
    (draftSaved st) (uploadedFile st) (rating st).

Definition setFormData (d : gmap jsstring jsstring) (st : State) : State :=
  mkState (currentPage st) d (errors st) (isSubmitting st) (submitError st)
    (draftSaved st) (uploadedFile st) (rating st).

Definition setErrors (e : gmap jsstring (option jsstring)) (st : State) : State :=
  mkState (currentPage st) (formData st) e (isSubmitting st) (submitError st)
    (draftSaved st) (uploadedFile st) (rating st).

Definition setIsSubmitting (b : bool) (st : State) : State :=
  mkState (currentPage st) (formData st) (errors st) b (submitError st)
    (draftSaved st) (uploadedFile st) (rating st).

Definition setSubmitError (e : option jsstring) (st : State) : State :=
  mkState (currentPage st) (formData st) (errors st) (isSubmitting st) e
    (draftSaved st) (uploadedFile st) (rating st).

Definition setDraftSaved (b : bool) (st : State) : State :=
  mkState (currentPage st) (formData st) (errors st) (isSubmitting st)
    (submitError st) b (uploadedFile st) (rating st).

Definition setUploadedFile (f : option UploadedFile) (st : State) : State :=
  mkState (currentPage st) (formData st) (errors st) (isSubmitting st)
    (submitError st) (draftSaved st) f (rating st).

Definition setRating (r : Z) (st : State) : State :=
  mkState (currentPage st) (formData st) (errors st) (isSubmitting st)
    (submitError st) (draftSaved st) (uploadedFile st) r.

(** What surrounds the state cells: [localStorage], the pending 3000 ms
    timer of the auto-save effect with the [formData] its closure captured,
    the number of pending 2000 ms timers that clear [draftSaved], and the
    track label held by the continuation of a [handleSubmit] that awaits
    its [fetch]. *)
Record World := mkWorld {
  ui : State;
  localStorage : gmap jsstring jsstring;
  saveTimer : option (gmap jsstring jsstring);
  flagTimers : nat;
  awaiting : option jsstring
}.

Definition DRAFT_KEY : jsstring := js "testimonial_draft".

(** ** Auto-save draft for testimonial deep-dive *)

Definition FormData_json (d : gmap jsstring jsstring) : json :=
  JObj (map (fun kv => (fst kv, JStr (snd kv))) (map_to_list d)).

Definition draft_json (d : gmap jsstring jsstring) (now : Z) : json :=
  JObj [(js "data", FormData_json d); (js "timestamp", JStr (toISOString now))].

(** The body of the timer callback that touches the storage. *)
Definition saveDraft (d : gmap jsstring jsstring) (now : Z)
    (ls : gmap jsstring jsstring) : gmap jsstring jsstring :=
  <[DRAFT_KEY := JSON_stringify (draft_json d now)]> ls.

(** The effect with dependencies [formData, currentPage]: its clean-up
    clears the pending timer, its body starts a new one when the page is
    the deep-dive and [formData] has a key. *)
Definition autoSaveEffect (st : State) : option (gmap jsstring jsstring) :=
  if bool_decide (currentPage st = testimonial_deepdive) && (0 <? Z.of_nat (size (formData st)))
  then Some (formData st) else None.

(** A render with the new state cells; the auto-save effect runs again when
    one of its dependencies changed. *)
Definition commit (deps_changed : bool) (st : State) (w : World) : World :=
  mkWorld st (localStorage w)
    (if deps_changed then autoSaveEffect st else saveTimer w)
    (flagTimers w) (awaiting w).

Definition saveTimerFires (now : Z) (w : World) : World :=
  match saveTimer w with
  | None => w
  | Some captured =>
      mkWorld (setDraftSaved true (ui w)) (saveDraft captured now (localStorage w))
        None (S (flagTimers w)) (awaiting w)
  end.

Definition flagTimerFires (w : World) : World :=
  match flagTimers w with
  | O => w
  | S n => mkWorld (setDraftSaved false (ui w)) (localStorage w) (saveTimer w) n (awaiting w)
  end.

(** ** Load draft on mount *)

Inductive LoadResult :=
| LoadNothing                     (* the effect returns without a state update *)
| LoadThrows (e : exn)            (* the effect throws *)
| LoadSeeds (data : option json). (* [setFormData(data)]; [None] is [undefined] *)

(** [const { data, timestamp } = v]: a [TypeError] on [null], the own
    property of an object, [undefined] on the other values (their
    prototypes have no [data] and no [timestamp]). *)
Definition get_property (k : jsstring) (v : json) : option json :=
  match v with
  | JObj l => obj_get k l
  | _ => None
  end.

Definition loadDraft (host_date : json -> option Z)
    (ls : gmap jsstring jsstring) (now : Z) : LoadResult :=
  match ls !! DRAFT_KEY with
  | None => LoadNothing
  | Some draft =>
      if draft is [] then LoadNothing
      else
        match JSON_parse draft with
        | None => LoadThrows SyntaxError
        | Some JNull => LoadThrows TypeError
        | Some parsed =>
            let data := get_property (js "data") parsed in
            let timestamp := get_property (js "timestamp") parsed in
            match Date_getTime host_date timestamp with
            | Throws e => LoadThrows e
            | Returns None => LoadNothing
            | Returns (Some t) =>
                let age := now - t in
                if age <? 24 * 60 * 60 * 1000 then LoadSeeds data else LoadNothing
            end
        end
  end.

(** The parsed [data] as a value of the declared type of the state cell:
    an object whose values are all strings. *)
Fixpoint members_FormData (l : list (jsstring * json)) : option (gmap jsstring jsstring) :=
  match l with
  | [] => Some ∅
  | (k, JStr s) :: l' =>
      match members_FormData l' with
      | Some m => Some (<[k := s]> m)
      | None => None
      end
  | _ => None
  end.

Definition as_FormData (v : json) : option (gmap jsstring jsstring) :=
  match v with
  | JObj l => members_FormData l
  | _ => None
  end.

(** The component after its first render and its two mount effects.
    [EffectThrows]: the load effect threw, and nothing in the component
    catches it.  [IllTyped]: [setFormData] received a value that is not a
    [FormData]; the model does not follow the component further. *)
Inductive Mounted :=
| Running (w : World)
| EffectThrows (e : exn)
| IllTyped (data : option json).

Definition mount (host_date : json -> option Z)
    (ls : gmap jsstring jsstring) (now : Z) : Mounted :=
  let w0 := mkWorld initialState ls (autoSaveEffect initialState) 0%nat None in
  match loadDraft host_date ls now with
  | LoadNothing => Running w0
  | LoadThrows e => EffectThrows e
  | LoadSeeds (Some data) =>
      match as_FormData data with
      | Some d => Running (commit true (setFormData d (ui w0)) w0)
      | None => IllTyped (Some data)
      end
  | LoadSeeds None => IllTyped None
  end.

(** ** validateField and handleInputChange *)

Definition MSG_REQUIRED : jsstring := js "This field is required".
Definition MSG_EMAIL : jsstring := js "Please enter a valid email".

Definition validateField (id value : jsstring) (required : bool) : option jsstring :=
  if required && (if value is [] then true else false) then Some MSG_REQUIRED
  else if bool_decide (id = js "email") && negb (if value is [] then true else false)
          && negb (regex_test email_regex value)
  then Some MSG_EMAIL
  else None.

Definition handleInputChange (id value : jsstring) (w : World) : World :=
  let st := ui w in
  let st1 := setFormData (<[id := value]> (formData st)) st in
  let error := validateField id value true in
  commit true (setErrors (<[id := error]> (errors st1)) st1) w.

(** The inputs of the two forms with their [required] attribute. *)
Definition short_review_fields : list (jsstring * bool) :=
  [(js "name", true); (js "company", true); (js "email", false);
   (js "q1_experience", true); (js "q2_problem", true); (js "q3_change", true);
   (js "q4_standout", true); (js "q5_recommend", true); (js "q6_additional", false);
   (js "permission", true)].

Definition testimonial_deepdive_fields : list (jsstring * bool) :=
  [(js "name", true); (js "company", true); (js "role", false); (js "email", false);
   (js "q1_challenges", true); (js "q2_decision", true);
   (js "q3_first_impression", true); (js "q4_impact", true); (js "q5_quantify", false);
   (js "q6_aha_moment", true); (js "q7_describe_working", true);
   (js "q8_feature_permission", true)].

(** ** handleFileUpload *)

(** A [File] of the file input: its name, its declared media type, its
    declared size and its content. *)
Record File := mkFile {
  file_name : jsstring;
  file_type : jsstring;
  file_size : Z;
  file_bytes : list Z
}.

Definition validTypes : list jsstring :=
  [js "image/jpeg"; js "image/png"; js "image/svg+xml"].

Definition maxSize : Z := 5 * 1024 * 1024.

Definition MSG_TYPE : jsstring := js "Please upload JPG, PNG, or SVG only".
Definition MSG_SIZE : jsstring := js "File must be under 5MB".
Definition LOGO : jsstring := js "logo".

(** The synchronous part: the new state, and the file handed to the
    [FileReader] when the candidate passes both tests. *)
Definition handleFileUpload (selected : option File) (st : State) : State * option File :=
  match selected with
  | None => (st, None)
  | Some file =>
      if negb (bool_decide (file_type file ∈ validTypes)) then
        (setErrors (<[LOGO := Some MSG_TYPE]> (errors st)) st, None)
      else if maxSize <? file_size file then
        (setErrors (<[LOGO := Some MSG_SIZE]> (errors st)) st, None)
      else (st, Some file)
  end.

(** [reader.onloadend], which runs after a successful and after a failed
    read; [result] is [reader.result]. *)
Definition onloadend (file : File) (result : option jsstring) (st : State) : State :=
  let st1 :=
    setUploadedFile
      (Some (mkUploadedFile (file_name file) (file_type file) (file_size file) result)) st in
  setErrors (<[LOGO := None]> (errors st1)) st1.

(** [reader.result] after [readAsDataURL(file)]. *)
Definition reader_result (file : File) (read_ok : bool) : option jsstring :=
  if read_ok then Some (readAsDataURL (file_type file) (file_bytes file)) else None.

(** Selecting a file, and the end of the read when one was started. *)
Definition upload (selected : option File) (read_ok : bool) (w : World) : World :=
  match handleFileUpload selected (ui w) with
  | (st, None) => commit false st w
  | (st, Some file) => commit false (onloadend file (reader_result file read_ok) st) w
  end.

(** ** handleSubmit *)

Record Env := mkEnv {
  userAgent : jsstring;  (* navigator.userAgent *)
  referrer : jsstring    (* document.referrer *)
}.

Definition MSG_SUBMIT : jsstring :=
  js "Unable to submit. Please check your connection and try again.".

(** [{ ...base, ...d }]: the keys of [d] are assigned in turn. *)
Definition spread (d : gmap jsstring jsstring) (base : list (jsstring * json))
  : list (jsstring * json) :=
  fold_left (fun acc kv => obj_set (fst kv) (JStr (snd kv)) acc) (map_to_list d) base.

(** [rating || null] *)
Definition rating_json (r : Z) : json := if r =? 0 then JNull else JNum r.

Definition option_json (s : option jsstring) : json :=
  match s with
  | Some x => JStr x
  | None => JNull
  end.

Definition file_json (f : option UploadedFile) : json :=
  match f with
  | None => JNull
  | Some u =>
      JObj [(js "name", JStr (uf_name u)); (js "type", JStr (uf_type u));
            (js "size", JNum (uf_size u)); (js "data", option_json (uf_data u))]
  end.

(** The object literal [payload] of [src/components/ReviewHub.tsx]. *)
Definition payload (formType : jsstring) (now : Z) (env : Env) (st : State)
  : list (jsstring * json) :=
  obj_set (js "referrer") (JStr (referrer env))
    (obj_set (js "userAgent") (JStr (userAgent env))
       (obj_set (js "file") (file_json (uploadedFile st))
          (obj_set (js "rating") (rating_json (rating st))
             (spread (formData st)
                (obj_set (js "submittedAt") (JStr (toISOString now))
                   (obj_set (js "reviewType") (JStr formType) [])))))).

(** The object literal [payload] of the second copy of the component. *)
Definition payload_nested (formType : jsstring) (now : Z) (env : Env) (st : State)
  : list (jsstring * json) :=
  obj_set (js "metadata")
    (JObj (obj_set (js "referrer") (JStr (referrer env))
             (obj_set (js "userAgent") (JStr (userAgent env)) [])))
    (obj_set (js "file") (file_json (uploadedFile st))
       (obj_set (js "data")
          (JObj (obj_set (js "rating") (rating_json (rating st)) (spread (formData st) [])))
          (obj_set (js "submittedAt") (JStr (toISOString now))
             (obj_set (js "formType") (JStr formType) [])))).

Record Request := mkRequest {
  req_url : jsstring;
  req_method : jsstring;
  req_headers : list (jsstring * jsstring);
  req_body : jsstring
}.

Definition ENDPOINT : jsstring :=
  js "https://synergaise.app.n8n.cloud/webhook/review-collection".

Definition request_of (body : list (jsstring * json)) : Request :=
  mkRequest ENDPOINT (js "POST") [(js "Content-Type", js "application/json")]
    (JSON_stringify (JObj body)).

(** The second copy of the component sends its object to another
    address. *)
Definition ENDPOINT_nested : jsstring :=
  js "https://synergaise.app.n8n.cloud/webhook-test/13e2cfdd-9291-4609-abe9-b545ac5c270e".

Definition request_nested (body : list (jsstring * json)) : Request :=
  mkRequest ENDPOINT_nested (js "POST") [(js "Content-Type", js "application/json")]
    (JSON_stringify (JObj body)).

(** How the awaited [fetch] settles: a response with its status, or a
    rejection. *)
Inductive FetchOutcome := Responded (status : Z) | NetworkError.

(** [response.ok] *)
Definition response_ok (o : FetchOutcome) : bool :=
  match o with
  | Responded status => (200 <=? status) && (status <=? 299)
  | NetworkError => false
  end.

(** [handleSubmit] up to its [await]: the two state updates and the
    request handed to [fetch]. *)
Definition handleSubmit_begin (formType : jsstring) (now : Z) (env : Env) (w : World)
  : World * Request :=
  let st := ui w in
  (mkWorld (setSubmitError None (setIsSubmitting true st))
     (localStorage w) (saveTimer w) (flagTimers w) (Some formType),
   request_of (payload formType now env st)).

(** The same part of [handleSubmit] in the second copy. *)
Definition handleSubmit_begin_nested (formType : jsstring) (now : Z) (env : Env) (w : World)
  : World * Request :=
  let st := ui w in
  (mkWorld (setSubmitError None (setIsSubmitting true st))
     (localStorage w) (saveTimer w) (flagTimers w) (Some formType),
   request_nested (payload_nested formType now env st)).

(** [handleSubmit] after its [await]: the rest of the [try] block, the
    [catch] block and the [finally] block. *)
Definition handleSubmit_end (formType : jsstring) (o : FetchOutcome) (w : World) : World :=
  let st := ui w in
  if response_ok o then
    let st1 := setCurrentPage success st in
    let st2 := setFormData (<[js "formType" := formType]> (formData st1)) st1 in
    let st3 := setIsSubmitting false st2 in
    mkWorld st3 (delete DRAFT_KEY (localStorage w)) (autoSaveEffect st3) (flagTimers w) None
  else
    let st1 := setSubmitError (Some MSG_SUBMIT) st in
    let st2 := setIsSubmitting false st1 in
    mkWorld st2 (localStorage w) (saveTimer w) (flagTimers w) None.

(** ** The buttons *)

(** Return Home, on the success page. *)
Definition returnHome (w : World) : World :=
  let st := ui w in
  commit true
    (setUploadedFile None (setRating 0 (setFormData ∅ (setCurrentPage landing st)))) w.

Definition navigate (p : PageType) (w : World) : World :=
  commit (negb (bool_decide (currentPage (ui w) = p))) (setCurrentPage p (ui w)) w.

Inductive Track := shortReview | deepDive.

Definition track_page (t : Track) : PageType :=
  match t with
  | shortReview => short_review
  | deepDive => testimonial_deepdive
  end.

(** The label each submit button passes to [handleSubmit]. *)
Definition track_label (t : Track) : jsstring :=
  match t with
  | shortReview => js "Short Review"
  | deepDive => js "Testimonial Deep-Dive"
  end.

Definition on_track (p : PageType) : option Track :=
  match p with
  | short_review => Some shortReview
  | testimonial_deepdive => Some deepDive
  | _ => None
  end.

(** ** The events of the wizard

    What can happen to a mounted component, and the page on which the
    control that triggers it is rendered. *)
Inductive Event :=
| Choose (t : Track)
| GoBack
| Edit (id value : jsstring)
| Rate (star : Z)
| SelectFile (selected : option File) (read_ok : bool)
| RemoveFile
| Submit (now : Z) (env : Env)
| FetchSettles (o : FetchOutcome)
| ReturnHome
| SaveTimer (now : Z)
| FlagTimer.

Definition step (e : Event) (w : World) : option World :=
  let st := ui w in
  match e with
  | Choose t =>
      if bool_decide (currentPage st = landing) then Some (navigate (track_page t) w) else None
  | GoBack =>
      if on_track (currentPage st) is Some _ then Some (navigate landing w) else None
  | Edit id value =>
      if on_track (currentPage st) is Some _ then Some (handleInputChange id value w) else None
  | Rate star =>
      if on_track (currentPage st) is Some _
      then if (1 <=? star) && (star <=? 5) then Some (commit false (setRating star st) w) else None
      else None
  | SelectFile selected read_ok =>
      match currentPage st, uploadedFile st with
      | testimonial_deepdive, None => Some (upload selected read_ok w)
      | _, _ => None
      end
  | RemoveFile =>
      match currentPage st, uploadedFile st with
      | testimonial_deepdive, Some _ => Some (commit false (setUploadedFile None st) w)
      | _, _ => None
      end
  | Submit now env =>
      match on_track (currentPage st), isSubmitting st with
      | Some t, false => Some (fst (handleSubmit_begin (track_label t) now env w))
      | _, _ => None
      end
  | FetchSettles o =>
      match awaiting w with
      | Some formType => Some (handleSubmit_end formType o w)
      | None => None
      end
  | ReturnHome =>
      if bool_decide (currentPage st = success) then Some (returnHome w) else None
  | SaveTimer now =>
      if saveTimer w is Some _ then Some (saveTimerFires now w) else None
  | FlagTimer =>
      if flagTimers w is S _ then Some (flagTimerFires w) else None
  end.

Fixpoint run (es : list Event) (w : World) : option World :=
  match es with
  | [] => Some w
  | e :: es' =>
      match step e w with
      | Some w' => run es' w'
      | None => None
      end
  end.

(** The request a [Submit] hands to [fetch], when the button accepts the
    click. *)
Definition request_sent (e : Event) (w : World) : option Request :=
  match e with
  | Submit now env =>
      match on_track (currentPage (ui w)), isSubmitting (ui w) with
      | Some t, false => Some (snd (handleSubmit_begin (track_label t) now env w))
      | _, _ => None
      end
  | _ => None
  end.

(** ** What is rendered

    The presentational components, the controls of the two forms, the
    submit button and the text of the success page, without their styling
    and their fixed texts (labels, placeholders, headings), which no code
    reads. *)

Definition stars : list Z := [1; 2; 3; 4; 5].

(** [StarRating]: the five stars in order, each with whether it is filled.
    A click on a star calls [onChange] with the number of the star. *)
Definition StarRating (value : Z) : list (Z * bool) :=
  map (fun star => (star, star <=? value)) stars.

(** [formData[id] || ''] *)
Definition field_value (d : gmap jsstring jsstring) (id : jsstring) : jsstring :=
  match d !! id with
  | Some (c :: s) => c :: s
  | _ => []
  end.

(** [error && <p>{error}</p>]: the line is rendered when the error is a
    non-empty string. *)
Definition error_line (error : option (option jsstring)) : option jsstring :=
  match error with
  | Some (Some (c :: s)) => Some (c :: s)
  | _ => None
  end.

(** The controls of a form, with the properties their page passes. *)
Inductive Control :=
| TextInput (id type : jsstring) (required : bool) (maxLength : option Z)
| TextArea (id : jsstring) (required : bool) (maxLength : option Z)
| SingleChoice (id : jsstring) (choices : list jsstring) (required : bool).

Definition control_id (c : Control) : jsstring :=
  match c with
  | TextInput id _ _ _ => id
  | TextArea id _ _ => id
  | SingleChoice id _ _ => id
  end.

Definition control_required (c : Control) : bool :=
  match c with
  | TextInput _ _ required _ => required
  | TextArea _ required _ => required
  | SingleChoice _ _ required => required
  end.

(** [{maxLength && (<div>{value.length} / {maxLength}</div>)}]: nothing
    without a [maxLength], the number itself when it is 0. *)
Inductive CounterView :=
| NoCounter
| BareZero
| Count (len maxLength : Z).

Inductive ControlView :=
| TextInputView (type : jsstring) (optional_mark : bool) (value : jsstring)
    (maxLength : option Z) (counter : CounterView) (message : option jsstring)
| TextAreaView (optional_mark : bool) (value : jsstring)
    (maxLength : Z) (counter : CounterView) (message : option jsstring)
| SingleChoiceView (radios : list (jsstring * bool)) (message : option jsstring).

(** The bodies of [TextInput], [TextArea] and [SingleChoice], with
    [value = formData[id] || ''] and [error = errors[id]]. *)
Definition render_control (st : State) (c : Control) : ControlView :=
  match c with
  | TextInput id type required maxLength =>
      let value := field_value (formData st) id in
      TextInputView type (negb required) value maxLength
        (match maxLength with
         | None => NoCounter
         | Some m => if m =? 0 then BareZero else Count (Z.of_nat (length value)) m
         end)
        (error_line (errors st !! id))
  | TextArea id required maxLength =>
      let value := field_value (formData st) id in
      let m := default 1000 maxLength in
      TextAreaView (negb required) value m (Count (Z.of_nat (length value)) m)
        (error_line (errors st !! id))
  | SingleChoice id choices required =>
      let value := field_value (formData st) id in
      SingleChoiceView (map (fun choice => (choice, bool_decide (value = choice))) choices)
        (error_line (errors st !! id))
  end.

Definition short_review_form : list Control :=
  [TextInput (js "name") (js "text") true (Some 100);
   TextInput (js "company") (js "text") true (Some 100);
   TextInput (js "email") (js "email") false (Some 100);
   TextArea (js "q1_experience") true None;
   TextArea (js "q2_problem") true None;
   TextArea (js "q3_change") true None;
   TextArea (js "q4_standout") true None;
   TextArea (js "q5_recommend") true None;
   TextArea (js "q6_additional") false None;
   SingleChoice (js "permission") [js "Yes"; js "No"] true].

Definition testimonial_deepdive_form : list Control :=
  [TextInput (js "name") (js "text") true (Some 100);
   TextInput (js "company") (js "text") true (Some 100);
   TextInput (js "role") (js "text") false (Some 100);
   TextInput (js "email") (js "email") false (Some 100);
   TextArea (js "q1_challenges") true None;
   TextArea (js "q2_decision") true None;
   TextArea (js "q3_first_impression") true None;
   TextArea (js "q4_impact") true None;
   TextArea (js "q5_quantify") false None;
   TextArea (js "q6_aha_moment") true None;
   TextArea (js "q7_describe_working") true None;
   SingleChoice (js "q8_feature_permission")
     [js "Yes, absolutely"; js "Yes, but please check with me first";
      js "No, keep it private"] true].

Definition form_of (p : PageType) : list Control :=
  match p with
  | short_review => short_review_form
  | testimonial_deepdive => testimonial_deepdive_form
  | _ => []
  end.

(** The submit button: [disabled], and its text. *)
Definition submit_button (st : State) : bool * jsstring :=
  (isSubmitting st, if isSubmitting st then js "Submitting..." else js "SEND REVIEW").

Definition THANKS_SHORT : jsstring :=
  js "We appreciate your time " ++ 8212
  :: js " your feedback helps us improve and inspire others. We'll let you know once it goes live!".

Definition THANKS_DEEP : jsstring :=
  js "Your testimonial means a lot " ++ 8212
  :: js " we'll be in touch when it's published on the Synergaise site or used in our case studies.".

(** [formData.formType === 'Short Review' ? ... : ...] *)
Definition success_message (st : State) : jsstring :=
  if bool_decide (formData st !! js "formType" = Some (js "Short Review"))
  then THANKS_SHORT else THANKS_DEEP.

(** * Specifications *)

(** The language of a regular expression. *)
Inductive matches : regex -> jsstring -> Prop :=
| matches_eps : matches Eps []
| matches_class p c : p c = true -> matches (Class p) [c]
| matches_seq r1 r2 s1 s2 :
    matches r1 s1 -> matches r2 s2 -> matches (Seq r1 r2) (s1 ++ s2)
| matches_alt_l r1 r2 s : matches r1 s -> matches (Alt r1 r2) s
| matches_alt_r r1 r2 s : matches r2 s -> matches (Alt r1 r2) s
| matches_star_nil r : matches (Star r) []
| matches_star_more r s1 s2 :
    matches r s1 -> matches (Star r) s2 -> matches (Star r) (s1 ++ s2).

(** The strings the e-mail expression accepts: one [@], no white space, a
    non-empty local part, and after the [@] a dot with at least one code
    unit on each side. *)
Definition email_shape (value : jsstring) : Prop :=
  exists loc label rest,
    value = loc ++ 64 :: label ++ 46 :: rest
    /\ loc <> [] /\ label <> [] /\ rest <> []
    /\ Forall (fun c => not_space_at c = true) (loc ++ label ++ rest).

(** The pattern in the words of the specification: local-part@domain, each
    part non-empty, no white space, and a dot in the domain. *)
Definition spec_email_shape (value : jsstring) : Prop :=
  exists loc domain,
    value = loc ++ 64 :: domain
    /\ loc <> [] /\ domain <> []
    /\ Forall (fun c => is_space c = false) value
    /\ 46 ∈ domain.

(** Well-formed values: strings are sequences of code units, integers are
    exactly representable (at most 2^53 in absolute value), the members of
    an object have distinct keys, and no number is kept as text. *)

Definition code_unit (c : Z) : Prop := 0 <= c < 65536.

Fixpoint wf_json (v : json) : Prop :=
  match v with
  | JNull | JBool _ => True
  | JNum z => Z.abs z <= 9007199254740992
  | JNumText _ => False
  | JStr s => Forall code_unit s
  | JArr l => fold_right (fun x P => wf_json x /\ P) True l
  | JObj l =>
      NoDup (map fst l)
      /\ fold_right (fun kv P => Forall code_unit (fst kv) /\ wf_json (snd kv) /\ P) True l
  end.

(** The depth of recursion [parse_value] needs to read a value back. *)
Fixpoint json_size (v : json) : nat :=
  match v with
  | JArr l => S (fold_right (fun x n => S (json_size x + n)) O l)
  | JObj l => S (fold_right (fun kv n => S (json_size (snd kv) + n)) O l)
  | _ => 1
  end.

(** What may follow a value inside a JSON text. *)
Definition delimited (rest : jsstring) : Prop :=
  match rest with
  | [] => True
  | c :: _ => c = 44 \/ c = 93 \/ c = 125
  end.

Definition member_text (kv : jsstring * json) : jsstring :=
  quote (fst kv) ++ 58 :: JSON_stringify (snd kv).

(** A parsed string literal with one more code unit in front. *)
Definition and_then (c : Z) (r : option (jsstring * jsstring)) : option (jsstring * jsstring) :=
  match r with
  | Some (str, rest) => Some (c :: str, rest)
  | None => None
  end.

Definition members_wf (l : list (jsstring * json)) : Prop :=
  fold_right (fun kv P => Forall code_unit (fst kv) /\ wf_json (snd kv) /\ P) True l.

Definition members_size (l : list (jsstring * json)) : nat :=
  fold_right (fun kv n => S (json_size (snd kv) + n)) O l.

Definition elements_wf (l : list json) : Prop :=
  fold_right (fun x P => wf_json x /\ P) True l.

Definition elements_size (l : list json) : nat :=
  fold_right (fun x n => S (json_size x + n)) O l.

Definition starts_with_digit (s : jsstring) : bool :=
  match s with
  | c :: _ => is_digit c
  | [] => false
  end.

(** The content of a file is a sequence of bytes. *)
Definition is_byte (b : Z) : Prop := 0 <= b < 256.

(** A record whose keys and values are JavaScript strings. *)
Definition wf_FormData (d : gmap jsstring jsstring) : Prop :=
  map_Forall (fun k v => Forall code_unit k /\ Forall code_unit v) d.

(** Objects and states whose strings are JavaScript strings and whose
    numbers are exactly representable. *)

Definition wf_object (l : list (jsstring * json)) : Prop :=
  NoDup (map fst l) /\ members_wf l.

Definition wf_UploadedFile (u : UploadedFile) : Prop :=
  Forall code_unit (uf_name u) /\ Forall code_unit (uf_type u)
  /\ 0 <= uf_size u <= 9007199254740992
  /\ match uf_data u with Some s => Forall code_unit s | None => True end.

Definition wf_State (st : State) : Prop :=
  wf_FormData (formData st)
  /\ 0 <= rating st <= 5
  /\ match uploadedFile st with Some u => wf_UploadedFile u | None => True end.

Definition wf_Env (env : Env) : Prop :=
  Forall code_unit (userAgent env) /\ Forall code_unit (referrer env).

(** ** Files, events and worlds made of JavaScript values *)

(** A [File]: its strings are JavaScript strings, its size is a
    non-negative integer, its content is a sequence of bytes. *)
Definition wf_File (f : File) : Prop :=
  Forall code_unit (file_name f) /\ Forall code_unit (file_type f)
  /\ 0 <= file_size f <= 9007199254740992
  /\ Forall is_byte (file_bytes f).

Definition wf_Event (e : Event) : Prop :=
  match e with
  | Edit id value => Forall code_unit id /\ Forall code_unit value
  | SelectFile (Some f) _ => wf_File f
  | _ => True
  end.

Definition wf_World (w : World) : Prop :=
  wf_State (ui w)
  /\ (forall d, saveTimer w = Some d -> wf_FormData d)
  /\ (forall label, awaiting w = Some label -> Forall code_unit label).


(** ** What holds between the state cells and what surrounds them *)

(** A pending auto-save timer holds the record of the latest render, which
    shows the deep-dive page. *)
Definition timer_current (w : World) : Prop :=
  forall d, saveTimer w = Some d ->
    d = formData (ui w) /\ currentPage (ui w) = testimonial_deepdive /\ d <> ∅.

(** [isSubmitting] is set exactly while a [handleSubmit] awaits its
    [fetch], and no such call is pending on the success page. *)
Definition fetch_tracked (w : World) : Prop :=
  (isSubmitting (ui w) = true <-> is_Some (awaiting w)).

(** While [draftSaved] is set, a timer that clears it is pending. *)
Definition flag_tracked (w : World) : Prop :=
  draftSaved (ui w) = true -> flagTimers w <> 0%nat.

(** ** Sample inputs

    Concrete values at which the statements below are exercised. *)

Definition sample_env : Env := mkEnv (js "Mozilla/5.0") (js "https://synergaise.com/").

Definition sample_record : gmap jsstring jsstring := {[ js "name" := js "Ada" ]}.

Definition sample_state : State :=
  mkState testimonial_deepdive sample_record ∅ false None false None 4.

Definition sample_world : World := mkWorld sample_state ∅ None 0%nat None.

Definition landing_world : World := mkWorld initialState ∅ None 0%nat None.

(** No other date format is understood by this host. *)
Definition strict_host : json -> option Z := fun _ => None.

Definition text_file : File := mkFile (js "notes.txt") (js "text/plain") 3 [104; 105; 33].
Definition huge_png : File :=
  mkFile (js "big.png") (js "image/png") (6 * 1024 * 1024)
    (repeat 0 (Z.to_nat (6 * 1024 * 1024))).
Definition small_png : File := mkFile (js "logo.png") (js "image/png") 4 [137; 80; 78; 71].

(** * Proofs *)

(** Case analysis on every integer comparison of the goal. *)
Ltac split_tests :=
  repeat match goal with
    | |- context [?a <? ?b] => destruct (Z.ltb_spec a b)
    | |- context [?a <=? ?b] => destruct (Z.leb_spec a b)
    | |- context [?a =? ?b] => destruct (Z.eqb_spec a b)
    end; cbn [andb orb negb].

(** Linear arithmetic with divisions and remainders by constants. *)
Ltac euclid := Z.to_euclidean_division_equations; lia.

(** Equality of two lists of integer expressions, element by element. *)
Ltac list_eq_arith :=
  repeat match goal with
    | |- Some _ = Some _ => f_equal
    | |- _ :: _ = _ :: _ => f_equal
    end;
  try reflexivity; euclid.

Lemma pack_div (x y k : Z) : 0 <= y < k -> (x * k + y) / k = x.
Proof. intros H. symmetry. apply (Z.div_unique _ _ _ y); lia. Qed.

Lemma pack_mod (x y k : Z) : 0 <= y < k -> (x * k + y) mod k = y.
Proof. intros H. symmetry. apply (Z.mod_unique _ _ x y); lia. Qed.

Ltac unpack :=
  rewrite ?pack_div, ?pack_mod, ?Z.div_mul by (try discriminate; euclid).

(** ** The platform model on known values *)

Example toISOString_epoch : toISOString 0 = js "1970-01-01T00:00:00.000Z".
Proof. reflexivity. Qed.

Example toISOString_leap_day : toISOString 951868799999 = js "2000-02-29T23:59:59.999Z".
Proof. reflexivity. Qed.

Example toISOString_before_epoch : toISOString (-1) = js "1969-12-31T23:59:59.999Z".
Proof. reflexivity. Qed.

Example toISOString_latest : toISOString 8640000000000000 = js "+275760-09-13T00:00:00.000Z".
Proof. reflexivity. Qed.

Example parse_iso_sample : parse_iso (js "2023-11-14T22:13:20.000Z") = Some 1700000000000.
Proof. reflexivity. Qed.

Example Date_getTime_samples :
  Date_getTime strict_host (JSON_parse (jsq "'2023-11-14T22:13:20.000Z'"))
  = Returns (Some 1700000000000)
  /\ Date_getTime strict_host (JSON_parse (jsq "['2023-11-14T22:13:20.000Z']"))
     = Returns (Some 1700000000000)
  /\ Date_getTime strict_host (JSON_parse (js "1700000000000")) = Returns (Some 1700000000000)
  /\ Date_getTime strict_host (JSON_parse (js "null")) = Returns (Some 0)
  /\ Date_getTime strict_host None = Returns None
  /\ Date_getTime strict_host (JSON_parse (jsq "{'valueOf':1}")) = Returns None
  /\ Date_getTime strict_host (JSON_parse (jsq "{'toString':1}")) = Throws TypeError
  /\ Date_getTime strict_host (JSON_parse (jsq "[[1,{'toString':null}]]")) = Throws TypeError.
Proof. repeat split. Qed.

Example ToString_sample :
  option_map ToString (JSON_parse (jsq "[1,[2,null,'a'],{},true,null]"))
  = Some (Some (js "1,2,,a,[object Object],true,")).
Proof. reflexivity. Qed.

Example parse_iso_day_out_of_month : parse_iso (js "2021-02-30T00:00:00.000Z") = None.
Proof. reflexivity. Qed.

Example readAsDataURL_sample :
  readAsDataURL (js "image/png") [77; 97; 110; 33] = js "data:image/png;base64,TWFuIQ==".
Proof. reflexivity. Qed.

Example email_regex_samples :
  regex_test email_regex (js "ada@example.com") = true
  /\ regex_test email_regex (js "a@b.c") = true
  /\ regex_test email_regex (js "a@b.c.d") = true
  /\ regex_test email_regex (js "a@.b") = false
  /\ regex_test email_regex (js "a@b.") = false
  /\ regex_test email_regex (js "a@b@c.d") = false
  /\ regex_test email_regex (js "a b@c.d") = false
  /\ regex_test email_regex (js "@b.c") = false
  /\ regex_test email_regex (js "ab.c") = false.
Proof. repeat split. Qed.

Example JSON_stringify_sample :
  JSON_stringify
    (JObj [(js "s", JStr [65; 34; 92; 10; 31; 233; 55357; 56832; 55357]);
           (js "n", JArr [JNum (-120); JNum 0; JNull; JBool true]); (js "o", JObj [])])
  = jsq "{'s':'A\'\\\n\u001f" ++ [233; 55357; 56832] ++ jsq "\ud83d','n':[-120,0,null,true],'o':{}}".
Proof. reflexivity. Qed.

Example JSON_parse_sample :
  JSON_parse (jsq " { 'a' : [1, 2.5e3, -0, true, null], 'b': 'A\n', 'a': {} } ")
  = Some (JObj [(js "a", JObj []); (js "b", JStr [65; 10])]).
Proof. reflexivity. Qed.

Example JSON_parse_rejects :
  JSON_parse (jsq "{'data':{'name':'Ada'") = None
  /\ JSON_parse (jsq "[1,]") = None
  /\ JSON_parse (jsq "01") = None
  /\ JSON_parse (jsq "{'a':1,}") = None
  /\ JSON_parse (jsq "undefined") = None
  /\ JSON_parse (jsq "nul") = None
  /\ JSON_parse (jsq "1 2") = None
  /\ JSON_parse (jsq "{a:1}") = None
  /\ JSON_parse (jsq "'\x'") = None
  /\ JSON_parse (jsq "1.") = None.
Proof. repeat split. Qed.

Example saved_draft_text :
  saveDraft sample_record 1700000000000 ∅ !! js "testimonial_draft"
  = Some (jsq "{'data':{'name':'Ada'},'timestamp':'2023-11-14T22:13:20.000Z'}").
Proof. vm_compute. reflexivity. Qed.

Example request_body_text :
  req_body (snd (handleSubmit_begin (track_label deepDive) 1700000000000 sample_env sample_world))
  = jsq ("{'reviewType':'Testimonial Deep-Dive','submittedAt':'2023-11-14T22:13:20.000Z',"
         ++ "'name':'Ada','rating':4,'file':null,"
         ++ "'userAgent':'Mozilla/5.0','referrer':'https://synergaise.com/'}").
Proof. vm_compute. reflexivity. Qed.

(** ** Regular expressions *)

Section Regex.

#[local] Hint Constructors matches : core.

Lemma matches_seq_inv (r1 r2 : regex) (s : jsstring) :
  matches (Seq r1 r2) s <-> exists s1 s2, s = s1 ++ s2 /\ matches r1 s1 /\ matches r2 s2.
Proof.
  split.
  - intros H. inversion H; subst. eauto.
  - intros (s1 & s2 & -> & M1 & M2). constructor; assumption.
Qed.

Lemma matches_alt_inv (r1 r2 : regex) (s : jsstring) :
  matches (Alt r1 r2) s <-> matches r1 s \/ matches r2 s.
Proof.
  split.
  - intros H. inversion H; subst; auto.
  - intros [H|H]; auto.
Qed.

Lemma matches_class_inv (p : Z -> bool) (s : jsstring) :
  matches (Class p) s <-> exists c, s = [c] /\ p c = true.
Proof.
  split.
  - intros H. inversion H; subst. eauto.
  - intros (c & -> & Hc). auto.
Qed.

Lemma nullable_matches (r : regex) : nullable r = true <-> matches r [].
Proof.
  induction r as [| |p|r1 IH1 r2 IH2|r1 IH1 r2 IH2|r IH]; cbn.
  - split; [discriminate | intros H; inversion H].
  - split; auto.
  - split; [discriminate | intros H; inversion H].
  - rewrite andb_true_iff, IH1, IH2, matches_seq_inv. split.
    + intros [M1 M2]. exists [], []. auto.
    + intros (s1 & s2 & E & M1 & M2). symmetry in E.
      apply app_eq_nil in E as [-> ->]. auto.
  - rewrite orb_true_iff, IH1, IH2, matches_alt_inv. tauto.
  - split; auto.
Qed.

Lemma matches_star_cons (r : regex) (c : Z) (s : jsstring) :
  matches (Star r) (c :: s) ->
  exists s1 s2, s = s1 ++ s2 /\ matches r (c :: s1) /\ matches (Star r) s2.
Proof.
  intros H. remember (Star r) as r' eqn:Er. remember (c :: s) as cs eqn:Es.
  revert s Es.
  induction H as [| | | | | |r0 s1 s2 M1 _ M2 IH2]; intros t Et; try discriminate.
  injection Er as ->. destruct s1 as [|c' s1'].
  - cbn in Et. apply IH2; auto.
  - cbn in Et. injection Et as -> <-. eauto.
Qed.

Lemma matches_seq_cons (r1 r2 : regex) (c : Z) (s : jsstring) :
  matches (Seq r1 r2) (c :: s) <->
  (exists s1 s2, s = s1 ++ s2 /\ matches r1 (c :: s1) /\ matches r2 s2)
  \/ (matches r1 [] /\ matches r2 (c :: s)).
Proof.
  rewrite matches_seq_inv. split.
  - intros (s1 & s2 & E & M1 & M2). destruct s1 as [|c' s1'].
    + cbn in E. subst. auto.
    + cbn in E. injection E as -> ->. left. eauto.
  - intros [(s1 & s2 & -> & M1 & M2)|[M1 M2]].
    + exists (c :: s1), s2. auto.
    + exists [], (c :: s). auto.
Qed.

Lemma deriv_matches (r : regex) : forall (c : Z) (s : jsstring),
  matches (deriv c r) s <-> matches r (c :: s).
Proof.
  induction r as [| |p|r1 IH1 r2 IH2|r1 IH1 r2 IH2|r IH]; intros c s; cbn.
  - split; intros H; inversion H.
  - split; intros H; inversion H.
  - rewrite matches_class_inv. destruct (p c) eqn:Hp; split; intros H.
    + inversion H; subst. eauto.
    + destruct H as (c' & E & _). injection E as ? ?; subst. auto.
    + inversion H.
    + destruct H as (c' & E & ?). injection E as ? ?; subst. congruence.
  - rewrite matches_seq_cons.
    assert (Hd : matches (Seq (deriv c r1) r2) s <->
                 exists s1 s2, s = s1 ++ s2 /\ matches r1 (c :: s1) /\ matches r2 s2).
    { rewrite matches_seq_inv. split; intros (s1 & s2 & E & M1 & M2);
        exists s1, s2; (split; [assumption|]); (split; [apply IH1|]); assumption. }
    destruct (nullable r1) eqn:Hn.
    + rewrite matches_alt_inv, Hd, IH2, <- nullable_matches, Hn. tauto.
    + rewrite Hd, <- nullable_matches, Hn. split; [auto | intros [?|[? _]]; [auto | discriminate]].
  - rewrite !matches_alt_inv, IH1, IH2. tauto.
  - rewrite matches_seq_inv. split.
    + intros (s1 & s2 & -> & M1 & M2).
      change (c :: s1 ++ s2) with ((c :: s1) ++ s2). constructor; [apply IH|]; assumption.
    + intros H. apply matches_star_cons in H as (s1 & s2 & -> & M1 & M2).
      exists s1, s2. split; [reflexivity|]. split; [apply IH|]; assumption.
Qed.

Lemma regex_test_matches (s : jsstring) : forall r : regex,
  regex_test r s = true <-> matches r s.
Proof.
  induction s as [|c s IH]; intros r; cbn.
  - apply nullable_matches.
  - rewrite IH. apply deriv_matches.
Qed.

Lemma matches_star_class (p : Z -> bool) (s : jsstring) :
  matches (Star (Class p)) s <-> Forall (fun c => p c = true) s.
Proof.
  split.
  - intros H. remember (Star (Class p)) as r eqn:Er.
    induction H as [| | | | | |r0 s1 s2 M1 _ M2 IH2]; try discriminate; [constructor|].
    injection Er as ->. inversion M1; subst. cbn. constructor; auto.
  - induction 1 as [|c s Hc _ IH]; [constructor|].
    change (c :: s) with ([c] ++ s). constructor; [constructor|]; assumption.
Qed.

Lemma matches_plus_class (p : Z -> bool) (s : jsstring) :
  matches (Plus (Class p)) s <-> s <> [] /\ Forall (fun c => p c = true) s.
Proof.
  unfold Plus. split.
  - intros H. inversion H as [| |? ? s1 s2 M1 M2| | | |]; subst.
    inversion M1; subst. apply matches_star_class in M2. cbn. split; [discriminate|]. constructor; auto.
  - intros [Hne Hall]. destruct s as [|c s]; [congruence|].
    inversion Hall; subst. change (c :: s) with ([c] ++ s).
    constructor; [constructor; assumption | apply matches_star_class; assumption].
Qed.

Lemma matches_chr (c : Z) (s : jsstring) : matches (Chr c) s <-> s = [c].
Proof.
  unfold Chr. split.
  - intros H. inversion H as [|? c' Hc| | | | |]; subst. apply Z.eqb_eq in Hc. congruence.
  - intros ->. constructor. apply Z.eqb_refl.
Qed.

Lemma email_regex_shape (value : jsstring) :
  regex_test email_regex value = true <-> email_shape value.
Proof.
  rewrite regex_test_matches. unfold email_regex, email_shape.
  split.
  - intros H.
    apply matches_seq_inv in H as (a & s1 & -> & Ha & H).
    apply matches_seq_inv in H as (at_ & s2 & -> & Hat & H).
    apply matches_seq_inv in H as (b & s3 & -> & Hb & H).
    apply matches_seq_inv in H as (dot & c & -> & Hdot & Hc).
    apply matches_chr in Hat as ->. apply matches_chr in Hdot as ->.
    apply matches_plus_class in Ha as [Ha1 Ha2].
    apply matches_plus_class in Hb as [Hb1 Hb2].
    apply matches_plus_class in Hc as [Hc1 Hc2].
    exists a, b, c. repeat split; auto.
    rewrite !Forall_app. auto.
  - intros (a & b & c & -> & Ha & Hb & Hc & Hall).
    rewrite !Forall_app in Hall. destruct Hall as (Fa & Fb & Fc).
    constructor; [apply matches_plus_class; auto|].
    change (64 :: b ++ 46 :: c) with ([64] ++ b ++ [46] ++ c).
    constructor; [apply matches_chr; reflexivity|].
    constructor; [apply matches_plus_class; auto|].
    constructor; [apply matches_chr; reflexivity|].
    apply matches_plus_class; auto.
Qed.

End Regex.

(** ** Base64 and data URLs *)

Section Base64.

Lemma b64_index_char (i : Z) : 0 <= i < 64 -> b64_index (b64_char i) = Some i.
Proof.
  intros Hi. unfold b64_char. split_tests; unfold b64_index; split_tests;
    try lia; f_equal; lia.
Qed.

Lemma b64_char_not_pad (i : Z) : 0 <= i < 64 -> (b64_char i =? 61) = false.
Proof. intros Hi. apply Z.eqb_neq. unfold b64_char. split_tests; lia. Qed.

Lemma base64_roundtrip_upto (n : nat) : forall bytes : list Z,
  (length bytes <= n)%nat -> Forall is_byte bytes ->
  base64_decode (base64_encode bytes) = Some bytes.
Proof.
  unfold is_byte.
  induction n as [|n IH]; intros bytes Hlen Hall.
  - destruct bytes; [reflexivity | cbn in Hlen; lia].
  - destruct bytes as [|a [|b [|c rest]]]; [reflexivity | | |].
    + apply Forall_cons in Hall as [Ha _]. clear IH Hlen.
      cbn. rewrite !b64_index_char by (Z.to_euclidean_division_equations; lia).
      unpack. list_eq_arith.
    + apply Forall_cons in Hall as [Ha Hall]. apply Forall_cons in Hall as [Hb _].
      clear IH Hlen.
      cbn. rewrite !b64_index_char by (Z.to_euclidean_division_equations; lia).
      rewrite b64_char_not_pad by (Z.to_euclidean_division_equations; lia).
      unpack. list_eq_arith.
    + apply Forall_cons in Hall as [Ha Hall]. apply Forall_cons in Hall as [Hb Hall].
      apply Forall_cons in Hall as [Hc Hall].
      cbn [base64_encode base64_decode].
      rewrite IH by (cbn in Hlen; auto; lia). clear IH Hlen.
      rewrite !b64_index_char by (Z.to_euclidean_division_equations; lia).
      rewrite b64_char_not_pad by (Z.to_euclidean_division_equations; lia).
      unpack. list_eq_arith.
Qed.

Lemma base64_roundtrip (bytes : list Z) :
  Forall is_byte bytes -> base64_decode (base64_encode bytes) = Some bytes.
Proof. apply (base64_roundtrip_upto (length bytes)). lia. Qed.

Lemma strip_prefix_app (p s : jsstring) : strip_prefix p (p ++ s) = Some s.
Proof.
  unfold strip_prefix. rewrite take_app_length, drop_app_length.
  rewrite decide_True; reflexivity.
Qed.

Lemma split_at_app (sep : Z) (a b : jsstring) :
  sep ∉ a -> split_at sep (a ++ sep :: b) = Some (a, b).
Proof.
  induction a as [|c a IH]; intros Hnot; cbn.
  - rewrite Z.eqb_refl. reflexivity.
  - apply not_elem_of_cons in Hnot as [Hc Ha].
    destruct (Z.eqb_spec c sep); [congruence|]. rewrite IH by assumption. reflexivity.
Qed.

Lemma dataURL_roundtrip (type : jsstring) (bytes : list Z) :
  59 ∉ type -> Forall is_byte bytes ->
  dataURL_decode (readAsDataURL type bytes) = Some (type, bytes).
Proof.
  intros Htype Hbytes. unfold dataURL_decode, readAsDataURL.
  rewrite strip_prefix_app.
  change (js ";base64,") with (59 :: js "base64,").
  rewrite <- app_comm_cons, split_at_app by assumption.
  rewrite strip_prefix_app, base64_roundtrip by assumption. reflexivity.
Qed.

Lemma validTypes_no_semicolon (type : jsstring) : type ∈ validTypes -> 59 ∉ type.
Proof.
  unfold validTypes. rewrite !elem_of_cons, elem_of_nil.
  intros [->|[->|[->|[]]]]; vm_compute; intros H;
    repeat (apply elem_of_cons in H as [H|H]; [discriminate|]); inversion H.
Qed.

End Base64.

(** ** The calendar and ISO time stamps *)

Section Calendar.


Lemma yoe_bounds doe : 0 <= doe < 146097 -> 0 <= year_of_era doe <= 399.
Proof. unfold year_of_era. intros. euclid. Qed.

Lemma doy_bounds doe : 0 <= doe < 146097 -> 0 <= doe - days_before_year (year_of_era doe) <= 365.
Proof. unfold year_of_era, days_before_year. intros. euclid. Qed.

Lemma leap_doy doe :
  0 <= doe < 146097 -> doe - days_before_year (year_of_era doe) = 365 ->
  (year_of_era doe + 1) mod 4 = 0 /\ ((year_of_era doe + 1) mod 100 <> 0 \/ year_of_era doe = 399).
Proof. unfold year_of_era, days_before_year. intros. euclid. Qed.

Lemma last_year doe :
  0 <= doe <= 146036 -> year_of_era doe = 399 -> doe - days_before_year (year_of_era doe) < 306.
Proof. unfold year_of_era, days_before_year. intros. euclid. Qed.

Lemma is_leap_era (y era : Z) : is_leap (y + era * 400) = is_leap y.
Proof.
  unfold is_leap.
  replace ((y + era * 400) mod 4) with (y mod 4) by euclid.
  replace ((y + era * 400) mod 100) with (y mod 100) by euclid.
  replace ((y + era * 400) mod 400) with (y mod 400) by euclid.
  reflexivity.
Qed.

Lemma month_day doy :
  0 <= doy <= 365 ->
  let mp := (5 * doy + 2) / 153 in
  let d := doy - (153 * mp + 2) / 5 + 1 in
  0 <= mp <= 11 /\ 1 <= d /\ (153 * mp + 2) / 5 + d - 1 = doy
  /\ (mp = 11 -> d <= 29 /\ (d = 29 -> doy = 365))
  /\ (mp = 1 \/ mp = 3 \/ mp = 6 \/ mp = 8 -> d <= 30)
  /\ d <= 31.
Proof. intros H mp d. subst mp d. repeat split; intros; euclid. Qed.

Lemma civil_roundtrip (day : Z) :
  let '(y, m, d) := civil_from_days day in
  1 <= m <= 12 /\ 1 <= d <= days_in_month y m /\ days_from_civil y m d = day.
Proof.
  unfold civil_from_days.
  set (z := day + 719468). set (era := z / 146097). set (doe := z - era * 146097).
  assert (Hdoe : 0 <= doe < 146097) by (subst doe era; euclid).
  pose proof (yoe_bounds doe Hdoe) as Hyoe.
  pose proof (doy_bounds doe Hdoe) as Hdoy.
  pose proof (leap_doy doe Hdoe) as Hleap.
  set (yoe := year_of_era doe) in *.
  set (doy := doe - days_before_year yoe) in *.
  destruct (month_day doy Hdoy) as (Hmp & Hd1 & Hback & Hfeb & H30 & H31).
  set (mp := (5 * doy + 2) / 153) in *.
  set (d := doy - (153 * mp + 2) / 5 + 1) in *.
  assert (Hz : z = era * 146097 + doe) by (subst doe; lia).
  assert (Hday : day = z - 719468) by (subst z; lia).
  assert (Hdoe' : doe = days_before_year yoe + doy) by (subst doy; lia).
  clearbody d mp doy yoe doe era z.
  split; [split_tests; lia|]. split.
  - split; [lia|]. unfold days_in_month.
    replace (yoe + era * 400 + (if (if mp <? 10 then mp + 3 else mp - 9) <=? 2 then 1 else 0))
      with ((yoe + (if (if mp <? 10 then mp + 3 else mp - 9) <=? 2 then 1 else 0)) + era * 400) by lia.
    rewrite is_leap_era. unfold is_leap.
    split_tests; try lia; (destruct (Z.eq_dec d 29); [|lia]); exfalso; euclid.
  - unfold days_from_civil. 
    replace (if (if mp <? 10 then mp + 3 else mp - 9) <=? 2
       then yoe + era * 400 + (if (if mp <? 10 then mp + 3 else mp - 9) <=? 2 then 1 else 0) - 1
       else yoe + era * 400 + (if (if mp <? 10 then mp + 3 else mp - 9) <=? 2 then 1 else 0))
      with (era * 400 + yoe) by (split_tests; lia).
    rewrite pack_div by lia.
    replace (era * 400 + yoe - era * 400) with yoe by lia.
    replace (if 2 <? (if mp <? 10 then mp + 3 else mp - 9)
             then (if mp <? 10 then mp + 3 else mp - 9) - 3
             else (if mp <? 10 then mp + 3 else mp - 9) + 9) with mp by (split_tests; lia).
    lia.
Qed.


Lemma fold_digits_pad (k : nat) : forall n acc : Z,
  0 <= n ->
  fold_left (fun a c => a * 10 + (c - 48)) (pad k n) acc
  = acc * 10 ^ Z.of_nat k + n mod 10 ^ Z.of_nat k.
Proof.
  induction k as [|k IH]; intros n acc Hn.
  - cbn. rewrite Z.mod_1_r. lia.
  - cbn [pad]. rewrite fold_left_app, IH by (apply Z.div_pos; lia). cbn [fold_left].
    rewrite Nat2Z.inj_succ, Z.pow_succ_r by lia.
    rewrite (Z.rem_mul_r n 10 (10 ^ Z.of_nat k)) by lia. lia.
Qed.

Lemma pad_digits (k : nat) : forall n : Z, forallb is_digit (pad k n) = true.
Proof.
  induction k as [|k IH]; intros n; [reflexivity|].
  cbn [pad]. rewrite forallb_app, IH. cbn [forallb andb]. unfold is_digit.
  rewrite andb_true_r, andb_true_iff, !Z.leb_le. euclid.
Qed.

Lemma number_of_pad (k : nat) (n : Z) :
  0 <= n < 10 ^ Z.of_nat k -> number_of (pad k n) = Some n.
Proof.
  intros Hn. unfold number_of, digits_value.
  rewrite pad_digits, fold_digits_pad, Z.mod_small by lia. f_equal; lia.
Qed.

Lemma parse_iso_fields (y m d h n s f : Z) :
  parse_iso (pad 4 y ++ [45] ++ pad 2 m ++ [45] ++ pad 2 d ++ [84]
             ++ pad 2 h ++ [58] ++ pad 2 n ++ [58] ++ pad 2 s ++ [46] ++ pad 3 f ++ [90])
  = match number_of (pad 4 y), number_of (pad 2 m), number_of (pad 2 d),
          number_of (pad 2 h), number_of (pad 2 n), number_of (pad 2 s),
          number_of (pad 3 f) with
    | Some y, Some m, Some d, Some h, Some n, Some sec, Some f =>
        if (1 <=? m) && (m <=? 12) && (1 <=? d) && (d <=? days_in_month y m)
           && (h <=? 23) && (n <=? 59) && (sec <=? 59)
        then Some (days_from_civil y m d * msPerDay
                   + h * 3600000 + n * 60000 + sec * 1000 + f)
        else None
    | _, _, _, _, _, _, _ => None
    end.
Proof. reflexivity. Qed.

Lemma year_range (day : Z) :
  0 <= day <= 2932896 -> 0 <= fst (fst (civil_from_days day)) <= 9999.
Proof.
  intros Hday. unfold civil_from_days.
  set (z := day + 719468). set (era := z / 146097). set (doe := z - era * 146097).
  assert (Hdoe : 0 <= doe < 146097) by (subst doe era; euclid).
  assert (Hera : 4 <= era <= 24) by (subst era z; euclid).
  assert (Hlast : era = 24 -> doe <= 146036) by (subst doe era z; euclid).
  pose proof (yoe_bounds doe Hdoe) as Hyoe.
  pose proof (doy_bounds doe Hdoe) as Hdoy.
  pose proof (last_year doe) as Hly.
  set (yoe := year_of_era doe) in *.
  set (doy := doe - days_before_year yoe) in *.
  destruct (month_day doy Hdoy) as (Hmp & _).
  set (mp := (5 * doy + 2) / 153) in *.
  cbn [fst].
  assert (Hmp' : 10 <= mp -> 306 <= doy) by (subst mp; euclid).
  clearbody mp doy yoe doe era z.
  split_tests; lia.
Qed.

Theorem iso_roundtrip (t : Z) :
  0 <= t < 253402300800000 -> parse_iso (toISOString t) = Some t.
Proof.
  intros Ht. unfold toISOString.
  pose proof (civil_roundtrip (t / msPerDay)) as Hc.
  pose proof (year_range (t / msPerDay)) as Hy.
  destruct (civil_from_days (t / msPerDay)) as [[y m] d].
  cbn [fst] in Hy. destruct Hc as (Hm & Hd & Hback).
  assert (Hy' : 0 <= y <= 9999) by (apply Hy; unfold msPerDay; euclid).
  assert (Hd31 : d <= 31) by (unfold days_in_month in Hd; revert Hd; destruct (is_leap y); split_tests; lia).
  replace ((0 <=? y) && (y <=? 9999)) with true by (split_tests; lia).
  set (ms := t mod msPerDay).
  assert (Hms : 0 <= ms < 86400000) by (subst ms; unfold msPerDay; euclid).
  rewrite parse_iso_fields.
  rewrite !number_of_pad by (cbn; euclid).
  replace ((1 <=? m) && (m <=? 12) && (1 <=? d) && (d <=? days_in_month y m)
           && (ms / 3600000 <=? 23) && (ms / 60000 mod 60 <=? 59) && (ms / 1000 mod 60 <=? 59))
    with true by (symmetry; rewrite !andb_true_iff, !Z.leb_le; repeat split; try lia; euclid).
  rewrite Hback. f_equal. subst ms. unfold msPerDay. euclid.
Qed.

End Calendar.

(** ** String literals *)

Section Strings.

Lemma hex_value_digit (d : Z) : 0 <= d < 16 -> hex_value (hex_digit d) = Some d.
Proof.
  intros Hd. unfold hex_digit. split_tests; unfold hex_value; split_tests; try lia; f_equal; lia.
Qed.

Lemma hex4_value_hex4 (c : Z) :
  code_unit c ->
  hex4_value (hex_digit (c / 4096 mod 16)) (hex_digit (c / 256 mod 16))
    (hex_digit (c / 16 mod 16)) (hex_digit (c mod 16)) = Some c.
Proof.
  intros Hc. unfold code_unit in Hc. unfold hex4_value.
  rewrite !hex_value_digit by euclid. f_equal. euclid.
Qed.

Lemma parse_units_u (h1 h2 h3 h4 : Z) (s : jsstring) :
  parse_units (92 :: 117 :: h1 :: h2 :: h3 :: h4 :: s)
  = match hex4_value h1 h2 h3 h4 with
    | Some u => and_then u (parse_units s)
    | None => None
    end.
Proof. reflexivity. Qed.

Lemma parse_units_escape (c : Z) (s : jsstring) :
  code_unit c -> parse_units (unicode_escape c ++ s) = and_then c (parse_units s).
Proof.
  intros Hc. unfold unicode_escape, hex4. change (js "\u") with [92; 117]. cbn [app].
  rewrite parse_units_u, hex4_value_hex4 by assumption. reflexivity.
Qed.

Lemma parse_units_raw (c : Z) (s : jsstring) :
  c <> 34 -> c <> 92 -> 32 <= c -> parse_units (c :: s) = and_then c (parse_units s).
Proof.
  intros H1 H2 H3. cbn [parse_units]. split_tests; try lia. reflexivity.
Qed.

Lemma parse_units_quote_unit (c : Z) (s : jsstring) :
  code_unit c -> parse_units (quote_unit c ++ s) = and_then c (parse_units s).
Proof.
  intros Hc. unfold quote_unit.
  destruct (Z.eqb_spec c 8) as [->|]; [reflexivity|].
  destruct (Z.eqb_spec c 9) as [->|]; [reflexivity|].
  destruct (Z.eqb_spec c 10) as [->|]; [reflexivity|].
  destruct (Z.eqb_spec c 12) as [->|]; [reflexivity|].
  destruct (Z.eqb_spec c 13) as [->|]; [reflexivity|].
  destruct (Z.eqb_spec c 34) as [->|]; [reflexivity|].
  destruct (Z.eqb_spec c 92) as [->|]; [reflexivity|].
  destruct (Z.ltb_spec c 32); [apply parse_units_escape; assumption|].
  destruct (is_high_surrogate c || is_low_surrogate c); [apply parse_units_escape; assumption|].
  apply parse_units_raw; assumption.
Qed.

Lemma surrogate_raw (c : Z) :
  is_high_surrogate c || is_low_surrogate c = true -> c <> 34 /\ c <> 92 /\ 32 <= c.
Proof. unfold is_high_surrogate, is_low_surrogate. split_tests; intros; try discriminate; lia. Qed.

Lemma parse_units_quote_upto (n : nat) : forall s rest : jsstring,
  (length s <= n)%nat -> Forall code_unit s ->
  parse_units (quote_units s ++ 34 :: rest) = Some (s, rest).
Proof.
  induction n as [|n IH]; intros s rest Hlen Hall.
  - destruct s; [reflexivity | cbn in Hlen; lia].
  - destruct s as [|c s']; [reflexivity|].
    apply Forall_cons in Hall as [Hc Hall]. cbn [quote_units].
    destruct (is_high_surrogate c) eqn:Hhigh.
    + destruct s' as [|d s''].
      * rewrite parse_units_escape by assumption. reflexivity.
      * destruct (is_low_surrogate d) eqn:Hlow.
        -- apply Forall_cons in Hall as [Hd Hall].
           destruct (surrogate_raw c) as (? & ? & ?); [rewrite Hhigh; reflexivity|].
           destruct (surrogate_raw d) as (? & ? & ?); [rewrite Hlow; apply orb_true_r|].
           cbn [app]. rewrite !parse_units_raw by assumption.
           rewrite IH by (cbn [length] in *; auto; lia). reflexivity.
        -- rewrite <- app_assoc, parse_units_escape by assumption.
           rewrite IH by (cbn [length] in *; auto; lia). reflexivity.
    + rewrite <- app_assoc, parse_units_quote_unit by assumption.
      rewrite IH by (cbn [length] in *; auto; lia). reflexivity.
Qed.

Lemma parse_units_quote (s rest : jsstring) :
  Forall code_unit s -> parse_units (quote_units s ++ 34 :: rest) = Some (s, rest).
Proof. apply (parse_units_quote_upto (length s)). lia. Qed.

End Strings.

(** ** Number literals *)

Section Numbers.

Lemma take_digits_app (ds rest : jsstring) :
  forallb is_digit ds = true -> starts_with_digit rest = false ->
  take_digits (ds ++ rest) = (ds, rest).
Proof.
  intros Hds Hrest. induction ds as [|d ds IH]; cbn [app].
  - destruct rest as [|c rest]; [reflexivity|]. cbn in Hrest. cbn. rewrite Hrest. reflexivity.
  - cbn in Hds. apply andb_true_iff in Hds as [Hd Hds].
    cbn [take_digits]. rewrite Hd, IH by assumption. reflexivity.
Qed.

Lemma digits_pos_spec (f : nat) : forall n : Z,
  0 <= n < 10 ^ Z.of_nat (S f) ->
  exists d more,
    digits_pos (S f) n = d :: more
    /\ forallb is_digit (d :: more) = true
    /\ digits_value (d :: more) = n
    /\ (d = 48 -> n = 0 /\ more = []).
Proof.
  assert (Hone : forall n, 0 <= n < 10 ->
            forallb is_digit [48 + n] = true /\ digits_value [48 + n] = n
            /\ (48 + n = 48 -> n = 0 /\ @nil Z = [])).
  { intros n Hn. unfold digits_value, is_digit. cbn.
    split; [split_tests; lia|]. split; [lia|]. intros. split; [lia|reflexivity]. }
  induction f as [|f IH]; intros n Hn.
  - change (10 ^ Z.of_nat 1) with 10 in Hn. exists (48 + n), [].
    split; [|apply Hone; assumption].
    cbn [digits_pos]. destruct (Z.ltb_spec n 10); [reflexivity | lia].
  - remember (S f) as f' eqn:Ef. cbn [digits_pos]. destruct (Z.ltb_spec n 10) as [Hlt|Hge].
    + exists (48 + n), []. split; [reflexivity | apply Hone; lia].
    + rewrite Nat2Z.inj_succ, Z.pow_succ_r in Hn by lia.
      destruct (IH (n / 10)) as (d & more & E & Hdig & Hval & Hzero); [euclid|].
      rewrite E. exists d, (more ++ [48 + n mod 10]). split; [reflexivity|].
      split; [|split].
      * change (d :: more ++ [48 + n mod 10]) with ((d :: more) ++ [48 + n mod 10]).
        rewrite forallb_app, Hdig. cbn. unfold is_digit. split_tests; try reflexivity; euclid.
      * change (d :: more ++ [48 + n mod 10]) with ((d :: more) ++ [48 + n mod 10]).
        unfold digits_value in *. rewrite fold_left_app, Hval. cbn. euclid.
      * intros Hd. destruct (Hzero Hd) as [Hz _]. euclid.
Qed.

Lemma parse_number_digits (z : Z) (rest : jsstring) :
  Z.abs z < 10 ^ 22 -> delimited rest ->
  parse_number (digits z ++ rest) = Some (JNum z, rest).
Proof.
  intros Hz Hrest.
  assert (Hnd : starts_with_digit rest = false).
  { destruct rest as [|c rest]; [reflexivity|]. cbn in *. unfold is_digit. split_tests; lia. }
  assert (Hplain : match rest with
                   | c :: _ => c <> 46 /\ c <> 101 /\ c <> 69
                   | [] => True
                   end).
  { destruct rest as [|c rest]; [exact I|]. cbn in Hrest. lia. }
  assert (Hfrac : forall (k : jsstring -> option (jsstring * jsstring)),
             match rest with
             | 46 :: r => k r
             | _ => Some ([], rest)
             end = Some ([], rest)).
  { intros k. destruct rest as [|c rest']; [reflexivity|]. destruct Hplain as (H1 & _).
    destruct c as [|p|p]; try reflexivity. do 6 (destruct p; try reflexivity). lia. }
  assert (Hexp : forall (k : Z -> jsstring -> option (jsstring * jsstring)),
             match rest with
             | e :: r => if (e =? 101) || (e =? 69) then k e r else Some ([], rest)
             | [] => Some ([], rest)
             end = Some ([], rest)).
  { intros k. destruct rest as [|c rest']; [reflexivity|]. destruct Hplain as (_ & H2 & H3).
    replace ((c =? 101) || (c =? 69)) with false by (split_tests; lia). reflexivity. }
  unfold digits. destruct (Z.ltb_spec z 0) as [Hneg|Hpos].
  - destruct (digits_pos_spec 21 (- z)) as (d & more & E & Hdig & Hval & Hzero); [cbn; lia|].
    rewrite E. unfold parse_number.
    change ((45 :: d :: more) ++ rest) with (45 :: (d :: more) ++ rest). cbv beta iota zeta.
    rewrite take_digits_app by assumption. cbv beta iota zeta.
    assert (Hd : (d =? 48) = false) by (apply Z.eqb_neq; intros Hd; destruct (Hzero Hd); lia).
    rewrite Hd. cbn [andb]. rewrite Hfrac. cbv beta iota zeta. rewrite Hexp. cbv beta iota zeta.
    rewrite Hval. replace (- z =? 0) with false by (symmetry; apply Z.eqb_neq; lia).
    cbn [andb negb]. do 3 f_equal. lia.
  - destruct (digits_pos_spec 21 z) as (d & more & E & Hdig & Hval & Hzero); [cbn; lia|].
    rewrite E. unfold parse_number.
    assert (Hd45 : d <> 45).
    { cbn in Hdig. apply andb_true_iff in Hdig as [Hd _]. unfold is_digit in Hd. lia. }
    replace (match (d :: more) ++ rest with 45 :: r => (true, r) | _ => (false, (d :: more) ++ rest) end)
      with (false, (d :: more) ++ rest).
    2:{ cbn [app]. destruct d as [|p|p]; try reflexivity. do 6 (destruct p; try reflexivity). lia. }
    cbv beta iota zeta. rewrite take_digits_app by assumption. cbv beta iota zeta.
    assert (Hlead : (d =? 48) && negb (if more is [] then true else false) = false).
    { destruct (Z.eqb_spec d 48) as [Hd|]; [|reflexivity]. destruct (Hzero Hd) as [_ ->]. reflexivity. }
    rewrite Hlead. rewrite Hfrac. cbv beta iota zeta. rewrite Hexp. cbv beta iota zeta.
    rewrite Hval. reflexivity.
Qed.

End Numbers.

(** ** JSON.parse after JSON.stringify *)

Section Roundtrip.

Lemma parse_value_string (f : nat) (r : jsstring) :
  parse_value (S f) (34 :: r)
  = match parse_units r with
    | Some (str, r') => Some (JStr str, r')
    | None => None
    end.
Proof. reflexivity. Qed.

Lemma parse_value_object (f : nat) (r : jsstring) :
  parse_value (S f) (123 :: r)
  = match skip_ws r with
    | 125 :: r' => Some (JObj [], r')
    | _ => parse_members f r []
    end.
Proof. reflexivity. Qed.

Lemma parse_value_array (f : nat) (r : jsstring) :
  parse_value (S f) (91 :: r)
  = match skip_ws r with
    | 93 :: r' => Some (JArr [], r')
    | _ => parse_elements f r []
    end.
Proof. reflexivity. Qed.

Lemma parse_value_null (f : nat) (rest : jsstring) :
  parse_value (S f) (js "null" ++ rest) = Some (JNull, rest).
Proof. reflexivity. Qed.

Lemma parse_value_true (f : nat) (rest : jsstring) :
  parse_value (S f) (js "true" ++ rest) = Some (JBool true, rest).
Proof. reflexivity. Qed.

Lemma parse_value_false (f : nat) (rest : jsstring) :
  parse_value (S f) (js "false" ++ rest) = Some (JBool false, rest).
Proof. reflexivity. Qed.

Lemma parse_members_step (f : nat) (r : jsstring) (acc : list (jsstring * json)) :
  parse_members (S f) (34 :: r) acc
  = match parse_units r with
    | Some (k, r1) =>
        match skip_ws r1 with
        | 58 :: r2 =>
            match parse_value f r2 with
            | Some (v, r3) =>
                match skip_ws r3 with
                | 44 :: r4 => parse_members f r4 (obj_set k v acc)
                | 125 :: r4 => Some (JObj (obj_set k v acc), r4)
                | _ => None
                end
            | None => None
            end
        | _ => None
        end
    | None => None
    end.
Proof. reflexivity. Qed.

Lemma obj_set_fresh {A} (k : jsstring) (v : A) (acc : list (jsstring * A)) :
  k ∉ map fst acc -> obj_set k v acc = acc ++ [(k, v)].
Proof.
  induction acc as [|[k' v'] acc IH]; intros Hk; [reflexivity|].
  cbn in Hk. apply not_elem_of_cons in Hk as [Hne Hk].
  cbn. rewrite decide_False by assumption. rewrite IH by assumption. reflexivity.
Qed.

Lemma join_with_cons (sep p : jsstring) (ps : list jsstring) :
  ps <> [] -> join_with sep (p :: ps) = p ++ sep ++ join_with sep ps.
Proof. destruct ps; [congruence | reflexivity]. Qed.

Lemma parse_value_number (f : nat) (z : Z) (rest : jsstring) :
  Z.abs z < 10 ^ 22 -> delimited rest ->
  parse_value (S f) (digits z ++ rest) = Some (JNum z, rest).
Proof.
  intros Hz Hrest. rewrite <- (parse_number_digits z rest Hz Hrest).
  assert (Hhead : exists c r, digits z = c :: r /\ (c = 45 \/ is_digit c = true)).
  { unfold digits. destruct (Z.ltb_spec z 0).
    - eauto.
    - destruct (digits_pos_spec 21 z) as (d & more & E & Hdig & _); [cbn; lia|].
      exists d, more. split; [assumption|]. right. cbn in Hdig.
      apply andb_true_iff in Hdig as [Hd _]. assumption. }
  destruct Hhead as (c & r & -> & Hc). cbn [app parse_value skip_ws].
  assert (Hws : is_ws c = false).
  { unfold is_ws, is_digit in *. destruct Hc as [->|Hc]; [reflexivity|]. split_tests; lia. }
  rewrite Hws.
  unfold is_digit in Hc.
  replace (c =? 34) with false by (split_tests; lia).
  replace (c =? 123) with false by (split_tests; lia).
  replace (c =? 91) with false by (split_tests; lia).
  replace (c =? 110) with false by (split_tests; lia).
  replace (c =? 116) with false by (split_tests; lia).
  replace (c =? 102) with false by (split_tests; lia).
  reflexivity.
Qed.

Lemma skip_to_value {B} (c : Z) (r : jsstring) (A : jsstring -> B) (d : B) :
  is_ws c = false -> c <> 93 ->
  match skip_ws (c :: r) with 93 :: r' => A r' | _ => d end = d.
Proof.
  intros Hws Hc. cbn [skip_ws]. rewrite Hws. destruct c as [|p|p]; try reflexivity.
  do 7 (destruct p; try reflexivity). congruence.
Qed.

Lemma value_head (v : json) :
  wf_json v -> exists c r, JSON_stringify v = c :: r /\ is_ws c = false /\ c <> 93.
Proof.
  intros Hwf. destruct v as [|b|z|lex|s|l|l]; cbn [JSON_stringify].
  - exists 110, (js "ull"). repeat split. discriminate.
  - destruct b; [exists 116, (js "rue") | exists 102, (js "alse")]; repeat split; discriminate.
  - unfold digits. destruct (Z.ltb_spec z 0).
    + eexists _, _. repeat split. discriminate.
    + destruct (digits_pos_spec 21 z) as (d & more & E & Hdig & _); [cbn in *; lia|].
      exists d, more. split; [assumption|]. cbn in Hdig.
      apply andb_true_iff in Hdig as [Hd _]. unfold is_digit, is_ws in *.
      split; [split_tests; lia | lia].
  - destruct Hwf.
  - unfold quote. eexists _, _. repeat split. discriminate.
  - eexists _, _. repeat split. discriminate.
  - eexists _, _. repeat split. discriminate.
Qed.

Lemma roundtrip_fuel (fuel : nat) :
  (forall (v : json) (rest : jsstring),
      wf_json v -> (json_size v <= fuel)%nat -> delimited rest ->
      parse_value fuel (JSON_stringify v ++ rest) = Some (v, rest))
  /\ (forall (l acc : list (jsstring * json)) (rest : jsstring),
         l <> [] -> members_wf l -> NoDup (map fst (acc ++ l)) ->
         (members_size l <= fuel)%nat ->
         parse_members fuel (join_with [44] (map member_text l) ++ 125 :: rest) acc
         = Some (JObj (acc ++ l), rest))
  /\ (forall (l acc : list json) (rest : jsstring),
         l <> [] -> elements_wf l -> (elements_size l <= fuel)%nat ->
         parse_elements fuel (join_with [44] (map JSON_stringify l) ++ 93 :: rest) acc
         = Some (JArr (acc ++ l), rest)).
Proof.
  induction fuel as [|f (IHv & IHm & IHe)].
  - split; [|split].
    + intros v rest _ Hsize. destruct v; cbn in Hsize; lia.
    + intros [|kv l] acc rest Hne _ _ Hsize; [congruence | cbn in Hsize; lia].
    + intros [|x l] acc rest Hne _ Hsize; [congruence | cbn in Hsize; lia].
  - split; [|split].
    + intros v rest Hwf Hsize Hrest. destruct v as [|b|z|lex|s|l|l].
      * apply parse_value_null.
      * destruct b; [apply parse_value_true | apply parse_value_false].
      * cbn [JSON_stringify]. apply parse_value_number; [cbn in Hwf; lia | assumption].
      * destruct Hwf.
      * cbn [JSON_stringify]. unfold quote. cbn [app].
        rewrite parse_value_string, <- app_assoc. cbn [app].
        rewrite parse_units_quote by exact Hwf. reflexivity.
      * cbn [JSON_stringify app]. rewrite parse_value_array, <- app_assoc. cbn [app].
        destruct l as [|x l]; [reflexivity|].
        pose proof (IHe (x :: l) [] rest) as IH. cbn [app] in IH.
        destruct (value_head x) as (c & r & Ex & Hws & Hc); [apply Hwf|].
        assert (Etext : exists r', join_with [44] (map JSON_stringify (x :: l)) = c :: r').
        { cbn [map]. destruct l; cbn [join_with map]; rewrite Ex; eauto. }
        destruct Etext as (r' & Etext). rewrite Etext in *. rewrite <- !app_comm_cons in *.
        rewrite skip_to_value by assumption.
        apply IH; [discriminate | exact Hwf | cbn in Hsize |- *; lia].
      * cbn [JSON_stringify app]. rewrite parse_value_object, <- app_assoc. cbn [app].
        destruct l as [|[k v] l]; [reflexivity|].
        pose proof (IHm ((k, v) :: l) [] rest) as IH. cbn [app] in IH.
        destruct Hwf as [Hnd Hwf].
        assert (Etext : exists r', join_with [44] (map member_text ((k, v) :: l)) = 34 :: r').
        { cbn [map]. destruct l; cbn [join_with map]; unfold member_text, quote; cbn [app fst]; eauto. }
        change (fun kv : jsstring * json => quote (fst kv) ++ 58 :: JSON_stringify (snd kv))
          with member_text.
        destruct Etext as (r' & Etext). rewrite Etext in *. cbn [app skip_ws is_ws].
        apply IH; [discriminate | exact Hwf | exact Hnd | cbn in Hsize |- *; lia].
    + intros l acc rest Hne Hwf Hnd Hsize.
      destruct l as [|[k v] l]; [congruence|]. clear Hne.
      destruct Hwf as (Hk & Hv & Hwf).
      assert (Hfresh : k ∉ map fst acc).
      { rewrite map_app in Hnd. apply NoDup_app in Hnd as (_ & Hdisj & _).
        intros Hin. apply (Hdisj k Hin). cbn. left. }
      assert (Etext : forall tail,
                 (member_text (k, v) ++ tail) ++ 125 :: rest
                 = 34 :: quote_units k ++ 34 :: 58 :: JSON_stringify v ++ tail ++ 125 :: rest).
      { intros tail. unfold member_text, quote. cbn [fst snd app].
        rewrite <- !app_assoc. cbn [app]. rewrite <- ?app_assoc. reflexivity. }
      destruct l as [|kv' l].
      * cbn [map join_with]. rewrite <- (app_nil_r (member_text (k, v))), Etext. cbn [app].
        rewrite parse_members_step, parse_units_quote by assumption. cbn [skip_ws is_ws].
        change (is_ws 58) with false. cbv iota.
        rewrite IHv; [| assumption | cbn in Hsize; lia | cbn; auto].
        cbn [skip_ws]. change (is_ws 125) with false. cbv iota.
        rewrite obj_set_fresh by assumption. reflexivity.
      * rewrite map_cons, join_with_cons by discriminate.
        rewrite Etext. rewrite <- app_assoc.
        rewrite parse_members_step, parse_units_quote by assumption. cbn [skip_ws is_ws].
        change (is_ws 58) with false. cbv iota.
        rewrite IHv; [| assumption | cbn in Hsize; lia | cbn; auto].
        cbn [app skip_ws]. change (is_ws 44) with false. cbv iota.
        rewrite obj_set_fresh by assumption.
        rewrite IHm; [| discriminate | exact Hwf | | cbn in Hsize |- *; lia].
        -- rewrite <- app_assoc. reflexivity.
        -- rewrite <- app_assoc. exact Hnd.
    + intros l acc rest Hne Hwf Hsize.
      destruct l as [|x l]; [congruence|]. clear Hne.
      destruct Hwf as (Hx & Hwf). cbn [parse_elements].
      destruct l as [|x' l].
      * cbn [map join_with].
        rewrite IHv; [| assumption | cbn in Hsize; lia | cbn; auto].
        cbn [skip_ws]. change (is_ws 93) with false. cbv iota. reflexivity.
      * rewrite map_cons, join_with_cons by discriminate. rewrite <- !app_assoc.
        rewrite IHv; [| assumption | cbn in Hsize; lia | cbn; auto].
        cbn [app skip_ws]. change (is_ws 44) with false. cbv iota.
        rewrite IHe; [| discriminate | exact Hwf | cbn in Hsize |- *; lia].
        rewrite <- app_assoc. reflexivity.
Qed.

End Roundtrip.



Lemma json_ind (P : json -> Prop)
    (Hnull : P JNull) (Hbool : forall b, P (JBool b)) (Hnum : forall z, P (JNum z))
    (Htext : forall lex, P (JNumText lex)) (Hstr : forall s, P (JStr s))
    (Harr : forall l, Forall P l -> P (JArr l))
    (Hobj : forall l, Forall (fun kv => P (snd kv)) l -> P (JObj l)) :
  forall v : json, P v.
Proof.
  fix IH 1. intros [|b|z|lex|s|l|l].
  - exact Hnull.
  - exact (Hbool b).
  - exact (Hnum z).
  - exact (Htext lex).
  - exact (Hstr s).
  - apply Harr. induction l as [|x l IHl]; constructor; [apply IH | exact IHl].
  - apply Hobj. induction l as [|[k x] l IHl]; constructor; [apply IH | exact IHl].
Qed.

Lemma length_quote (s : jsstring) : (2 <= length (quote s))%nat.
Proof. unfold quote. cbn [length]. rewrite length_app. cbn. lia. Qed.

Lemma length_join_cons (sep p : jsstring) (ps : list jsstring) :
  (length p <= length (join_with sep (p :: ps)))%nat
  /\ (ps <> [] -> length (join_with sep (p :: ps))
                  = length p + length sep + length (join_with sep ps))%nat.
Proof.
  destruct ps as [|q ps]; cbn [join_with].
  - split; [lia | congruence].
  - rewrite !length_app. split; lia.
Qed.

Lemma json_size_length (v : json) :
  wf_json v -> (json_size v <= length (JSON_stringify v))%nat.
Proof.
  induction v as [|b|z|lex|s|l IH|l IH] using json_ind; intros Hwf.
  - cbn. lia.
  - destruct b; cbn; lia.
  - cbn [json_size JSON_stringify].
    pose proof (digits_pos_spec 21) as Hd. unfold digits.
    destruct (Z.ltb_spec z 0); [cbn; lia|].
    destruct (Hd z) as (d & more & -> & _); [cbn in *; lia | cbn; lia].
  - destruct Hwf.
  - cbn [json_size JSON_stringify]. pose proof (length_quote s). lia.
  - cbn [json_size JSON_stringify length]. rewrite length_app. cbn [length].
    enough (fold_right (fun x n => S (json_size x + n)) O l
            <= S (length (join_with [44%Z] (map JSON_stringify l))))%nat by lia.
    cbn [wf_json] in Hwf. induction l as [|x l IHl]; [cbn; lia|].
    apply Forall_cons in IH as [Hx IH]. destruct Hwf as [Hwx Hwf].
    specialize (IHl IH Hwf). specialize (Hx Hwx). cbn [fold_right map].
    destruct l as [|x' l]; [cbn in *; lia|].
    destruct (length_join_cons [44] (JSON_stringify x) (map JSON_stringify (x' :: l))) as [_ E].
    rewrite map_cons in *. rewrite E by discriminate. cbn [length] in *. lia.
  - cbn [json_size JSON_stringify length]. rewrite length_app. cbn [length].
    change (fun kv : jsstring * json => quote (fst kv) ++ 58 :: JSON_stringify (snd kv))
      with member_text.
    enough (fold_right (fun kv n => S (json_size (snd kv) + n)) O l
            <= length (join_with [44%Z] (map member_text l)))%nat by lia.
    destruct Hwf as [_ Hwf]. induction l as [|[k x] l IHl]; [cbn; lia|].
    apply Forall_cons in IH as [Hx IH]. destruct Hwf as (_ & Hwx & Hwf).
    specialize (IHl IH Hwf). specialize (Hx Hwx). cbn [fold_right map snd] in *.
    assert (Hm : (json_size x + 3 <= length (member_text (k, x)))%nat).
    { unfold member_text. cbn [fst snd]. rewrite length_app. cbn [length].
      pose proof (length_quote k). lia. }
    destruct l as [|kv' l]; [cbn [join_with map fold_right] in *; lia|].
    destruct (length_join_cons [44] (member_text (k, x)) (map member_text (kv' :: l))) as [_ E].
    rewrite map_cons in *. rewrite E by discriminate. cbn [length] in *. lia.
Qed.

Theorem JSON_roundtrip (v : json) : wf_json v -> JSON_parse (JSON_stringify v) = Some v.
Proof.
  intros Hwf. unfold JSON_parse.
  destruct (roundtrip_fuel (S (length (JSON_stringify v)))) as (Hv & _).
  specialize (Hv v [] Hwf). rewrite app_nil_r in Hv. rewrite Hv; [reflexivity | | exact I].
  pose proof (json_size_length v Hwf). lia.
Qed.

(** ** The stored draft *)

Lemma pad_code_units (k : nat) : forall n : Z, Forall code_unit (pad k n).
Proof.
  induction k as [|k IH]; intros n; [constructor|].
  cbn [pad]. apply Forall_app. split; [apply IH|].
  constructor; [|constructor]. unfold code_unit. euclid.
Qed.

Lemma toISOString_code_units (t : Z) : Forall code_unit (toISOString t).
Proof.
  unfold toISOString. destruct (civil_from_days (t / msPerDay)) as [[y m] d].
  apply Forall_app. split.
  - destruct ((0 <=? y) && (y <=? 9999)); [apply pad_code_units|].
    constructor; [|apply pad_code_units]. unfold code_unit. destruct (y <? 0); lia.
  - rewrite !Forall_app. repeat split; try apply pad_code_units;
      (constructor; [unfold code_unit; lia | constructor]).
Qed.

Lemma obj_get_elem_of {A} (k : jsstring) (v : A) (l : list (jsstring * A)) :
  NoDup (map fst l) -> obj_get k l = Some v <-> (k, v) ∈ l.
Proof.
  induction l as [|[k' v'] l IH]; intros Hnd; cbn.
  - split; [discriminate | intros H; inversion H].
  - apply NoDup_cons in Hnd as [Hk' Hnd]. rewrite elem_of_cons.
    destruct (decide (k = k')) as [->|Hne].
    + split.
      * intros [= ->]. left. reflexivity.
      * intros [[= ->]|Hin]; [reflexivity|].
        exfalso. apply Hk'. apply list_elem_of_fmap. exists (k', v). auto.
    + rewrite IH by assumption. split; [auto|]. intros [[= -> ->]|Hin]; [congruence | assumption].
Qed.

Lemma obj_get_map_to_list (d : gmap jsstring jsstring) (k : jsstring) :
  obj_get k (map_to_list d) = d !! k.
Proof.
  destruct (d !! k) as [v|] eqn:E.
  - apply obj_get_elem_of; [apply NoDup_fst_map_to_list | apply elem_of_map_to_list; assumption].
  - destruct (obj_get k (map_to_list d)) as [v|] eqn:E'; [|reflexivity].
    apply obj_get_elem_of in E'; [|apply NoDup_fst_map_to_list].
    apply elem_of_map_to_list in E'. congruence.
Qed.

Lemma members_FormData_strings (l : list (jsstring * jsstring)) :
  members_FormData (map (fun kv => (fst kv, JStr (snd kv))) l) = Some (list_to_map l).
Proof.
  induction l as [|[k v] l IH]; [reflexivity|]. cbn. rewrite IH. reflexivity.
Qed.

Lemma as_FormData_json (d : gmap jsstring jsstring) : as_FormData (FormData_json d) = Some d.
Proof.
  unfold FormData_json, as_FormData. rewrite members_FormData_strings.
  f_equal. apply list_to_map_to_list.
Qed.

Lemma members_wf_strings (l : list (jsstring * jsstring)) :
  Forall (fun kv => Forall code_unit (fst kv) /\ Forall code_unit (snd kv)) l ->
  members_wf (map (fun kv => (fst kv, JStr (snd kv))) l).
Proof.
  induction 1 as [|[k v] l [Hk Hv] _ IH]; cbn; auto.
Qed.

Lemma wf_FormData_json (d : gmap jsstring jsstring) :
  wf_FormData d -> wf_json (FormData_json d).
Proof.
  intros Hwf. unfold FormData_json. cbn [wf_json]. split.
  - rewrite map_map. cbn. apply NoDup_fst_map_to_list.
  - apply members_wf_strings. apply Forall_forall. intros [k v] Hin. cbn.
    apply elem_of_map_to_list in Hin. exact (Hwf k v Hin).
Qed.

Lemma js_code_units (s : string) : Forall code_unit (js s).
Proof.
  unfold js. apply Forall_forall. intros c Hin.
  apply list_elem_of_fmap in Hin as (a & -> & _).
  pose proof (nat_ascii_bounded a). unfold code_unit. lia.
Qed.

Lemma wf_draft_json (d : gmap jsstring jsstring) (now : Z) :
  wf_FormData d -> wf_json (draft_json d now).
Proof.
  intros Hwf. unfold draft_json. cbn [wf_json map fst snd fold_right].
  split; [|split; [apply js_code_units|split; [apply (wf_FormData_json d Hwf)|]]].
  - repeat constructor; [|apply not_elem_of_nil]. intros H. apply list_elem_of_singleton in H. discriminate.
  - split; [apply js_code_units|]. split; [apply toISOString_code_units | exact I].
Qed.

Lemma stringify_object_nonempty (l : list (jsstring * json)) : JSON_stringify (JObj l) <> [].
Proof. cbn [JSON_stringify]. discriminate. Qed.

Lemma lookup_saveDraft (d : gmap jsstring jsstring) (saved : Z) (ls : gmap jsstring jsstring) :
  saveDraft d saved ls !! DRAFT_KEY = Some (JSON_stringify (draft_json d saved)).
Proof. unfold saveDraft. apply lookup_insert_eq. Qed.

Section Mounting.

(** What the host makes of the date formats the model does not read. *)
Context (host_date : json -> option Z).

Lemma loadDraft_absent (ls : gmap jsstring jsstring) (now : Z) :
  ls !! DRAFT_KEY = None \/ ls !! DRAFT_KEY = Some [] ->
  loadDraft host_date ls now = LoadNothing.
Proof. unfold loadDraft. intros [-> | ->]; reflexivity. Qed.

Lemma loadDraft_stored (ls : gmap jsstring jsstring)
    (d : gmap jsstring jsstring) (saved now : Z) :
  wf_FormData d -> 0 <= saved < 253402300800000 ->
  ls !! DRAFT_KEY = Some (JSON_stringify (draft_json d saved)) ->
  loadDraft host_date ls now
  = if now - saved <? 24 * 60 * 60 * 1000 then LoadSeeds (Some (FormData_json d))
    else LoadNothing.
Proof.
  intros Hwf Hsaved Hls. unfold loadDraft. rewrite Hls.
  pose proof (JSON_roundtrip (draft_json d saved) (wf_draft_json d saved Hwf)) as Hparse.
  pose proof (stringify_object_nonempty
                [(js "data", FormData_json d); (js "timestamp", JStr (toISOString saved))]) as Hne.
  change (JObj _) with (draft_json d saved) in Hne.
  destruct (JSON_stringify (draft_json d saved)) as [|c text]; [congruence|].
  rewrite Hparse. unfold draft_json. cbn [get_property obj_get].
  rewrite (decide_True (P := js "data" = js "data")) by reflexivity.
  rewrite (decide_False (P := js "timestamp" = js "data")) by discriminate.
  rewrite (decide_True (P := js "timestamp" = js "timestamp")) by reflexivity.
  cbn [Date_getTime]. unfold Date_parse. rewrite iso_roundtrip by assumption. reflexivity.
Qed.

Lemma Date_getTime_throws (stamp : json) :
  ToPrimitive_throws stamp = true -> Date_getTime host_date (Some stamp) = Throws TypeError.
Proof. destruct stamp; cbn [ToPrimitive_throws Date_getTime]; try discriminate; intros ->; reflexivity. Qed.

Lemma loadDraft_throws (ls : gmap jsstring jsstring) (now : Z) (draft : jsstring) :
  ls !! DRAFT_KEY = Some draft ->
  (draft <> [] -> JSON_parse draft = None -> loadDraft host_date ls now = LoadThrows SyntaxError)
  /\ (JSON_parse draft = Some JNull -> loadDraft host_date ls now = LoadThrows TypeError)
  /\ (forall members stamp,
        JSON_parse draft = Some (JObj members) ->
        obj_get (js "timestamp") members = Some stamp ->
        ToPrimitive_throws stamp = true ->
        loadDraft host_date ls now = LoadThrows TypeError).
Proof.
  intros Hls. unfold loadDraft. rewrite Hls. split; [|split].
  - intros Hne Hparse. destruct draft; [congruence|]. rewrite Hparse. reflexivity.
  - intros Hparse. destruct draft; [discriminate Hparse|]. rewrite Hparse. reflexivity.
  - intros members stamp Hparse Hstamp Hthrows.
    destruct draft; [discriminate Hparse|]. rewrite Hparse.
    cbn [get_property]. rewrite Hstamp, Date_getTime_throws by assumption. reflexivity.
Qed.

End Mounting.

(** ** The request body *)

Lemma obj_get_set {A} (k k' : jsstring) (v : A) (l : list (jsstring * A)) :
  obj_get k (obj_set k' v l) = if decide (k = k') then Some v else obj_get k l.
Proof.
  induction l as [|[k1 v1] l IH]; cbn.
  - destruct (decide (k = k')); reflexivity.
  - destruct (decide (k' = k1)) as [->|Hne]; cbn.
    + destruct (decide (k = k1)); reflexivity.
    + rewrite IH. destruct (decide (k = k1)) as [->|]; [|reflexivity].
      rewrite decide_False by congruence. reflexivity.
Qed.

Lemma obj_get_fold_set (k : jsstring) (l : list (jsstring * jsstring)) :
  forall base : list (jsstring * json),
  NoDup (map fst l) ->
  obj_get k (fold_left (fun acc kv => obj_set (fst kv) (JStr (snd kv)) acc) l base)
  = match obj_get k l with
    | Some v => Some (JStr v)
    | None => obj_get k base
    end.
Proof.
  induction l as [|[k1 v1] l IH]; intros base Hnd; [reflexivity|].
  apply NoDup_cons in Hnd as [Hk1 Hnd]. cbn [fold_left obj_get fst snd].
  rewrite IH, obj_get_set by assumption.
  destruct (decide (k = k1)) as [->|Hne]; [|reflexivity].
  destruct (obj_get k1 l) as [v|] eqn:E; [|reflexivity].
  exfalso. apply Hk1. apply obj_get_elem_of in E; [|assumption].
  apply list_elem_of_fmap. exists (k1, v). auto.
Qed.

Lemma obj_get_spread (k : jsstring) (d : gmap jsstring jsstring) (base : list (jsstring * json)) :
  obj_get k (spread d base)
  = match d !! k with
    | Some v => Some (JStr v)
    | None => obj_get k base
    end.
Proof.
  unfold spread. rewrite obj_get_fold_set by apply NoDup_fst_map_to_list.
  rewrite obj_get_map_to_list. reflexivity.
Qed.

Lemma obj_set_keys {A} (k : jsstring) (v : A) (l : list (jsstring * A)) :
  map fst (obj_set k v l) = if decide (k ∈ map fst l) then map fst l else map fst l ++ [k].
Proof.
  induction l as [|[k' v'] l IH]; cbn [obj_set map fst].
  - rewrite decide_False by apply not_elem_of_nil. reflexivity.
  - destruct (decide (k = k')) as [->|Hne]; cbn [map fst].
    + rewrite decide_True by left. reflexivity.
    + rewrite IH. destruct (decide (k ∈ map fst l)) as [Hin|Hnin].
      * rewrite decide_True by (right; assumption). reflexivity.
      * rewrite decide_False; [reflexivity|]. rewrite elem_of_cons. tauto.
Qed.

Lemma obj_set_NoDup {A} (k : jsstring) (v : A) (l : list (jsstring * A)) :
  NoDup (map fst l) -> NoDup (map fst (obj_set k v l)).
Proof.
  intros Hnd. rewrite obj_set_keys. destruct (decide (k ∈ map fst l)); [assumption|].
  apply NoDup_app. split; [assumption|]. split; [|apply NoDup_singleton].
  intros x Hx Hk. apply list_elem_of_singleton in Hk as ->. contradiction.
Qed.

Lemma obj_set_members_wf (k : jsstring) (v : json) (l : list (jsstring * json)) :
  Forall code_unit k -> wf_json v -> members_wf l -> members_wf (obj_set k v l).
Proof.
  intros Hk Hv. induction l as [|[k' v'] l IH]; intros Hl; cbn [obj_set].
  - cbn. auto.
  - destruct Hl as (Hk' & Hv' & Hl). destruct (decide (k = k')).
    + cbn. auto.
    + cbn. split; [assumption|]. split; [assumption|]. apply IH. assumption.
Qed.

Lemma wf_object_set (k : jsstring) (v : json) (l : list (jsstring * json)) :
  Forall code_unit k -> wf_json v -> wf_object l -> wf_object (obj_set k v l).
Proof.
  intros Hk Hv [Hnd Hl]. split; [apply obj_set_NoDup | apply obj_set_members_wf]; assumption.
Qed.

Lemma wf_object_spread (d : gmap jsstring jsstring) (base : list (jsstring * json)) :
  wf_FormData d -> wf_object base -> wf_object (spread d base).
Proof.
  intros Hd. unfold spread.
  assert (Hall : Forall (fun kv => Forall code_unit (fst kv) /\ Forall code_unit (snd kv))
                   (map_to_list d)).
  { apply Forall_forall. intros [k v] Hin. apply elem_of_map_to_list in Hin. exact (Hd k v Hin). }
  revert base. induction Hall as [|[k v] l [Hk Hv] _ IH]; intros base Hbase; [assumption|].
  cbn [fold_left]. apply IH. apply wf_object_set; assumption.
Qed.

Lemma wf_file_json (f : option UploadedFile) :
  match f with Some u => wf_UploadedFile u | None => True end -> wf_json (file_json f).
Proof.
  destruct f as [u|]; [|intros _; exact I]. intros (Hn & Ht & Hs & Hd).
  cbn [file_json wf_json map fst snd fold_right]. split.
  - repeat (constructor; [rewrite ?elem_of_cons, elem_of_nil; intros H;
                          repeat (destruct H as [H|H]; [discriminate H|]); exact H|]).
    constructor.
  - repeat split; try apply js_code_units; try assumption; try lia.
    destruct (uf_data u); [assumption | exact I].
Qed.

Lemma wf_payload (formType : jsstring) (now : Z) (env : Env) (st : State) :
  Forall code_unit formType -> wf_Env env -> wf_State st ->
  wf_json (JObj (payload formType now env st)).
Proof.
  intros Hft [Hua Href] (Hfd & Hr & Hf).
  change (wf_object (payload formType now env st)). unfold payload.
  repeat first
    [ apply wf_object_set; [apply js_code_units | |]
    | apply wf_object_spread; [assumption|] ];
    try assumption; try apply toISOString_code_units.
  - apply wf_file_json. assumption.
  - unfold rating_json. destruct (rating st =? 0); cbn; [exact I | lia].
  - split; [constructor | exact I].
Qed.

Lemma request_body_parses (formType : jsstring) (now : Z) (env : Env) (w : World) :
  Forall code_unit formType -> wf_Env env -> wf_State (ui w) ->
  JSON_parse (req_body (snd (handleSubmit_begin formType now env w)))
  = Some (JObj (payload formType now env (ui w))).
Proof.
  intros Hft Henv Hst. cbn [handleSubmit_begin snd request_of req_body].
  apply JSON_roundtrip, wf_payload; assumption.
Qed.

Lemma wf_payload_nested (formType : jsstring) (now : Z) (env : Env) (st : State) :
  Forall code_unit formType -> wf_Env env -> wf_State st ->
  wf_json (JObj (payload_nested formType now env st)).
Proof.
  intros Hft [Hua Href] (Hfd & Hr & Hf).
  assert (Hnil : wf_object []) by (split; [constructor | exact I]).
  change (wf_object (payload_nested formType now env st)). unfold payload_nested.
  repeat (apply wf_object_set; [apply js_code_units | |]);
    try assumption; try apply toISOString_code_units.
  - apply wf_file_json. assumption.
  - unfold rating_json. destruct (rating st =? 0); cbn; [exact I | lia].
  - apply wf_object_spread; assumption.
Qed.

Lemma request_body_nested_parses (formType : jsstring) (now : Z) (env : Env) (w : World) :
  Forall code_unit formType -> wf_Env env -> wf_State (ui w) ->
  JSON_parse (req_body (snd (handleSubmit_begin_nested formType now env w)))
  = Some (JObj (payload_nested formType now env (ui w))).
Proof.
  intros Hft Henv Hst. cbn [handleSubmit_begin_nested snd request_nested req_body].
  apply JSON_roundtrip, wf_payload_nested; assumption.
Qed.

(** ** validateField *)

Lemma messages_differ : MSG_REQUIRED <> MSG_EMAIL.
Proof. discriminate. Qed.

Lemma validateField_outcomes (id value : jsstring) (required : bool) :
  let A := required = true /\ value = [] in
  let B := id = js "email" /\ value <> [] /\ ~ email_shape value in
  (A /\ validateField id value required = Some MSG_REQUIRED)
  \/ (~ A /\ B /\ validateField id value required = Some MSG_EMAIL)
  \/ (~ A /\ ~ B /\ validateField id value required = None).
Proof.
  intros A B. subst A B. unfold validateField.
  pose proof (email_regex_shape value) as Hshape.
  destruct required, value as [|c value]; cbn [andb negb].
  1: { left. auto. }
  all: right.
  all: destruct (bool_decide_reflect (id = js "email")) as [Hid|Hid]; cbn [andb].
  all: try (destruct (regex_test email_regex (c :: value)) eqn:Htest; cbn [negb]).
  all: try (assert (Hs : email_shape (c :: value)) by (apply Hshape; reflexivity)).
  all: try (assert (Hs : ~ email_shape (c :: value))
              by (intros Hs; apply Hshape in Hs; congruence)).
  all: first
         [ left; split; [intros [? ?]; discriminate|];
           split; [|reflexivity]; split; [assumption|]; split; [discriminate | assumption]
         | right; split; [intros [? ?]; discriminate|];
           split; [|reflexivity]; intros (? & ? & ?); congruence ].
Qed.

(** ** The sample inputs are well formed *)

Lemma sample_record_wf : wf_FormData sample_record.
Proof.
  unfold wf_FormData, sample_record. apply map_Forall_singleton.
  split; apply js_code_units.
Qed.

(** ** From an edit to a reload *)

Lemma autoSaveEffect_deepdive (st : State) :
  currentPage st = testimonial_deepdive -> formData st <> ∅ ->
  autoSaveEffect st = Some (formData st).
Proof.
  intros Hpage Hne. unfold autoSaveEffect.
  rewrite bool_decide_eq_true_2 by assumption.
  assert (size (formData st) <> 0%nat) by (rewrite map_size_non_empty_iff; assumption).
  destruct (Z.ltb_spec 0 (Z.of_nat (size (formData st)))); [reflexivity | lia].
Qed.

(** A draft typed on the deep-dive page is stored when the timer fires, and
    a reload within 24 hours starts with it. *)
Lemma typed_draft_survives_reload
    (host_date : json -> option Z) (id value : jsstring) (saved now : Z) :
  Forall code_unit id -> Forall code_unit value ->
  0 <= saved < 253402300800000 -> now - saved < 24 * 60 * 60 * 1000 ->
  exists w w',
    run [Choose deepDive; Edit id value; SaveTimer saved] landing_world = Some w
    /\ draftSaved (ui w) = true
    /\ mount host_date (localStorage w) now = Running w'
    /\ currentPage (ui w') = landing
    /\ formData (ui w') = {[ id := value ]}.
Proof.
  intros Hid Hvalue Hsaved Hage.
  assert (Hwf : wf_FormData ({[ id := value ]} : gmap jsstring jsstring)).
  { apply map_Forall_singleton. split; assumption. }
  set (st2 := mkState testimonial_deepdive {[ id := value ]}
                {[ id := validateField id value true ]} false None false None 0).
  assert (Hedit : step (Edit id value) (navigate testimonial_deepdive landing_world)
                  = Some (mkWorld st2 ∅ (Some {[ id := value ]}) 0%nat None)).
  { change (step (Edit id value) (navigate testimonial_deepdive landing_world))
      with (Some (mkWorld st2 ∅ (autoSaveEffect st2) 0%nat None)).
    rewrite autoSaveEffect_deepdive; [reflexivity | reflexivity |].
    apply insert_non_empty. }
  exists (mkWorld (setDraftSaved true st2) (saveDraft {[ id := value ]} saved ∅) None 1%nat None).
  eexists. split; [|split; [reflexivity|]].
  - change (run [Choose deepDive; Edit id value; SaveTimer saved] landing_world)
      with (match step (Edit id value) (navigate testimonial_deepdive landing_world) with
            | Some w => run [SaveTimer saved] w
            | None => None
            end).
    rewrite Hedit. reflexivity.
  - cbn [localStorage]. unfold mount.
    rewrite (loadDraft_stored host_date _ {[ id := value ]} saved now Hwf Hsaved
               (lookup_saveDraft _ saved ∅)).
    replace (now - saved <? 24 * 60 * 60 * 1000) with true by (symmetry; apply Z.ltb_lt; lia).
    rewrite as_FormData_json. split; [reflexivity|]. split; reflexivity.
Qed.

(** * The properties of the specification *)

(** C1, as amended.  Reading the draft at mount has no failure handling:
    the load effect throws, and nothing in the component catches it, when
    the stored text is non-empty and is not valid JSON (a [SyntaxError] of
    [JSON.parse]), when it is the JSON value [null] (a [TypeError] of the
    destructuring), and when it is an object whose [timestamp] cannot be
    converted to a primitive (a [TypeError] of [new Date]).  When nothing is
    stored under the key, or the stored text is empty, the component starts
    as if no draft existed: the initial state, the storage as it was. *)
Theorem C1_draft_read_failure_escapes
    (host_date : json -> option Z) (ls : gmap jsstring jsstring) (now : Z) :
  (forall draft,
      ls !! js "testimonial_draft" = Some draft -> draft <> [] -> JSON_parse draft = None ->
      mount host_date ls now = EffectThrows SyntaxError)
  /\ (forall draft,
        ls !! js "testimonial_draft" = Some draft -> JSON_parse draft = Some JNull ->
        mount host_date ls now = EffectThrows TypeError)
  /\ (forall draft members stamp,
        ls !! js "testimonial_draft" = Some draft ->
        JSON_parse draft = Some (JObj members) ->
        obj_get (js "timestamp") members = Some stamp ->
        ToPrimitive_throws stamp = true ->
        mount host_date ls now = EffectThrows TypeError)
  /\ (ls !! js "testimonial_draft" = None \/ ls !! js "testimonial_draft" = Some [] ->
        mount host_date ls now = Running (mkWorld initialState ls None 0%nat None)).
Proof.
  change (js "testimonial_draft") with DRAFT_KEY. unfold mount.
  split; [|split; [|split]].
  - intros draft Hls Hne Hparse.
    destruct (loadDraft_throws host_date ls now draft Hls) as (-> & _); auto.
  - intros draft Hls Hparse.
    destruct (loadDraft_throws host_date ls now draft Hls) as (_ & -> & _); auto.
  - intros draft members stamp Hls Hparse Hstamp Hthrows.
    destruct (loadDraft_throws host_date ls now draft Hls) as (_ & _ & H).
    rewrite (H members stamp) by assumption. reflexivity.
  - intros H. rewrite loadDraft_absent by assumption. reflexivity.
Qed.

(** C1 as stated fails: with a stored text that is a draft cut short, with
    the stored text [null], and with a draft whose time stamp is an object
    with a property [toString], the mount effect throws instead of
    absorbing the failure. *)
Lemma C1_counterexample :
  mount strict_host {[ js "testimonial_draft" := jsq "{'data':{'name':'Ada'" ]} 0
  = EffectThrows SyntaxError
  /\ mount strict_host {[ js "testimonial_draft" := js "null" ]} 0 = EffectThrows TypeError
  /\ mount strict_host
       {[ js "testimonial_draft" := jsq "{'data':{'name':'Ada'},'timestamp':{'toString':1}}" ]} 0
     = EffectThrows TypeError.
Proof.
  repeat split; unfold mount, loadDraft; rewrite lookup_singleton_eq; reflexivity.
Qed.

(** Witness of C1: an empty storage. *)
Lemma C1_witness :
  (∅ : gmap jsstring jsstring) !! js "testimonial_draft" = None
  /\ mount strict_host ∅ 0 = Running landing_world.
Proof.
  split; [apply lookup_empty|].
  apply (C1_draft_read_failure_escapes strict_host ∅ 0).
  left. apply lookup_empty.
Defined.

(** C2, as amended.  The two copies of the component send different
    objects, and the text of each parses back to its object.

    In [src/components/ReviewHub.tsx] the top-level keys are these:
    [referrer], [userAgent], [file] (the attachment or null) and [rating]
    (the rating, or null exactly when the rating is 0) always hold these
    values; every key of the record holds the record's string;
    [submittedAt] holds the ISO time stamp and [reviewType] (not [formType])
    holds the track label, unless the record has a key of that name; there
    is no other key.

    In the second copy the top-level keys are exactly [formType],
    [submittedAt], [data], [file] and [metadata], whatever the record holds:
    [data] is an object with the keys of the record and [rating] (the
    rating or null, also when the record has a key of that name), and
    [metadata] is an object with [userAgent] and [referrer]. *)
Theorem C2_payload_keys (formType : jsstring) (now : Z) (env : Env) (w : World) (k : jsstring) :
  let st := ui w in
  let body := req_body (snd (handleSubmit_begin formType now env w)) in
  let body_nested := req_body (snd (handleSubmit_begin_nested formType now env w)) in
  (body = JSON_stringify (JObj (payload formType now env st))
   /\ (Forall code_unit formType -> wf_Env env -> wf_State st ->
         JSON_parse body = Some (JObj (payload formType now env st)))
   /\ obj_get k (payload formType now env st)
      = if decide (k = js "referrer") then Some (JStr (referrer env))
        else if decide (k = js "userAgent") then Some (JStr (userAgent env))
        else if decide (k = js "file") then Some (file_json (uploadedFile st))
        else if decide (k = js "rating")
             then Some (if decide (rating st = 0) then JNull else JNum (rating st))
        else match formData st !! k with
             | Some v => Some (JStr v)
             | None =>
                 if decide (k = js "submittedAt") then Some (JStr (toISOString now))
                 else if decide (k = js "reviewType") then Some (JStr formType)
                 else None
             end)
  /\ (body_nested = JSON_stringify (JObj (payload_nested formType now env st))
      /\ (Forall code_unit formType -> wf_Env env -> wf_State st ->
            JSON_parse body_nested = Some (JObj (payload_nested formType now env st)))
      /\ exists data metadata,
           (forall k',
               obj_get k' (payload_nested formType now env st)
               = if decide (k' = js "metadata") then Some (JObj metadata)
                 else if decide (k' = js "file") then Some (file_json (uploadedFile st))
                 else if decide (k' = js "data") then Some (JObj data)
                 else if decide (k' = js "submittedAt") then Some (JStr (toISOString now))
                 else if decide (k' = js "formType") then Some (JStr formType)
                 else None)
           /\ (forall k',
                  obj_get k' data
                  = if decide (k' = js "rating")
                    then Some (if decide (rating st = 0) then JNull else JNum (rating st))
                    else match formData st !! k' with
                         | Some v => Some (JStr v)
                         | None => None
                         end)
           /\ (forall k',
                  obj_get k' metadata
                  = if decide (k' = js "referrer") then Some (JStr (referrer env))
                    else if decide (k' = js "userAgent") then Some (JStr (userAgent env))
                    else None)).
Proof.
  cbv zeta.
  assert (Hrating : rating_json (rating (ui w))
                    = if decide (rating (ui w) = 0) then JNull else JNum (rating (ui w))).
  { unfold rating_json. destruct (Z.eqb_spec (rating (ui w)) 0) as [E|E].
    - rewrite (decide_True (P := rating (ui w) = 0)) by assumption. reflexivity.
    - rewrite (decide_False (P := rating (ui w) = 0)) by assumption. reflexivity. }
  split; [|split; [reflexivity|split; [apply request_body_nested_parses|]]].
  - split; [reflexivity|]. split; [apply request_body_parses|].
    unfold payload. rewrite !obj_get_set, obj_get_spread, !obj_get_set. cbn [obj_get].
    rewrite Hrating. reflexivity.
  - eexists _, _. split; [|split].
    + intros k'. unfold payload_nested. rewrite !obj_get_set. cbn [obj_get]. reflexivity.
    + intros k'. rewrite obj_get_set, obj_get_spread. cbn [obj_get].
      rewrite Hrating. reflexivity.
    + intros k'. rewrite !obj_get_set. cbn [obj_get]. reflexivity.
Qed.

(** C2 as stated fails.  The body [ReviewHub.tsx] sends for the sample
    submission is an object with no [formType] key: the label is under
    [reviewType].  The object of the second copy of the component has
    [formType], but its rating, its field keys and the client context are
    not top-level keys. *)
Lemma C2_counterexample :
  exists body,
    JSON_parse
      (req_body (snd (handleSubmit_begin (track_label deepDive) 1700000000000 sample_env
                        sample_world)))
    = Some (JObj body)
    /\ obj_get (js "formType") body = None
    /\ obj_get (js "reviewType") body = Some (JStr (js "Testimonial Deep-Dive"))
    /\ obj_get (js "formType")
         (payload_nested (track_label deepDive) 1700000000000 sample_env sample_state)
       = Some (JStr (js "Testimonial Deep-Dive"))
    /\ obj_get (js "rating")
         (payload_nested (track_label deepDive) 1700000000000 sample_env sample_state) = None
    /\ obj_get (js "name")
         (payload_nested (track_label deepDive) 1700000000000 sample_env sample_state) = None
    /\ obj_get (js "userAgent")
         (payload_nested (track_label deepDive) 1700000000000 sample_env sample_state) = None.
Proof.
  eexists. split; [vm_compute; reflexivity|]. vm_compute. repeat split.
Qed.

(** Witness of C2: the body of the sample submission parses back to its
    payload, whose [rating] is the number 4. *)
Lemma C2_witness :
  Forall code_unit (track_label deepDive) /\ wf_Env sample_env /\ wf_State sample_state
  /\ JSON_parse
       (req_body (snd (handleSubmit_begin (track_label deepDive) 1700000000000 sample_env
                         sample_world)))
     = Some (JObj (payload (track_label deepDive) 1700000000000 sample_env sample_state))
  /\ obj_get (js "rating")
       (payload (track_label deepDive) 1700000000000 sample_env sample_state)
     = Some (JNum 4).
Proof.
  pose proof (C2_payload_keys (track_label deepDive) 1700000000000 sample_env sample_world
                (js "rating")) as ((_ & Hparse & Hkey) & _).
  assert (Hlabel : Forall code_unit (track_label deepDive)) by apply js_code_units.
  assert (Henv : wf_Env sample_env) by (split; apply js_code_units).
  assert (Hst : wf_State sample_state).
  { split; [exact sample_record_wf|]. split; [cbn; lia | exact I]. }
  split; [exact Hlabel|]. split; [exact Henv|]. split; [exact Hst|].
  split; [exact (Hparse Hlabel Henv Hst) | exact Hkey].
Defined.

(** C3, as amended.  [validateField] returns the required-field message
    exactly when [required] holds and the value is the empty string; it
    returns the e-mail message exactly when that is not the case, the field
    is [email], the value is non-empty and the value is not of the shape
    [email_shape] (one [@], no white space, a non-empty local part, and a dot
    after the [@] with at least one code unit before it and one after it);
    it returns [null] in every other case.  The function reads nothing but
    its arguments. *)
Theorem C3_validateField_cases (id value : jsstring) (required : bool) :
  (validateField id value required = Some (js "This field is required")
     <-> required = true /\ value = [])
  /\ (validateField id value required = Some (js "Please enter a valid email")
        <-> ~ (required = true /\ value = [])
            /\ id = js "email" /\ value <> [] /\ ~ email_shape value)
  /\ (validateField id value required = None
        <-> ~ (required = true /\ value = [])
            /\ ~ (id = js "email" /\ value <> [] /\ ~ email_shape value))
  /\ validateField id [] true = Some (js "This field is required")
  /\ validateField id [] false = None.
Proof.
  change (js "This field is required") with MSG_REQUIRED.
  change (js "Please enter a valid email") with MSG_EMAIL.
  enough (H : (validateField id value required = Some MSG_REQUIRED
                 <-> required = true /\ value = [])
              /\ (validateField id value required = Some MSG_EMAIL
                    <-> ~ (required = true /\ value = [])
                        /\ id = js "email" /\ value <> [] /\ ~ email_shape value)
              /\ (validateField id value required = None
                    <-> ~ (required = true /\ value = [])
                        /\ ~ (id = js "email" /\ value <> [] /\ ~ email_shape value))).
  { destruct H as (H1 & H2 & H3).
    split; [exact H1|]. split; [exact H2|]. split; [exact H3|]. split; [reflexivity|].
    unfold validateField. cbn [andb]. destruct (bool_decide (id = js "email")); reflexivity. }
  pose proof messages_differ as Hdiff.
  destruct (validateField_outcomes id value required)
    as [(HA & ->)|[(HA & HB & ->)|(HA & HB & ->)]];
    intuition (congruence || discriminate).
Qed.

(** C3 as stated fails: [a@.b] is local-part@domain with both parts
    non-empty, no white space and a dot in the domain, and the code rejects
    it. *)
Lemma C3_counterexample :
  ~ (validateField (js "email") (js "a@.b") false = Some (js "Please enter a valid email")
     <-> ~ spec_email_shape (js "a@.b")).
Proof.
  intros [Hcode _]. apply Hcode; [reflexivity|].
  exists (js "a"), (js ".b"). split; [reflexivity|].
  split; [discriminate|]. split; [discriminate|].
  split; [repeat constructor|]. left.
Qed.

(** C4, as amended.  A file whose declared type is not one of the three
    image types is rejected with the type message, whatever its size; a file
    of an allowed type whose size exceeds 5 * 1024 * 1024 is rejected with
    the size message; a rejection leaves [uploadedFile] as it was.  Every
    other file is handed to the reader, and when the read ends the file is
    stored as the attachment and the upload error is cleared, whether the
    read succeeded or not: after a successful read the stored [data] is a
    data URL from which the type and the bytes are read back, after a failed
    read the stored [data] is [null]. *)
Theorem C4_upload_gatekeeper (file : File) (read_ok : bool) (w : World) :
  let st := ui w in
  let st' := ui (upload (Some file) read_ok w) in
  (file_type file ∉ validTypes ->
     handleFileUpload (Some file) st
     = (setErrors (<[js "logo" := Some (js "Please upload JPG, PNG, or SVG only")]> (errors st)) st,
        None)
     /\ uploadedFile (fst (handleFileUpload (Some file) st)) = uploadedFile st
     /\ st' = setErrors
                (<[js "logo" := Some (js "Please upload JPG, PNG, or SVG only")]> (errors st)) st)
  /\ (file_type file ∈ validTypes -> 5 * 1024 * 1024 < file_size file ->
        handleFileUpload (Some file) st
        = (setErrors (<[js "logo" := Some (js "File must be under 5MB")]> (errors st)) st, None)
        /\ uploadedFile (fst (handleFileUpload (Some file) st)) = uploadedFile st
        /\ st' = setErrors (<[js "logo" := Some (js "File must be under 5MB")]> (errors st)) st)
  /\ upload (Some file) read_ok w
     = mkWorld st' (localStorage w) (saveTimer w) (flagTimers w) (awaiting w)
  /\ (file_type file ∈ validTypes -> file_size file <= 5 * 1024 * 1024 ->
        handleFileUpload (Some file) st = (st, Some file)
        /\ st' = onloadend file (reader_result file read_ok) st
        /\ errors st' = <[js "logo" := None]> (errors st)
        /\ (read_ok = false ->
              reader_result file read_ok = None
              /\ uploadedFile st'
                 = Some (mkUploadedFile (file_name file) (file_type file) (file_size file) None))
        /\ (read_ok = true -> Forall is_byte (file_bytes file) ->
              exists url,
                reader_result file read_ok = Some url
                /\ dataURL_decode url = Some (file_type file, file_bytes file)
                /\ uploadedFile st'
                   = Some (mkUploadedFile (file_name file) (file_type file) (file_size file)
                             (Some url))
                /\ uploadedFile (onloadend file (Some url) st)
                   = Some (mkUploadedFile (file_name file) (file_type file) (file_size file)
                             (Some url)))).
Proof.
  cbv zeta. unfold upload, handleFileUpload. change maxSize with (5 * 1024 * 1024).
  split; [|split; [|split]].
  - intros Htype. rewrite bool_decide_eq_false_2 by assumption. cbn [negb]. auto.
  - intros Htype Hsize. rewrite bool_decide_eq_true_2 by assumption. cbn [negb].
    destruct (Z.ltb_spec (5 * 1024 * 1024) (file_size file)); [auto | lia].
  - destruct (negb _); [reflexivity|]. destruct (_ <? _); reflexivity.
  - intros Htype Hsize. rewrite bool_decide_eq_true_2 by assumption. cbn [negb].
    destruct (Z.ltb_spec (5 * 1024 * 1024) (file_size file)); [lia|].
    split; [reflexivity|]. split; [reflexivity|]. split; [reflexivity|]. split.
    + intros ->. split; reflexivity.
    + intros -> Hbytes. eexists. split; [reflexivity|]. split; [|split; reflexivity].
      apply dataURL_roundtrip; [apply validTypes_no_semicolon|]; assumption.
Qed.

(** C4 as stated fails: a small PNG passes both tests, and when its read
    fails it is stored as the attachment all the same, with no data, and
    the upload error is cleared; the request then carries [null] as the
    data of the file. *)
Lemma C4_counterexample :
  file_type small_png ∈ validTypes
  /\ file_size small_png <= 5 * 1024 * 1024
  /\ uploadedFile (ui (upload (Some small_png) false sample_world))
     = Some (mkUploadedFile (js "logo.png") (js "image/png") 4 None)
  /\ errors (ui (upload (Some small_png) false sample_world)) !! js "logo" = Some None
  /\ file_json (uploadedFile (ui (upload (Some small_png) false sample_world)))
     = JObj [(js "name", JStr (js "logo.png")); (js "type", JStr (js "image/png"));
             (js "size", JNum 4); (js "data", JNull)].
Proof.
  split; [|split; [cbn; lia|]].
  - unfold validTypes. cbn. rewrite !elem_of_cons. right. left. reflexivity.
  - assert (H : ui (upload (Some small_png) false sample_world)
                = onloadend small_png None sample_state) by reflexivity.
    rewrite H. split; [reflexivity|]. split; [apply lookup_insert_eq | reflexivity].
Qed.

(** Witness of C4: a text file, a PNG of 6 MiB and a small PNG. *)
Lemma C4_witness :
  (errors (fst (handleFileUpload (Some text_file) sample_state)) !! js "logo"
   = Some (Some (js "Please upload JPG, PNG, or SVG only")))
  /\ (errors (fst (handleFileUpload (Some huge_png) sample_state)) !! js "logo"
      = Some (Some (js "File must be under 5MB")))
  /\ (exists url, reader_result small_png true = Some url
                  /\ dataURL_decode url = Some (js "image/png", [137; 80; 78; 71])
                  /\ uploadedFile (ui (upload (Some small_png) true sample_world))
                     = Some (mkUploadedFile (js "logo.png") (js "image/png") 4 (Some url))).
Proof.
  destruct (C4_upload_gatekeeper text_file true sample_world) as (H1 & _).
  destruct (C4_upload_gatekeeper huge_png true sample_world) as (_ & H2 & _).
  destruct (C4_upload_gatekeeper small_png true sample_world) as (_ & _ & _ & H3).
  split; [|split].
  - destruct H1 as [-> _]; [|apply lookup_insert_eq].
    unfold validTypes. cbn. rewrite !elem_of_cons, elem_of_nil.
    intros [H|[H|[H|[]]]]; discriminate H.
  - destruct H2 as [-> _]; [| cbn; lia | apply lookup_insert_eq].
    unfold validTypes. cbn. rewrite !elem_of_cons. right. left. reflexivity.
  - destruct H3 as (_ & _ & _ & _ & H3).
    + unfold validTypes. cbn. rewrite !elem_of_cons. right. left. reflexivity.
    + cbn. lia.
    + destruct H3 as (url & Hurl & Hdec & Hstored & _); [reflexivity | |].
      * repeat constructor; unfold is_byte; lia.
      * exists url. split; [assumption|]. split; assumption.
Defined.

(** C5.  For a record [R] of strings saved at an instant [saved] (from
    1970 to the year 9999; the save is what the auto-save timer does when it
    fires): a load less than 24 hours later seeds [formData] with exactly
    [R]; a load 24 hours later or more changes no state, and the storage
    still holds the saved text. *)
Theorem C5_draft_round_trip_and_expiry
    (host_date : json -> option Z) (R : gmap jsstring jsstring) (saved now : Z)
    (ls : gmap jsstring jsstring) :
  wf_FormData R -> 0 <= saved < 253402300800000 ->
  let stored := saveDraft R saved ls in
  (forall w, saveTimer w = Some R -> localStorage w = ls ->
             localStorage (saveTimerFires saved w) = stored)
  /\ (now - saved < 24 * 60 * 60 * 1000 ->
     loadDraft host_date stored now = LoadSeeds (Some (FormData_json R))
     /\ as_FormData (FormData_json R) = Some R
     /\ exists w, mount host_date stored now = Running w /\ formData (ui w) = R)
  /\ (24 * 60 * 60 * 1000 <= now - saved ->
        loadDraft host_date stored now = LoadNothing
        /\ exists w, mount host_date stored now = Running w
                     /\ formData (ui w) = ∅
                     /\ localStorage w = stored
                     /\ localStorage w !! DRAFT_KEY
                        = Some (JSON_stringify (draft_json R saved))).
Proof.
  intros Hwf Hsaved stored.
  pose proof (loadDraft_stored host_date stored R saved now Hwf Hsaved
                (lookup_saveDraft R saved ls)) as Hload.
  split; [|split; intros Hage].
  - intros w Htimer <-. unfold saveTimerFires. rewrite Htimer. reflexivity.
  - replace (now - saved <? 24 * 60 * 60 * 1000) with true in Hload
      by (symmetry; apply Z.ltb_lt; lia).
    split; [exact Hload|]. split; [apply as_FormData_json|].
    unfold mount. rewrite Hload, as_FormData_json. eexists. split; reflexivity.
  - replace (now - saved <? 24 * 60 * 60 * 1000) with false in Hload
      by (symmetry; apply Z.ltb_ge; lia).
    split; [exact Hload|].
    unfold mount. rewrite Hload. eexists. split; [reflexivity|].
    cbn. repeat split. apply lookup_saveDraft.
Qed.

(** Witness of C5: a one-field record, read back five seconds and one day
    after it was saved. *)
Lemma C5_witness :
  wf_FormData sample_record
  /\ 0 <= 1700000000000 < 253402300800000
  /\ loadDraft strict_host (saveDraft sample_record 1700000000000 ∅) 1700000005000
     = LoadSeeds (Some (FormData_json sample_record))
  /\ loadDraft strict_host (saveDraft sample_record 1700000000000 ∅) 1700086400000
     = LoadNothing.
Proof.
  split; [exact sample_record_wf|]. split; [lia|].
  split.
  - destruct (C5_draft_round_trip_and_expiry strict_host sample_record 1700000000000
                1700000005000 ∅ sample_record_wf ltac:(lia)) as (_ & Hfresh & _).
    apply Hfresh. lia.
  - destruct (C5_draft_round_trip_and_expiry strict_host sample_record 1700000000000
                1700086400000 ∅ sample_record_wf ltac:(lia)) as (_ & _ & Hstale).
    apply Hstale. lia.
Defined.

(** C6.  [handleSubmit] first sets [isSubmitting] and clears
    [submitError], changing nothing else, and hands the request to [fetch].
    When the fetch settles without success (a status outside 200..299 or a
    rejection), [submitError] becomes the fixed message, the page, the
    record, the attachment and the storage stay as they are at that moment,
    and [isSubmitting] is false again (it is false again after a success
    too); a second attempt sends the same record, rating and attachment. *)
Theorem C6_submission_failure
    (formType : jsstring) (now : Z) (env : Env) (o : FetchOutcome) (w w' : World) :
  response_ok o = false ->
  let started := fst (handleSubmit_begin formType now env w) in
  let settled := handleSubmit_end formType o w' in
  (isSubmitting (ui started) = true /\ submitError (ui started) = None
   /\ currentPage (ui started) = currentPage (ui w)
   /\ formData (ui started) = formData (ui w)
   /\ uploadedFile (ui started) = uploadedFile (ui w)
   /\ localStorage started = localStorage w)
  /\ submitError (ui settled)
     = Some (js "Unable to submit. Please check your connection and try again.")
  /\ currentPage (ui settled) = currentPage (ui w')
  /\ formData (ui settled) = formData (ui w')
  /\ uploadedFile (ui settled) = uploadedFile (ui w')
  /\ localStorage settled = localStorage w'
  /\ isSubmitting (ui settled) = false
  /\ (forall o', isSubmitting (ui (handleSubmit_end formType o' w')) = false)
  /\ (forall now' env',
         payload formType now' env' (ui settled) = payload formType now' env' (ui w')).
Proof.
  intros Hfail started settled. subst started settled.
  unfold handleSubmit_end. rewrite Hfail. cbn.
  repeat split; try reflexivity.
  intros o'. destruct (response_ok o'); reflexivity.
Qed.

(** Witness of C6: a response with status 500. *)
Lemma C6_witness :
  response_ok (Responded 500) = false
  /\ submitError (ui (handleSubmit_end (js "Short Review") (Responded 500) sample_world))
     = Some (js "Unable to submit. Please check your connection and try again.").
Proof.
  split; [reflexivity|].
  apply (C6_submission_failure (js "Short Review") 0 sample_env (Responded 500)
           sample_world sample_world).
  reflexivity.
Defined.

(** C7.  When the fetch settles with a status in 200..299, the draft is
    removed from the storage, [formData.formType] is the track label (the
    other fields of the record are kept), and the page is [success]. *)
Theorem C7_submission_success (formType : jsstring) (status : Z) (w : World) :
  200 <= status <= 299 ->
  let settled := handleSubmit_end formType (Responded status) w in
  localStorage settled !! js "testimonial_draft" = None
  /\ localStorage settled = delete (js "testimonial_draft") (localStorage w)
  /\ formData (ui settled) !! js "formType" = Some formType
  /\ formData (ui settled) = <[js "formType" := formType]> (formData (ui w))
  /\ currentPage (ui settled) = success.
Proof.
  intros Hstatus settled. subst settled. unfold handleSubmit_end.
  replace (response_ok (Responded status)) with true
    by (symmetry; apply andb_true_iff; rewrite !Z.leb_le; lia).
  cbn. change DRAFT_KEY with (js "testimonial_draft").
  repeat split; [apply lookup_delete_eq | apply lookup_insert_eq].
Qed.

(** Witness of C7: a response with status 204. *)
Lemma C7_witness :
  200 <= 204 <= 299
  /\ currentPage (ui (handleSubmit_end (js "Short Review") (Responded 204) sample_world))
     = success.
Proof.
  split; [lia|].
  apply (C7_submission_success (js "Short Review") 204 sample_world). lia.
Defined.

(** C8.  From the landing page, choosing the short review, going back
    and choosing the deep dive ends on the deep-dive page with every state
    cell but the page, and the storage, unchanged.  Choosing a track from
    the landing page and going back from a track page change the page and
    no other state cell: the record, the rating and the attachment are kept
    (the pending auto-save timer is no state cell: the effect starts or
    clears it as the new page says). *)
Theorem C8_navigation_changes_only_the_page (w w1 : World) (t : Track) :
  currentPage (ui w) = landing ->
  currentPage (ui w1) = track_page t ->
  (exists w3,
      run [Choose shortReview; GoBack; Choose deepDive] w = Some w3
      /\ currentPage (ui w3) = testimonial_deepdive
      /\ formData (ui w3) = formData (ui w)
      /\ ui w3 = setCurrentPage testimonial_deepdive (ui w)
      /\ localStorage w3 = localStorage w)
  /\ (exists w2,
         step (Choose t) w = Some w2
         /\ ui w2 = setCurrentPage (track_page t) (ui w)
         /\ localStorage w2 = localStorage w)
  /\ (exists w2,
         step GoBack w1 = Some w2
         /\ currentPage (ui w2) = landing
         /\ formData (ui w2) = formData (ui w1)
         /\ rating (ui w2) = rating (ui w1)
         /\ uploadedFile (ui w2) = uploadedFile (ui w1)
         /\ ui w2 = setCurrentPage landing (ui w1)
         /\ localStorage w2 = localStorage w1).
Proof.
  intros Hw Hw1. split; [|split].
  - cbn [run step]. rewrite Hw. cbn. eexists. split; [reflexivity|]. cbn. auto.
  - cbn [step]. rewrite Hw. cbn. eexists. split; [reflexivity|]. cbn. auto.
  - cbn [step]. rewrite Hw1. destruct t; cbn; eexists; (split; [reflexivity|]); cbn; auto 10.
Qed.

(** Witness of C8: the walk from the initial world. *)
Lemma C8_witness :
  currentPage (ui landing_world) = landing
  /\ currentPage (ui sample_world) = track_page deepDive
  /\ exists w3,
       run [Choose shortReview; GoBack; Choose deepDive] landing_world = Some w3
       /\ currentPage (ui w3) = testimonial_deepdive.
Proof.
  split; [reflexivity|]. split; [reflexivity|].
  destruct (C8_navigation_changes_only_the_page landing_world sample_world deepDive
              eq_refl eq_refl) as ((w3 & Hrun & Hpage & _) & _).
  exists w3. split; assumption.
Defined.

(** C9.  [handleInputChange] records for the edited field the verdict of
    [validateField] with [required] fixed to [true]: an edit to the empty
    string records the required-field message, for every field identifier,
    also those the forms declare optional ([email], [q6_additional],
    [role], [q5_quantify]). *)
Theorem C9_edit_validates_as_required (id value : jsstring) (w : World) :
  errors (ui (handleInputChange id value w)) !! id = Some (validateField id value true)
  /\ errors (ui (handleInputChange id [] w)) !! id = Some (Some (js "This field is required"))
  /\ filter (fun f => negb (snd f)) short_review_fields
     = [(js "email", false); (js "q6_additional", false)]
  /\ filter (fun f => negb (snd f)) testimonial_deepdive_fields
     = [(js "role", false); (js "email", false); (js "q5_quantify", false)].
Proof.
  split; [|split; [|split; reflexivity]].
  - unfold handleInputChange. cbn. apply lookup_insert_eq.
  - unfold handleInputChange. cbn. apply lookup_insert_eq.
Qed.

(** C10.  Return Home sets the page to [landing], empties the record,
    resets the rating to 0 and removes the attachment; [errors] and
    [submitError] are what they were.  So an error recorded by an edit is
    still in [errors] after a successful submission and the reset that
    follows it. *)
Theorem C10_returnHome_keeps_errors (w : World) :
  let w' := returnHome w in
  (currentPage (ui w') = landing
   /\ formData (ui w') = ∅ /\ rating (ui w') = 0 /\ uploadedFile (ui w') = None
   /\ errors (ui w') = errors (ui w)
   /\ submitError (ui w') = submitError (ui w))
  /\ (forall (t : Track) (id : jsstring) (now : Z) (env : Env) (status : Z),
         currentPage (ui w) = track_page t -> isSubmitting (ui w) = false ->
         200 <= status <= 299 ->
         exists w4,
           run [Edit id []; Submit now env; FetchSettles (Responded status); ReturnHome] w
           = Some w4
           /\ currentPage (ui w4) = landing
           /\ formData (ui w4) = ∅
           /\ errors (ui w4) !! id = Some (Some (js "This field is required"))).
Proof.
  cbn zeta. split; [cbn; repeat split|].
  intros t id now env status Hpage Hsub Hstatus.
  assert (Hok : response_ok (Responded status) = true)
    by (apply andb_true_iff; rewrite !Z.leb_le; lia).
  destruct w as [[page fd errs sub serr ds uf r] ls timer flags aw].
  cbn in Hpage, Hsub. subst page sub.
  exists (returnHome
            (handleSubmit_end (track_label t) (Responded status)
               (fst (handleSubmit_begin (track_label t) now env
                       (handleInputChange id []
                          (mkWorld (mkState (track_page t) fd errs false serr ds uf r)
                             ls timer flags aw)))))).
  split.
  - destruct t; cbn -[response_ok handleSubmit_end returnHome handleInputChange];
      unfold handleSubmit_end; rewrite Hok; reflexivity.
  - unfold handleSubmit_end. rewrite Hok. cbn. repeat split. apply lookup_insert_eq.
Qed.

(** Witness of C10: on the deep-dive page, the optional field [role] edited
    to the empty string. *)
Lemma C10_witness :
  currentPage (ui sample_world) = track_page deepDive
  /\ isSubmitting (ui sample_world) = false
  /\ exists w4,
       run [Edit (js "role") []; Submit 0 sample_env; FetchSettles (Responded 200); ReturnHome]
         sample_world = Some w4
       /\ errors (ui w4) !! js "role" = Some (Some (js "This field is required")).
Proof.
  split; [reflexivity|]. split; [reflexivity|].
  destruct (C10_returnHome_keeps_errors sample_world) as [_ H].
  destruct (H deepDive (js "role") 0 sample_env 200 eq_refl eq_refl ltac:(lia))
    as (w4 & Hrun & _ & _ & Herr).
  exists w4. split; assumption.
Defined.

(** * Runs of the component *)

(** Case analysis on an accepted event. *)
Ltac step_cases H :=
  match type of H with
  | step ?e ?w = Some _ =>
      destruct e; cbn [step] in H;
      repeat match type of H with
        | (if bool_decide ?P then _ else _) = _ => destruct (bool_decide_reflect P)
        | (match on_track ?p with _ => _ end) = _ => destruct (on_track p) eqn:?
        | (match ?x with _ => _ end) = _ => destruct x eqn:?
        end;
      try discriminate H; injection H as <-
  end.

Lemma run_app (es1 es2 : list Event) (w : World) :
  run (es1 ++ es2) w = match run es1 w with Some w1 => run es2 w1 | None => None end.
Proof.
  revert w. induction es1 as [|e es1 IH]; intros w; [reflexivity|].
  cbn [run app]. destruct (step e w); [apply IH | reflexivity].
Qed.

(** What every accepted event keeps, every run keeps. *)
Lemma run_preserves (P : World -> Prop) (Q : Event -> Prop) :
  (forall e w w', Q e -> P w -> step e w = Some w' -> P w') ->
  forall es w w', Forall Q es -> P w -> run es w = Some w' -> P w'.
Proof.
  intros Hstep es. induction es as [|e es IH]; intros w w' HQ HP Hrun.
  - injection Hrun as <-. assumption.
  - apply Forall_cons in HQ as [He Hes]. cbn [run] in Hrun.
    destruct (step e w) as [w1|] eqn:E; [|discriminate].
    apply (IH w1 w' Hes); [|assumption]. apply (Hstep e w w1); assumption.
Qed.

Lemma run_preserves_all (P : World -> Prop) :
  (forall e w w', P w -> step e w = Some w' -> P w') ->
  forall es w w', P w -> run es w = Some w' -> P w'.
Proof.
  intros Hstep es w w' HP Hrun.
  apply (run_preserves P (fun _ => True) (fun e w1 w2 _ => Hstep e w1 w2) es w w');
    [apply Forall_forall; auto | assumption | assumption].
Qed.

Lemma autoSaveEffect_elsewhere (st : State) :
  currentPage st <> testimonial_deepdive -> autoSaveEffect st = None.
Proof.
  intros Hp. unfold autoSaveEffect. rewrite bool_decide_eq_false_2 by assumption. reflexivity.
Qed.

Lemma autoSaveEffect_Some (st : State) (d : gmap jsstring jsstring) :
  autoSaveEffect st = Some d ->
  d = formData st /\ currentPage st = testimonial_deepdive /\ d <> ∅.
Proof.
  unfold autoSaveEffect.
  destruct (bool_decide_reflect (currentPage st = testimonial_deepdive)) as [Hp|Hp];
    [|discriminate].
  destruct (Z.ltb_spec 0 (Z.of_nat (size (formData st)))) as [Hs|Hs]; [|discriminate].
  intros [= <-]. split; [reflexivity|]. split; [assumption|].
  intros Hempty. rewrite Hempty, map_size_empty in Hs. lia.
Qed.

(** A mount that does not throw restores at most the record. *)
Lemma mount_running (host_date : json -> option Z)
    (ls : gmap jsstring jsstring) (now : Z) (w0 : World) :
  mount host_date ls now = Running w0 ->
  exists d, w0 = mkWorld (setFormData d initialState) ls None 0%nat None.
Proof.
  unfold mount. destruct (loadDraft host_date ls now) as [|e|[data|]]; try discriminate.
  - intros [= <-]. exists ∅. reflexivity.
  - destruct (as_FormData data) as [d|]; [|discriminate].
    intros [= <-]. exists d. reflexivity.
Qed.


(** The three ways a file selection ends. *)
Lemma upload_outcomes (selected : option File) (read_ok : bool) (w : World) :
  let w' := upload selected read_ok w in
  localStorage w' = localStorage w /\ saveTimer w' = saveTimer w
  /\ flagTimers w' = flagTimers w /\ awaiting w' = awaiting w
  /\ (ui w' = ui w
      \/ (exists msg, (msg = MSG_TYPE \/ msg = MSG_SIZE)
                      /\ ui w' = setErrors (<[LOGO := Some msg]> (errors (ui w))) (ui w))
      \/ (exists file, selected = Some file /\ file_type file ∈ validTypes
                       /\ file_size file <= maxSize
                       /\ ui w' = onloadend file (reader_result file read_ok) (ui w))).
Proof.
  cbv zeta. unfold upload, handleFileUpload. destruct selected as [file|].
  - destruct (bool_decide_reflect (file_type file ∈ validTypes)) as [Ht|Ht]; cbn [negb].
    + destruct (Z.ltb_spec maxSize (file_size file)) as [Hs|Hs]; cbn.
      * repeat split. right. left. exists MSG_SIZE. auto.
      * repeat split. right. right. exists file. auto.
    + cbn. repeat split. right. left. exists MSG_TYPE. auto.
  - cbn. repeat split. left. reflexivity.
Qed.

(** ** The storage *)

Lemma step_storage_frame (k : jsstring) (e : Event) (w w' : World) :
  k <> DRAFT_KEY -> step e w = Some w' -> localStorage w' !! k = localStorage w !! k.
Proof.
  intros Hk H. step_cases H; try reflexivity.
  - destruct (upload_outcomes selected read_ok w) as (-> & _). reflexivity.
  - unfold handleSubmit_end. destruct (response_ok o); cbn [localStorage]; [|reflexivity].
    apply lookup_delete_ne. congruence.
  - unfold saveTimerFires. destruct (saveTimer w); [|reflexivity].
    cbn [localStorage]. unfold saveDraft. apply lookup_insert_ne. congruence.
  - unfold flagTimerFires. destruct (flagTimers w); reflexivity.
Qed.

(** ** The rating *)

Lemma step_rating (e : Event) (w w' : World) :
  0 <= rating (ui w) <= 5 -> step e w = Some w' -> 0 <= rating (ui w') <= 5.
Proof.
  intros Hr H. step_cases H; cbn; try assumption; try lia.
  - destruct (upload_outcomes selected read_ok w)
      as (_ & _ & _ & _ & [-> | [(msg & _ & ->) | (file & _ & _ & _ & ->)]]); assumption.
  - unfold handleSubmit_end. destruct (response_ok o); cbn; assumption.
  - unfold saveTimerFires. destruct (saveTimer w); cbn; assumption.
  - unfold flagTimerFires. destruct (flagTimers w); cbn; assumption.
Qed.

(** ** The auto-save timer *)

Lemma commit_timer_current (st : State) (w : World) :
  timer_current (commit true st w).
Proof. intros d Hd. cbn in Hd. apply autoSaveEffect_Some in Hd. exact Hd. Qed.

Lemma step_timer_current (e : Event) (w w' : World) :
  timer_current w -> step e w = Some w' -> timer_current w'.
Proof.
  intros Hinv H. step_cases H.
  - (* Choose *)
    unfold navigate. destruct (bool_decide_reflect (currentPage (ui w) = track_page t)) as [E|E].
    + destruct t; cbn in E; congruence.
    + apply commit_timer_current.
  - (* GoBack *)
    unfold navigate. destruct (bool_decide_reflect (currentPage (ui w) = landing)) as [E|E].
    + rewrite E in *. discriminate.
    + apply commit_timer_current.
  - apply commit_timer_current.
  - exact Hinv.
  - destruct (upload_outcomes selected read_ok w)
      as (_ & Ht & _ & _ & [Hu | [(msg & _ & Hu) | (file & _ & _ & _ & Hu)]]);
      intros d Hd; rewrite Ht in Hd; rewrite Hu; exact (Hinv d Hd).
  - exact Hinv.
  - exact Hinv.
  - unfold handleSubmit_end. destruct (response_ok o).
    + intros d Hd. cbn in Hd. discriminate.
    + exact Hinv.
  - apply commit_timer_current.
  - unfold saveTimerFires. destruct (saveTimer w); [|assumption]. intros d Hd. discriminate.
  - unfold flagTimerFires. destruct (flagTimers w); exact Hinv.
Qed.

(** ** The pending request *)

Lemma step_fetch_tracked (e : Event) (w w' : World) :
  fetch_tracked w -> step e w = Some w' -> fetch_tracked w'.
Proof.
  unfold fetch_tracked. intros Hinv H. step_cases H; try exact Hinv.
  - destruct (upload_outcomes selected read_ok w)
      as (_ & _ & _ & -> & [-> | [(msg & _ & ->) | (file & _ & _ & _ & ->)]]); exact Hinv.
  - cbn. split; [eauto | reflexivity].
  - unfold handleSubmit_end. destruct (response_ok o); cbn;
      (split; [discriminate | intros [? [=]]]).
  - unfold saveTimerFires. destruct (saveTimer w); exact Hinv.
  - unfold flagTimerFires. destruct (flagTimers w); exact Hinv.
Qed.

(** ** The note that a draft was saved *)

Lemma step_flag_tracked (e : Event) (w w' : World) :
  flag_tracked w -> step e w = Some w' -> flag_tracked w'.
Proof.
  unfold flag_tracked. intros Hinv H. step_cases H; try exact Hinv.
  - destruct (upload_outcomes selected read_ok w)
      as (_ & _ & -> & _ & [-> | [(msg & _ & ->) | (file & _ & _ & _ & ->)]]); exact Hinv.
  - unfold handleSubmit_end. destruct (response_ok o); exact Hinv.
  - unfold saveTimerFires. destruct (saveTimer w); [|exact Hinv]. cbn. discriminate.
  - unfold flagTimerFires.
    match goal with E : flagTimers w = S _ |- _ => rewrite E end. cbn. discriminate.
Qed.

(** ** What a mounted component starts with *)

Lemma mount_invariants (host_date : json -> option Z)
    (ls : gmap jsstring jsstring) (now : Z) (w0 : World) :
  mount host_date ls now = Running w0 ->
  rating (ui w0) = 0 /\ timer_current w0 /\ fetch_tracked w0 /\ flag_tracked w0
  /\ localStorage w0 = ls.
Proof.
  intros H. apply mount_running in H as [d ->]. cbn.
  split; [reflexivity|]. split; [intros d' [=]|]. split.
  - split; [discriminate | intros [? [=]]].
  - split; [discriminate | reflexivity].
Qed.

(** ** Worlds made of JavaScript values *)

Lemma b64_char_code_unit (i : Z) : 0 <= i < 64 -> code_unit (b64_char i).
Proof. intros Hi. unfold b64_char, code_unit. split_tests; lia. Qed.

Lemma base64_encode_code_units_upto (n : nat) : forall bytes : list Z,
  (length bytes <= n)%nat -> Forall is_byte bytes -> Forall code_unit (base64_encode bytes).
Proof.
  unfold is_byte.
  induction n as [|n IH]; intros bytes Hlen Hall.
  - destruct bytes; [constructor | cbn in Hlen; lia].
  - destruct bytes as [|a [|b [|c rest]]]; [constructor | | |].
    + apply Forall_cons in Hall as [Ha _]. clear IH Hlen. cbn [base64_encode].
      repeat (constructor; [first [apply b64_char_code_unit; euclid | unfold code_unit; lia]|]).
      constructor.
    + apply Forall_cons in Hall as [Ha Hall]. apply Forall_cons in Hall as [Hb _].
      clear IH Hlen. cbn [base64_encode].
      repeat (constructor; [first [apply b64_char_code_unit; euclid | unfold code_unit; lia]|]).
      constructor.
    + apply Forall_cons in Hall as [Ha Hall]. apply Forall_cons in Hall as [Hb Hall].
      apply Forall_cons in Hall as [Hc Hall]. cbn [base64_encode].
      assert (Hrest : Forall code_unit (base64_encode rest))
        by (apply IH; [cbn in Hlen; lia | assumption]).
      clear IH Hlen.
      repeat (constructor; [apply b64_char_code_unit; euclid|]). assumption.
Qed.

Lemma readAsDataURL_code_units (type : jsstring) (bytes : list Z) :
  Forall code_unit type -> Forall is_byte bytes -> Forall code_unit (readAsDataURL type bytes).
Proof.
  intros Ht Hb. unfold readAsDataURL. rewrite !Forall_app.
  split; [apply js_code_units|]. split; [assumption|]. split; [apply js_code_units|].
  apply (base64_encode_code_units_upto (length bytes)); [lia | assumption].
Qed.

Lemma wf_FormData_insert (id value : jsstring) (d : gmap jsstring jsstring) :
  Forall code_unit id -> Forall code_unit value -> wf_FormData d ->
  wf_FormData (<[id := value]> d).
Proof. intros Hid Hv Hd. apply map_Forall_insert_2; [split|]; assumption. Qed.

Lemma wf_FormData_empty : wf_FormData ∅.
Proof. apply map_Forall_empty. Qed.

Lemma step_wf_World (e : Event) (w w' : World) :
  wf_Event e -> wf_World w -> step e w = Some w' -> wf_World w'.
Proof.
  intros He (Hst & Htimer & Hlabel) H.
  pose proof Hst as (Hfd & Hr & Hf).
  step_cases H.
  - (* Choose *)
    split; [exact Hst|]. split; [|exact Hlabel].
    intros d Hd. unfold navigate in Hd. cbn in Hd.
    destruct (negb _); [|exact (Htimer d Hd)].
    apply autoSaveEffect_Some in Hd as [-> _]. exact Hfd.
  - (* GoBack *)
    split; [exact Hst|]. split; [|exact Hlabel].
    intros d Hd. unfold navigate in Hd. cbn in Hd.
    destruct (negb _); [|exact (Htimer d Hd)].
    apply autoSaveEffect_Some in Hd as [-> _]. exact Hfd.
  - (* Edit *)
    destruct He as [Hid Hv].
    assert (Hfd' : wf_FormData (<[id := value]> (formData (ui w))))
      by (apply wf_FormData_insert; assumption).
    split; [split; [exact Hfd' | split; assumption]|]. split; [|exact Hlabel].
    intros d Hd. cbn in Hd. apply autoSaveEffect_Some in Hd as [-> _]. exact Hfd'.
  - (* Rate *)
    split; [|split; assumption]. split; [exact Hfd|]. split; [cbn; lia | exact Hf].
  - (* SelectFile *)
    destruct (upload_outcomes selected read_ok w)
      as (_ & Ht & _ & Ha & [Hu | [(msg & _ & Hu) | (file & -> & Htype & Hsize & Hu)]]).
    1, 2: split; [rewrite Hu; exact Hst|]; split;
      [intros d Hd; rewrite Ht in Hd; exact (Htimer d Hd)
      |intros l Hl; rewrite Ha in Hl; exact (Hlabel l Hl)].
    destruct He as (Hname & Htype' & Hsz & Hbytes).
    split; [|split;
      [intros d Hd; rewrite Ht in Hd; exact (Htimer d Hd)
      |intros l Hl; rewrite Ha in Hl; exact (Hlabel l Hl)]].
    rewrite Hu. split; [exact Hfd|]. split; [exact Hr|].
    cbn [uploadedFile onloadend setErrors setUploadedFile].
    split; [exact Hname|]. split; [exact Htype'|]. split; [exact Hsz|].
    cbn [uf_data].
    unfold reader_result. destruct read_ok; [|exact I].
    apply readAsDataURL_code_units; assumption.
  - (* RemoveFile *)
    split; [|split; assumption]. split; [exact Hfd|]. split; [exact Hr | exact I].
  - (* Submit *)
    split; [exact Hst|]. split; [exact Htimer|]. cbn. intros l [= <-].
    destruct t; apply js_code_units.
  - (* FetchSettles *)
    unfold handleSubmit_end. destruct (response_ok o).
    + assert (Hfd' : wf_FormData (<[js "formType" := l]> (formData (ui w)))).
      { apply wf_FormData_insert; [apply js_code_units | apply Hlabel; reflexivity | exact Hfd]. }
      split; [split; [exact Hfd' | split; assumption]|].
      split; [|intros l' [=]]. intros d Hd. cbn in Hd. discriminate.
    + split; [exact Hst|]. split; [exact Htimer | intros l' [=]].
  - (* ReturnHome *)
    split; [split; [exact wf_FormData_empty | split; [cbn; lia | exact I]]|].
    split; [|exact Hlabel]. intros d Hd. cbn in Hd. discriminate.
  - (* SaveTimer *)
    unfold saveTimerFires. destruct (saveTimer w); [|discriminate].
    split; [exact Hst|]. split; [intros d Hd; discriminate | exact Hlabel].
  - (* FlagTimer *)
    unfold flagTimerFires. destruct (flagTimers w); [discriminate|].
    split; [exact Hst|]. split; [exact Htimer | exact Hlabel].
Qed.



(** The controls of the two forms are the fields of the tables above, with
    the same [required] attributes. *)
Example forms_agree_with_the_field_tables :
  map (fun c => (control_id c, control_required c)) short_review_form = short_review_fields
  /\ map (fun c => (control_id c, control_required c)) testimonial_deepdive_form
     = testimonial_deepdive_fields.
Proof. split; reflexivity. Qed.

(** * Further properties of the component *)

(** X1.  [StarRating] renders the stars 1 to 5 in order and fills the
    first [value] of them: none when [value] is 0 or less, all five when it
    is 5 or more. *)
Theorem StarRating_fills_the_first_stars (value : Z) :
  let k := Z.to_nat (Z.max 0 (Z.min 5 value)) in
  StarRating value
  = map (fun star => (star, true)) (take k stars)
    ++ map (fun star => (star, false)) (drop k stars).
Proof.
  cbv zeta. unfold StarRating, stars. cbn [map].
  assert (Hcases : value <= 0 \/ value = 1 \/ value = 2 \/ value = 3 \/ value = 4 \/ 5 <= value)
    by lia.
  destruct Hcases as [H|[->|[->|[->|[->|H]]]]]; try reflexivity.
  - replace (Z.max 0 (Z.min 5 value)) with 0 by lia.
    repeat match goal with |- context [?a <=? value] => destruct (Z.leb_spec a value); [lia|] end.
    reflexivity.
  - replace (Z.max 0 (Z.min 5 value)) with 5 by lia.
    repeat match goal with |- context [?a <=? value] => destruct (Z.leb_spec a value); [|lia] end.
    reflexivity.
Qed.

(** X2.  In every state the component reaches after its mount the rating
    is 0 (unset) or the number of one of the five stars, and [StarRating]
    shows exactly that many filled stars. *)
Theorem rating_is_unset_or_a_star
    (host_date : json -> option Z) (ls : gmap jsstring jsstring) (now : Z)
    (es : list Event) (w0 w : World) :
  mount host_date ls now = Running w0 -> run es w0 = Some w ->
  (rating (ui w) = 0 \/ In (rating (ui w)) stars)
  /\ Z.of_nat (length (List.filter snd (StarRating (rating (ui w))))) = rating (ui w).
Proof.
  intros Hmount Hrun. apply mount_invariants in Hmount as (Hr & _).
  assert (H : 0 <= rating (ui w) <= 5).
  { apply (run_preserves_all (fun w => 0 <= rating (ui w) <= 5) step_rating es w0 w);
      [lia | assumption]. }
  assert (Hcases : rating (ui w) = 0 \/ rating (ui w) = 1 \/ rating (ui w) = 2
                   \/ rating (ui w) = 3 \/ rating (ui w) = 4 \/ rating (ui w) = 5) by lia.
  destruct Hcases as [->|[->|[->|[->|[->| ->]]]]]; cbn; split; auto 10.
Qed.

(** Witness of X2: the third star clicked on the short review. *)
Lemma rating_is_unset_or_a_star_witness :
  mount strict_host ∅ 0 = Running landing_world
  /\ run [Choose shortReview; Rate 3] landing_world
     = Some (mkWorld (mkState short_review ∅ ∅ false None false None 3) ∅ None 0%nat None)
  /\ In 3 stars.
Proof.
  assert (Hmount : mount strict_host ∅ 0 = Running landing_world) by reflexivity.
  assert (Hrun : run [Choose shortReview; Rate 3] landing_world
                 = Some (mkWorld (mkState short_review ∅ ∅ false None false None 3)
                           ∅ None 0%nat None)) by reflexivity.
  split; [exact Hmount|]. split; [exact Hrun|].
  destruct (rating_is_unset_or_a_star strict_host ∅ 0 _ _ _ Hmount Hrun) as [[H|H] _].
  - discriminate H.
  - exact H.
Defined.

(** X3.  After the mount, [isSubmitting] is set exactly while a
    [handleSubmit] awaits its [fetch].  While one does, the submit button
    accepts no click, so no second request starts; while none does, no
    response can arrive. *)
Theorem requests_never_overlap
    (host_date : json -> option Z) (ls : gmap jsstring jsstring) (now : Z)
    (es : list Event) (w0 w : World) :
  mount host_date ls now = Running w0 -> run es w0 = Some w ->
  (isSubmitting (ui w) = true <-> is_Some (awaiting w))
  /\ fst (submit_button (ui w)) = isSubmitting (ui w)
  /\ (is_Some (awaiting w) ->
        forall now' env, step (Submit now' env) w = None
                         /\ request_sent (Submit now' env) w = None)
  /\ (awaiting w = None -> forall o, step (FetchSettles o) w = None).
Proof.
  intros Hmount Hrun. apply mount_invariants in Hmount as (_ & _ & Hf & _).
  assert (H : fetch_tracked w)
    by (apply (run_preserves_all fetch_tracked step_fetch_tracked es w0 w); assumption).
  unfold fetch_tracked in H. split; [exact H|]. split; [reflexivity|]. split.
  - intros Ha now' env. apply H in Ha. cbn [step request_sent]. rewrite Ha.
    destruct (on_track (currentPage (ui w))); split; reflexivity.
  - intros Ha o. cbn [step]. rewrite Ha. reflexivity.
Qed.

(** Witness of X3: a second click while the first request is pending. *)
Lemma requests_never_overlap_witness :
  exists w,
    mount strict_host ∅ 0 = Running landing_world
    /\ run [Choose shortReview; Submit 0 sample_env] landing_world = Some w
    /\ step (Submit 1 sample_env) w = None.
Proof.
  assert (Hmount : mount strict_host ∅ 0 = Running landing_world) by reflexivity.
  destruct (run [Choose shortReview; Submit 0 sample_env] landing_world) as [w|] eqn:Hrun;
    [|discriminate Hrun].
  exists w. split; [exact Hmount|]. split; [reflexivity|].
  destruct (requests_never_overlap strict_host ∅ 0 _ _ _ Hmount Hrun) as (_ & _ & Hbusy & _).
  apply Hbusy. injection Hrun as <-. eexists. reflexivity.
Defined.

(** ** What the request holds for a field of a form *)

Lemma error_line_verdict (id value : jsstring) (required : bool) :
  error_line (Some (validateField id value required)) = validateField id value required.
Proof.
  unfold validateField.
  destruct (required && _); [reflexivity|]. destruct (_ && _); reflexivity.
Qed.





(** X5.  The component reads and writes one key of the storage: after a
    mount that does not throw and any run, every other key holds what it
    held before the mount. *)
Theorem only_the_draft_key_is_written
    (host_date : json -> option Z) (ls : gmap jsstring jsstring) (now : Z)
    (es : list Event) (w0 w : World) (k : jsstring) :
  mount host_date ls now = Running w0 -> run es w0 = Some w ->
  k <> js "testimonial_draft" ->
  localStorage w !! k = ls !! k.
Proof.
  intros Hmount Hrun Hk. apply mount_invariants in Hmount as (_ & _ & _ & _ & Hls).
  apply (run_preserves_all (fun w => localStorage w !! k = ls !! k)) with (es := es) (w := w0);
    [|rewrite Hls; reflexivity | assumption].
  intros e w1 w2 H1 Hstep. rewrite <- H1. apply (step_storage_frame k e); assumption.
Qed.

(** Witness of X5: a storage with a key of another script, a draft saved
    and a submission. *)
Lemma only_the_draft_key_is_written_witness :
  exists w,
    mount strict_host {[ js "theme" := js "dark" ]} 0
    = Running (mkWorld initialState {[ js "theme" := js "dark" ]} None 0%nat None)
    /\ run [Choose deepDive; Edit (js "name") (js "Ada"); SaveTimer 0; Submit 0 sample_env;
            FetchSettles (Responded 200)]
         (mkWorld initialState {[ js "theme" := js "dark" ]} None 0%nat None) = Some w
    /\ localStorage w !! js "theme" = Some (js "dark").
Proof.
  assert (Hmount : mount strict_host {[ js "theme" := js "dark" ]} 0
                   = Running (mkWorld initialState {[ js "theme" := js "dark" ]} None 0%nat None))
    by (vm_compute; reflexivity).
  destruct (run [Choose deepDive; Edit (js "name") (js "Ada"); SaveTimer 0; Submit 0 sample_env;
                 FetchSettles (Responded 200)]
              (mkWorld initialState {[ js "theme" := js "dark" ]} None 0%nat None))
    as [w|] eqn:Hrun; [|vm_compute in Hrun; discriminate Hrun].
  exists w. split; [exact Hmount|]. split; [reflexivity|].
  rewrite (only_the_draft_key_is_written strict_host _ 0 _ _ w (js "theme") Hmount Hrun)
    by discriminate.
  vm_compute. reflexivity.
Defined.

(** X6.  After the mount, the auto-save timer is pending only on the
    deep-dive page and only with the record on screen: when it fires it
    writes exactly the current, non-empty record under the draft key, sets
    [draftSaved], and is not pending any more. *)
Theorem the_timer_saves_the_record_on_screen
    (host_date : json -> option Z) (ls : gmap jsstring jsstring) (now : Z)
    (es : list Event) (w0 w w' : World) (saved : Z) :
  mount host_date ls now = Running w0 -> run es w0 = Some w ->
  step (SaveTimer saved) w = Some w' ->
  currentPage (ui w) = testimonial_deepdive
  /\ formData (ui w) <> ∅
  /\ localStorage w'
     = <[js "testimonial_draft" := JSON_stringify (draft_json (formData (ui w)) saved)]>
         (localStorage w)
  /\ ui w' = setDraftSaved true (ui w)
  /\ (forall t, step (SaveTimer t) w' = None).
Proof.
  intros Hmount Hrun Hstep. apply mount_invariants in Hmount as (_ & Ht & _).
  assert (H : timer_current w)
    by (apply (run_preserves_all timer_current step_timer_current es w0 w); assumption).
  cbn [step] in Hstep. unfold saveTimerFires in Hstep.
  destruct (saveTimer w) as [d|] eqn:E; [|discriminate].
  destruct (H d E) as (-> & Hpage & Hne). injection Hstep as <-.
  split; [exact Hpage|]. split; [exact Hne|]. repeat split.
Qed.

(** Witness of X6: a name typed on the deep dive, and the timer. *)
Lemma the_timer_saves_the_record_on_screen_witness :
  exists w w',
    mount strict_host ∅ 0 = Running landing_world
    /\ run [Choose deepDive; Edit (js "name") (js "Ada")] landing_world = Some w
    /\ step (SaveTimer 1700000000000) w = Some w'
    /\ localStorage w' !! js "testimonial_draft"
       = Some (jsq "{'data':{'name':'Ada'},'timestamp':'2023-11-14T22:13:20.000Z'}").
Proof.
  assert (Hmount : mount strict_host ∅ 0 = Running landing_world) by reflexivity.
  destruct (run [Choose deepDive; Edit (js "name") (js "Ada")] landing_world)
    as [w|] eqn:Hrun; [|vm_compute in Hrun; discriminate Hrun].
  destruct (step (SaveTimer 1700000000000) w) as [w'|] eqn:Hstep;
    [|vm_compute in Hrun; injection Hrun as <-; vm_compute in Hstep; discriminate Hstep].
  exists w, w'. split; [exact Hmount|]. split; [reflexivity|]. split; [exact Hstep|].
  destruct (the_timer_saves_the_record_on_screen strict_host ∅ 0 _ _ _ _ _ Hmount Hrun Hstep)
    as (_ & _ & -> & _).
  rewrite lookup_insert_eq. vm_compute in Hrun. injection Hrun as <-. vm_compute. reflexivity.
Defined.



(** X8.  What a reload brings back is the record and nothing else.  On the
    deep-dive page, an edit followed by the auto-save timer stores the
    record; a mount less than 24 hours later starts on the landing page with
    that record in [formData], and with the rating, the attachment, the
    errors and the rest of the state as in a first visit. *)
Theorem a_reload_restores_the_record_only
    (host_date : json -> option Z) (w : World) (id value : jsstring) (saved now : Z) :
  currentPage (ui w) = testimonial_deepdive -> wf_FormData (formData (ui w)) ->
  Forall code_unit id -> Forall code_unit value ->
  0 <= saved < 253402300800000 -> now - saved < 24 * 60 * 60 * 1000 ->
  exists w1,
    run [Edit id value; SaveTimer saved] w = Some w1
    /\ rating (ui w1) = rating (ui w) /\ uploadedFile (ui w1) = uploadedFile (ui w)
    /\ mount host_date (localStorage w1) now
       = Running (mkWorld (setFormData (<[id := value]> (formData (ui w))) initialState)
                    (localStorage w1) None 0%nat None).
Proof.
  intros Hpage Hwf Hid Hvalue Hsaved Hage.
  set (d := <[id := value]> (formData (ui w))).
  assert (Hd : wf_FormData d) by (apply wf_FormData_insert; assumption).
  assert (Htimer : saveTimer (handleInputChange id value w) = Some d).
  { unfold handleInputChange. cbn [commit saveTimer].
    rewrite autoSaveEffect_deepdive; [reflexivity | exact Hpage | apply insert_non_empty]. }
  exists (saveTimerFires saved (handleInputChange id value w)). split; [|split; [|split]].
  - cbn [run step]. rewrite Hpage. cbn [on_track]. rewrite Htimer. reflexivity.
  - unfold saveTimerFires. rewrite Htimer. reflexivity.
  - unfold saveTimerFires. rewrite Htimer. reflexivity.
  - unfold saveTimerFires. rewrite Htimer. cbn [localStorage]. unfold mount.
    rewrite (loadDraft_stored host_date _ d saved now Hd Hsaved (lookup_saveDraft _ saved _)).
    replace (now - saved <? 24 * 60 * 60 * 1000) with true by (symmetry; apply Z.ltb_lt; lia).
    rewrite as_FormData_json. reflexivity.
Qed.

(** Witness of X8: the sample world, with the rating 4, five seconds
    before the reload. *)
Lemma a_reload_restores_the_record_only_witness :
  exists w1 w2,
    run [Edit (js "company") (js "Acme"); SaveTimer 1700000000000] sample_world = Some w1
    /\ rating (ui w1) = 4
    /\ mount strict_host (localStorage w1) 1700000005000 = Running w2
    /\ rating (ui w2) = 0 /\ currentPage (ui w2) = landing
    /\ formData (ui w2) = <[js "company" := js "Acme"]> sample_record.
Proof.
  destruct (a_reload_restores_the_record_only strict_host sample_world (js "company")
              (js "Acme") 1700000000000 1700000005000 eq_refl sample_record_wf
              (js_code_units "company") (js_code_units "Acme") ltac:(lia) ltac:(lia))
    as (w1 & Hrun & Hrating & _ & Hmount).
  exists w1. eexists. split; [exact Hrun|]. split; [exact Hrating|].
  split; [exact Hmount|]. repeat split.
Defined.

(** X9.  The text of the success page follows the track that was
    submitted: the label the clicked button passed to [handleSubmit] is
    written to [formData.formType] when the response arrives, whatever the
    user did in between (going back, choosing the other track, editing). *)
Theorem the_thanks_follow_the_submitted_track
    (w w' : World) (t : Track) (now : Z) (env : Env) (es : list Event) (status : Z) :
  currentPage (ui w) = track_page t -> isSubmitting (ui w) = false ->
  Forall (fun e => forall o, e <> FetchSettles o) es ->
  200 <= status <= 299 ->
  run (Submit now env :: es ++ [FetchSettles (Responded status)]) w = Some w' ->
  currentPage (ui w') = success
  /\ formData (ui w') !! js "formType" = Some (track_label t)
  /\ success_message (ui w')
     = match t with shortReview => THANKS_SHORT | deepDive => THANKS_DEEP end.
Proof.
  intros Hpage Hsub Hes Hstatus Hrun.
  cbn [run step] in Hrun. rewrite Hpage, Hsub in Hrun.
  replace (on_track (track_page t)) with (Some t) in Hrun by (destruct t; reflexivity).
  rewrite run_app in Hrun.
  set (w1 := fst (handleSubmit_begin (track_label t) now env w)) in Hrun.
  destruct (run es w1) as [w2|] eqn:Hes2; [|discriminate].
  assert (Hpending : isSubmitting (ui w2) = true /\ awaiting w2 = Some (track_label t)).
  { apply (run_preserves
             (fun w => isSubmitting (ui w) = true /\ awaiting w = Some (track_label t))
             (fun e => forall o, e <> FetchSettles o)) with (es := es) (w := w1);
      [|assumption | split; reflexivity | assumption].
    clear. intros e w w' He [Hs Ha] Hstep.
    destruct e; cbn [step] in Hstep;
      repeat match type of Hstep with
        | (if bool_decide ?P then _ else _) = _ => destruct (bool_decide_reflect P)
        | (match on_track ?p with _ => _ end) = _ => destruct (on_track p) eqn:?
        | (match ?x with _ => _ end) = _ => destruct x eqn:?
        end;
      try discriminate Hstep; try (injection Hstep as <-; split; assumption).
    all: try (exfalso; eapply He; reflexivity).
    all: try (exfalso; congruence).
    all: injection Hstep as <-.
    + destruct (upload_outcomes selected read_ok w)
        as (_ & _ & _ & -> & [-> | [(msg & _ & ->) | (file & _ & _ & _ & ->)]]);
        split; assumption.
    + unfold saveTimerFires. destruct (saveTimer w); split; assumption.
    + unfold flagTimerFires. destruct (flagTimers w); split; assumption. }
  destruct Hpending as [_ Ha]. cbn [run step] in Hrun. rewrite Ha in Hrun.
  injection Hrun as <-. unfold handleSubmit_end.
  replace (response_ok (Responded status)) with true
    by (symmetry; apply andb_true_iff; rewrite !Z.leb_le; lia).
  unfold success_message. cbn [ui currentPage formData setIsSubmitting setFormData
                                 setCurrentPage].
  rewrite lookup_insert_eq. split; [reflexivity|]. split; [reflexivity|].
  destruct t; reflexivity.
Qed.

(** Witness of X9: a deep-dive submission, and a visit to the short review
    while the request is pending. *)
Lemma the_thanks_follow_the_submitted_track_witness :
  exists w',
    run (Submit 0 sample_env
         :: [GoBack; Choose shortReview] ++ [FetchSettles (Responded 200)]) sample_world
    = Some w'
    /\ currentPage (ui w') = success /\ success_message (ui w') = THANKS_DEEP.
Proof.
  destruct (run (Submit 0 sample_env
                 :: [GoBack; Choose shortReview] ++ [FetchSettles (Responded 200)])
              sample_world) as [w'|] eqn:Hrun; [|vm_compute in Hrun; discriminate Hrun].
  exists w'. split; [reflexivity|].
  destruct (the_thanks_follow_the_submitted_track sample_world w' deepDive 0 sample_env
              [GoBack; Choose shortReview] 200 eq_refl eq_refl) as (Hpage & _ & Hmsg);
    [repeat constructor; intros o; discriminate | lia | exact Hrun |].
  split; assumption.
Defined.

(** X10.  The note that a draft was saved never sticks: in every state
    the component reaches after its mount in which [draftSaved] is set, the
    timer that clears it is pending, and when it fires the note is gone. *)
Theorem the_saved_note_is_always_cleared
    (host_date : json -> option Z) (ls : gmap jsstring jsstring) (now : Z)
    (es : list Event) (w0 w : World) :
  mount host_date ls now = Running w0 -> run es w0 = Some w ->
  draftSaved (ui w) = true ->
  exists w', step FlagTimer w = Some w' /\ draftSaved (ui w') = false.
Proof.
  intros Hmount Hrun Hflag. apply mount_invariants in Hmount as (_ & _ & _ & Hf & _).
  assert (H : flag_tracked w)
    by (apply (run_preserves_all flag_tracked step_flag_tracked es w0 w); assumption).
  specialize (H Hflag). cbn [step]. unfold flagTimerFires.
  destruct (flagTimers w) as [|n]; [congruence|]. eexists. split; reflexivity.
Qed.

(** Witness of X10: the state right after a save. *)
Lemma the_saved_note_is_always_cleared_witness :
  exists w w',
    mount strict_host ∅ 0 = Running landing_world
    /\ run [Choose deepDive; Edit (js "name") (js "Ada"); SaveTimer 0] landing_world = Some w
    /\ draftSaved (ui w) = true
    /\ step FlagTimer w = Some w' /\ draftSaved (ui w') = false.
Proof.
  assert (Hmount : mount strict_host ∅ 0 = Running landing_world) by reflexivity.
  destruct (run [Choose deepDive; Edit (js "name") (js "Ada"); SaveTimer 0] landing_world)
    as [w|] eqn:Hrun; [|vm_compute in Hrun; discriminate Hrun].
  assert (Hflag : draftSaved (ui w) = true).
  { vm_compute in Hrun. injection Hrun as <-. reflexivity. }
  destruct (the_saved_note_is_always_cleared strict_host ∅ 0 _ _ w Hmount Hrun Hflag)
    as (w' & Hstep & Hoff).
  exists w, w'. split; [exact Hmount|]. split; [reflexivity|]. split; [exact Hflag|].
  split; assumption.
Defined.

(** X11.  Every request the component sends carries valid JSON.  Start
    from a mount whose record holds strings; after any run of events made of
    strings and files, the body of the request a click on the submit button
    sends is the text of the payload of the current state, and [JSON.parse]
    reads that payload back from it. *)
Theorem every_request_body_is_json
    (host_date : json -> option Z) (ls : gmap jsstring jsstring) (now : Z)
    (es : list Event) (w0 w : World) (now' : Z) (env : Env) (req : Request) :
  mount host_date ls now = Running w0 -> wf_FormData (formData (ui w0)) ->
  Forall wf_Event es -> run es w0 = Some w -> wf_Env env ->
  request_sent (Submit now' env) w = Some req ->
  exists t,
    currentPage (ui w) = track_page t
    /\ req = request_of (payload (track_label t) now' env (ui w))
    /\ JSON_parse (req_body req) = Some (JObj (payload (track_label t) now' env (ui w))).
Proof.
  intros Hmount Hfd Hes Hrun Henv Hreq.
  apply mount_running in Hmount as [d ->]. cbn in Hfd.
  assert (Hwf : wf_World w).
  { eapply (run_preserves wf_World wf_Event step_wf_World es); [exact Hes | | exact Hrun].
    split; [|split; intros ? [=]]. split; [exact Hfd|]. split; [cbn; lia | exact I]. }
  destruct Hwf as (Hst & _).
  cbn [request_sent] in Hreq.
  destruct (on_track (currentPage (ui w))) as [t|] eqn:Ht; [|discriminate].
  destruct (isSubmitting (ui w)); [discriminate|]. injection Hreq as <-.
  exists t. split; [|split; [reflexivity|]].
  - destruct (currentPage (ui w)), t; try discriminate; reflexivity.
  - apply request_body_parses; [destruct t; apply js_code_units | assumption | assumption].
Qed.

(** Witness of X11: a rating, an attachment and a name on the deep dive. *)
Lemma every_request_body_is_json_witness :
  exists w req,
    mount strict_host ∅ 0 = Running landing_world
    /\ run [Choose deepDive; Rate 5; SelectFile (Some small_png) true;
            Edit (js "name") (js "Ada")] landing_world = Some w
    /\ request_sent (Submit 1700000000000 sample_env) w = Some req
    /\ exists body, JSON_parse (req_body req) = Some (JObj body)
                    /\ obj_get (js "rating") body = Some (JNum 5).
Proof.
  assert (Hmount : mount strict_host ∅ 0 = Running landing_world) by reflexivity.
  assert (Hes : Forall wf_Event [Choose deepDive; Rate 5; SelectFile (Some small_png) true;
                                 Edit (js "name") (js "Ada")]).
  { repeat first [apply js_code_units | exact I | constructor];
      try (cbn; lia); unfold is_byte; lia. }
  assert (Henv : wf_Env sample_env) by (split; apply js_code_units).
  destruct (run [Choose deepDive; Rate 5; SelectFile (Some small_png) true;
                 Edit (js "name") (js "Ada")] landing_world)
    as [w|] eqn:Hrun; [|vm_compute in Hrun; discriminate Hrun].
  destruct (request_sent (Submit 1700000000000 sample_env) w) as [req|] eqn:Hreq.
  2: { vm_compute in Hrun. injection Hrun as <-. vm_compute in Hreq. discriminate Hreq. }
  destruct (every_request_body_is_json strict_host ∅ 0 _ _ w 1700000000000 sample_env req
              Hmount wf_FormData_empty Hes Hrun Henv Hreq) as (t & _ & _ & Hparse).
  exists w, req. split; [exact Hmount|]. split; [reflexivity|]. split; [exact Hreq|].
  eexists. split; [exact Hparse|].
  unfold payload. rewrite !obj_get_set. cbn [obj_get].
  rewrite (decide_False (P := js "rating" = js "referrer")) by discriminate.
  rewrite (decide_False (P := js "rating" = js "userAgent")) by discriminate.
  rewrite (decide_False (P := js "rating" = js "file")) by discriminate.
  rewrite (decide_True (P := js "rating" = js "rating")) by reflexivity.
  vm_compute in Hrun. injection Hrun as <-. reflexivity.
Defined.

(** ** What an edit shows *)

Lemma field_value_insert (id value : jsstring) (d : gmap jsstring jsstring) :
  field_value (<[id := value]> d) id = value.
Proof. unfold field_value. rewrite lookup_insert_eq. destruct value; reflexivity. Qed.

Lemma field_value_insert_ne (id id' value : jsstring) (d : gmap jsstring jsstring) :
  id' <> id -> field_value (<[id := value]> d) id' = field_value d id'.
Proof. intros Hne. unfold field_value. rewrite lookup_insert_ne by congruence. reflexivity. Qed.

(** X12.  An edit changes what one control shows and nothing else.  After
    [handleInputChange id value], the text control of that [id] shows
    [value], counts its length, and has under it the verdict of
    [validateField id value true]; every control of another id is rendered
    as before, and the page, the rating, the attachment and the submit error
    are what they were. *)
Theorem an_edit_changes_one_control (id value : jsstring) (w : World) (c : Control) :
  let st := ui w in
  let st' := ui (handleInputChange id value w) in
  (control_id c <> id -> render_control st' c = render_control st c)
  /\ (forall type required maxLength,
        render_control st' (TextInput id type required maxLength)
        = TextInputView type (negb required) value maxLength
            (match maxLength with
             | None => NoCounter
             | Some m => if m =? 0 then BareZero else Count (Z.of_nat (length value)) m
             end)
            (validateField id value true))
  /\ (forall required,
        render_control st' (TextArea id required None)
        = TextAreaView (negb required) value 1000 (Count (Z.of_nat (length value)) 1000)
            (validateField id value true))
  /\ currentPage st' = currentPage st /\ rating st' = rating st
  /\ uploadedFile st' = uploadedFile st /\ submitError st' = submitError st
  /\ isSubmitting st' = isSubmitting st.
Proof.
  cbv zeta. unfold handleInputChange.
  cbn [ui commit setErrors setFormData formData errors currentPage rating uploadedFile
         submitError isSubmitting].
  split; [|split; [|split]].
  - intros Hne. destruct c; cbn [control_id] in Hne;
      cbn [render_control formData errors setErrors setFormData].
    all: rewrite field_value_insert_ne, lookup_insert_ne by congruence; reflexivity.
  - intros type required maxLength. cbn [render_control formData errors setErrors setFormData].
    rewrite field_value_insert, lookup_insert_eq, error_line_verdict. reflexivity.
  - intros required. cbn [render_control formData errors setErrors setFormData default].
    rewrite field_value_insert, lookup_insert_eq, error_line_verdict. reflexivity.
  - repeat split.
Qed.

(** X13.  A radio group shows the stored choice.  For the two radio
    groups of the forms, whose choices are distinct: after a click on one
    of the choices exactly that radio is checked and no error is shown under
    the group; while the record has no value for the group, no radio is
    checked. *)
Theorem a_choice_checks_exactly_its_radio
    (p : PageType) (id : jsstring) (choices : list jsstring) (required : bool)
    (choice : jsstring) (w : World) :
  In (SingleChoice id choices required) (form_of p) -> In choice choices ->
  render_control (ui (handleInputChange id choice w)) (SingleChoice id choices required)
  = SingleChoiceView (map (fun x => (x, bool_decide (x = choice))) choices) None
  /\ NoDup choices
  /\ (formData (ui w) !! id = None ->
        render_control (ui w) (SingleChoice id choices required)
        = SingleChoiceView (map (fun x => (x, false)) choices)
            (error_line (errors (ui w) !! id))).
Proof.
  intros Hin Hchoice.
  assert (Hform : (id = js "permission" /\ choices = [js "Yes"; js "No"])
                  \/ (id = js "q8_feature_permission"
                      /\ choices = [js "Yes, absolutely";
                                    js "Yes, but please check with me first";
                                    js "No, keep it private"])).
  { destruct p; cbn in Hin;
      repeat (destruct Hin as [Hin|Hin];
              [first [discriminate Hin | injection Hin as <- <- _; auto]|]);
      destruct Hin. }
  assert (Hid : id <> js "email") by (destruct Hform as [[-> _]|[-> _]]; discriminate).
  assert (Hne : choice <> []).
  { destruct Hform as [[_ ->]|[_ ->]]; cbn in Hchoice;
      repeat (destruct Hchoice as [<-|Hchoice]; [discriminate|]); destruct Hchoice. }
  split; [|split].
  - unfold handleInputChange.
    cbn [ui commit setErrors setFormData formData errors render_control].
    rewrite field_value_insert, lookup_insert_eq, error_line_verdict.
    unfold validateField. rewrite bool_decide_eq_false_2 by assumption.
    destruct choice; [congruence|]. cbn [andb]. f_equal.
    apply map_ext. intros x. f_equal. apply bool_decide_ext. split; congruence.
  - destruct Hform as [[_ ->]|[_ ->]];
      repeat (constructor; [rewrite ?elem_of_cons, elem_of_nil; intros H;
                            repeat (destruct H as [H|H]; [discriminate H|]); exact H|]);
      constructor.
  - intros Hnone. cbn [render_control]. unfold field_value. rewrite Hnone. f_equal.
    apply map_ext_in. intros x Hx. f_equal. apply bool_decide_eq_false_2.
    intros <-. destruct Hform as [[_ ->]|[_ ->]]; cbn in Hx;
      repeat (destruct Hx as [Hx|Hx]; [discriminate Hx|]); destruct Hx.
Qed.

(** Witness of X13: the permission of the short review, answered No. *)
Lemma a_choice_checks_exactly_its_radio_witness :
  In (SingleChoice (js "permission") [js "Yes"; js "No"] true) (form_of short_review)
  /\ In (js "No") [js "Yes"; js "No"]
  /\ render_control (ui (handleInputChange (js "permission") (js "No") landing_world))
       (SingleChoice (js "permission") [js "Yes"; js "No"] true)
     = SingleChoiceView [(js "Yes", false); (js "No", true)] None.
Proof.
  assert (H1 : In (SingleChoice (js "permission") [js "Yes"; js "No"] true)
                 (form_of short_review)) by (cbn; auto 20).
  assert (H2 : In (js "No") [js "Yes"; js "No"]) by (right; left; reflexivity).
  split; [exact H1|]. split; [exact H2|].
  destruct (a_choice_checks_exactly_its_radio short_review _ _ _ _ landing_world H1 H2)
    as (-> & _). reflexivity.
Defined.

(** ** Keys that stay *)





(** ** The debounce *)

Lemma edit_on_the_deep_dive (id value : jsstring) (w : World) :
  currentPage (ui w) = testimonial_deepdive ->
  step (Edit id value) w = Some (handleInputChange id value w)
  /\ currentPage (ui (handleInputChange id value w)) = testimonial_deepdive
  /\ formData (ui (handleInputChange id value w)) = <[id := value]> (formData (ui w))
  /\ saveTimer (handleInputChange id value w) = Some (<[id := value]> (formData (ui w)))
  /\ localStorage (handleInputChange id value w) = localStorage w
  /\ flagTimers (handleInputChange id value w) = flagTimers w.
Proof.
  intros Hpage. split; [cbn [step]; rewrite Hpage; reflexivity|].
  split; [exact Hpage|]. split; [reflexivity|]. split; [|split; reflexivity].
  unfold handleInputChange. cbn [commit saveTimer].
  rewrite autoSaveEffect_deepdive; [reflexivity | exact Hpage | apply insert_non_empty].
Qed.

Lemma edits_on_the_deep_dive (edits : list (jsstring * jsstring)) : forall w : World,
  currentPage (ui w) = testimonial_deepdive ->
  exists w1,
    run (map (fun kv => Edit (fst kv) (snd kv)) edits) w = Some w1
    /\ currentPage (ui w1) = testimonial_deepdive
    /\ formData (ui w1) = fold_left (fun d kv => <[fst kv := snd kv]> d) edits (formData (ui w))
    /\ (edits <> [] -> saveTimer w1 = Some (formData (ui w1)))
    /\ localStorage w1 = localStorage w
    /\ flagTimers w1 = flagTimers w.
Proof.
  induction edits as [|[id value] edits IH]; intros w Hpage.
  - exists w. repeat split; [assumption | congruence].
  - destruct (edit_on_the_deep_dive id value w Hpage) as (Hstep & Hp & Hfd & Ht & Hls & Hfl).
    destruct (IH _ Hp) as (w1 & Hrun & Hp1 & Hfd1 & Ht1 & Hls1 & Hfl1).
    exists w1. cbn [map run fst snd]. rewrite Hstep.
    split; [exact Hrun|]. split; [exact Hp1|].
    split; [rewrite Hfd1, Hfd; reflexivity|].
    split; [|split; congruence].
    intros _. destruct edits as [|kv edits]; [|apply Ht1; discriminate].
    cbn in Hrun. injection Hrun as <-. rewrite Ht, Hfd. reflexivity.
Qed.

(** X15.  A burst of edits is saved once.  On the deep-dive page, every
    edit puts the timer back to its start with the new record, so after any
    non-empty sequence of edits one firing of the timer writes the record
    with all the edits applied; [draftSaved] is set, one timer that clears
    it is added, and no save is pending any more. *)
Theorem a_burst_of_edits_is_saved_once
    (w : World) (edits : list (jsstring * jsstring)) (saved : Z) :
  currentPage (ui w) = testimonial_deepdive -> edits <> [] ->
  exists w',
    run (map (fun kv => Edit (fst kv) (snd kv)) edits ++ [SaveTimer saved]) w = Some w'
    /\ formData (ui w')
       = fold_left (fun d kv => <[fst kv := snd kv]> d) edits (formData (ui w))
    /\ localStorage w'
       = <[js "testimonial_draft" := JSON_stringify (draft_json (formData (ui w')) saved)]>
           (localStorage w)
    /\ draftSaved (ui w') = true
    /\ flagTimers w' = S (flagTimers w)
    /\ saveTimer w' = None.
Proof.
  intros Hpage Hne.
  destruct (edits_on_the_deep_dive edits w Hpage) as (w1 & Hrun & _ & Hfd & Ht & Hls & Hfl).
  specialize (Ht Hne). exists (saveTimerFires saved w1).
  split; [rewrite run_app, Hrun; cbn [run step]; rewrite Ht; reflexivity|].
  unfold saveTimerFires. rewrite Ht. cbn. rewrite Hls, Hfl, Hfd. repeat split.
Qed.

(** Witness of X15: two fields typed on the deep dive, one of them
    twice. *)
Lemma a_burst_of_edits_is_saved_once_witness :
  exists w',
    run (map (fun kv => Edit (fst kv) (snd kv))
           [(js "name", js "A"); (js "role", js "CTO"); (js "name", js "Ada")]
         ++ [SaveTimer 1700000000000]) sample_world = Some w'
    /\ localStorage w' !! js "testimonial_draft"
       = Some (JSON_stringify
                 (draft_json (<[js "name" := js "Ada"]> (<[js "role" := js "CTO"]>
                                (<[js "name" := js "A"]> sample_record))) 1700000000000))
    /\ flagTimers w' = 1%nat.
Proof.
  destruct (a_burst_of_edits_is_saved_once sample_world
              [(js "name", js "A"); (js "role", js "CTO"); (js "name", js "Ada")]
              1700000000000 eq_refl ltac:(discriminate))
    as (w' & Hrun & Hfd & Hls & _ & Hfl & _).
  exists w'. split; [exact Hrun|]. split; [|exact Hfl].
  rewrite Hls, lookup_insert_eq, Hfd. reflexivity.
Defined.

(** X16.  Leaving the deep dive cancels the pending save, and coming back
    starts it again.  Going back from the deep-dive page leaves no timer
    pending, so a record typed less than three seconds before is not
    written; choosing the short review starts no timer; choosing the deep
    dive again starts one with the record as it is, if the record has a key
    (whichever form it was typed on). *)
Theorem leaving_the_deep_dive_cancels_the_save (w : World) :
  currentPage (ui w) = testimonial_deepdive ->
  exists w1,
    step GoBack w = Some w1
    /\ saveTimer w1 = None
    /\ (forall t, step (SaveTimer t) w1 = None)
    /\ formData (ui w1) = formData (ui w)
    /\ localStorage w1 = localStorage w
    /\ (exists w2, step (Choose shortReview) w1 = Some w2 /\ saveTimer w2 = None)
    /\ (exists w2, step (Choose deepDive) w1 = Some w2
                   /\ saveTimer w2
                      = if decide (formData (ui w) = ∅) then None else Some (formData (ui w))).
Proof.
  intros Hpage. exists (navigate landing w).
  assert (Ht : saveTimer (navigate landing w) = None).
  { unfold navigate. rewrite Hpage. cbn. reflexivity. }
  split; [cbn [step]; rewrite Hpage; reflexivity|]. split; [exact Ht|].
  split; [intros t; cbn [step]; rewrite Ht; reflexivity|].
  split; [reflexivity|]. split; [reflexivity|]. split.
  - eexists. split; [reflexivity|]. reflexivity.
  - eexists. split; [reflexivity|].
    cbn [navigate track_page ui commit currentPage setCurrentPage saveTimer].
    rewrite bool_decide_eq_false_2 by discriminate. cbn [negb].
    match goal with |- autoSaveEffect ?x = _ => set (st2 := x) end.
    assert (Hfd : formData st2 = formData (ui w)) by reflexivity.
    destruct (decide (formData (ui w) = ∅)) as [E|E].
    + unfold autoSaveEffect. rewrite Hfd, E, map_size_empty, andb_false_r. reflexivity.
    + rewrite <- Hfd. apply autoSaveEffect_deepdive; [reflexivity | rewrite Hfd; exact E].
Qed.

(** Witness of X16: the sample world. *)
Lemma leaving_the_deep_dive_cancels_the_save_witness :
  exists w1 w2,
    step GoBack sample_world = Some w1 /\ saveTimer w1 = None
    /\ step (Choose deepDive) w1 = Some w2 /\ saveTimer w2 = Some sample_record.
Proof.
  destruct (leaving_the_deep_dive_cancels_the_save sample_world eq_refl)
    as (w1 & Hback & Ht & _ & _ & _ & _ & (w2 & Hchoose & Ht2)).
  exists w1, w2. split; [exact Hback|]. split; [exact Ht|]. split; [exact Hchoose|].
  rewrite Ht2. rewrite decide_False; [reflexivity|]. apply insert_non_empty.
Defined.
